(** * coreDAQ host driver (coredaq_py_api.py): a shallow embedding

    The driver turns a serial command channel into a calibrated
    optical-power API.  This development embeds its conversion engine,
    zero-offset manager, frontend gate, bulk transfer decoder, the
    frequency/oversampling coupling and the autogain loop, and states the
    properties of the specification over that embedding.

    Numbers.  Python [int] is [Z].  Python [float] is embedded as an exact
    canonical rational [Qc]: every value the driver computes from ADC codes,
    millivolt tables and calibration constants is a rational, and the
    arithmetic operators are the exact ones (no binary64 rounding, no NaN
    and no infinity).  The two libm calls of the driver, [10.0 ** y] and
    [math.log10], have irrational results and stay uninterpreted: they are
    the Section variables [pow10] and [log10].  The builtin [round] is the
    exact round-half-to-even. *)

From Stdlib Require Import ZArith QArith Qcanon Qround List Lia Lqa Bool String Ascii DecimalString.
From Stdlib Require Strings.Byte.
From Stdlib Require DecimalPos DecimalFacts.
Import ListNotations.

Set Implicit Arguments.

(* ------------------------------------------------------------------ *)
(** ** Python numbers *)

Module PyNum.

Local Open Scope Qc_scope.

Definition qc (n : Z) (d : positive) : Qc := Q2Qc (n # d).

(** [float(n)] for an integer [n]. *)
Definition of_int (n : Z) : Qc := Q2Qc (inject_Z n).

Definition leb (x y : Qc) : bool := Qle_bool x y.
Definition ltb (x y : Qc) : bool := negb (Qle_bool y x).
Definition eqb (x y : Qc) : bool := Qeq_bool x y.

(** The builtin [abs]. *)
Definition abs (x : Qc) : Qc := if ltb x 0 then - x else x.

(** Nearest integer of [n/d], ties to the even neighbour. *)
Definition half_even (q : Q) : Z :=
  let n := Qnum q in
  let d := Z.pos (Qden q) in
  let f := (n / d)%Z in
  let r := (n mod d)%Z in
  match (2 * r ?= d)%Z with
  | Lt => f
  | Gt => (f + 1)%Z
  | Eq => if Z.even f then f else (f + 1)%Z
  end.

(** [round(x)]: a Python [int]. *)
Definition round_int (x : Qc) : Z := half_even x.

(** [round(x, n)]: the multiple of [10^-n] nearest to [x], ties to even. *)
Definition round_nd (x : Qc) (n : Z) : Qc :=
  if (0 <=? n)%Z
  then Q2Qc (inject_Z (half_even (x * of_int (10 ^ n))%Qc) / inject_Z (10 ^ n))
  else Q2Qc (inject_Z (half_even (x / of_int (10 ^ (- n)))%Qc * 10 ^ (- n))).

End PyNum.

(* ------------------------------------------------------------------ *)
(** ** Exceptions and results *)

Inductive frontend : Type := LINEAR | LOG.

Definition frontend_eqb (a b : frontend) : bool :=
  match a, b with
  | LINEAR, LINEAR | LOG, LOG => true
  | _, _ => false
  end.

(** The messages of [CoreDAQError] keep the values the f-strings print. *)
Inductive coredaq_msg : Type :=
| NotSupported (feature : string) (actual expected : frontend)
| DeviceTimeout
| LutNotLoaded
| LutEmpty
| LutLengthMismatch
| DeviceSaid (payload : string)
| InvalidSlope (head gain : Z)
| CommandFailed (command payload : string)       (* "<command> failed: <payload>" *)
| GainFailed (head : Z) (payload : string)        (* "GAIN <head> failed: <payload>" *)
| UnexpectedPayload (command payload : string)
| XferRefused (line : string)
| ParseMismatch (expected got : Z)
| FreqRange
| OsRange.

Inductive exn : Type :=
| CoreDAQError (m : coredaq_msg)
| ValueError (m : string)
| IndexError
| TimeoutError (got needed : Z).

Inductive result (A : Type) : Type :=
| Ok (a : A)
| Raise (e : exn).
Arguments Ok {A} a.
Arguments Raise {A} e.

Definition rbind {A B} (r : result A) (k : A -> result B) : result B :=
  match r with
  | Ok a => k a
  | Raise e => Raise e
  end.

Declare Scope result_scope.
Delimit Scope result_scope with result.
Notation "x <- r ;; k" := (rbind r (fun x => k))
  (at level 61, r at next level, right associativity) : result_scope.

(** [l[i]] with Python's negative indices; [IndexError] out of range. *)
Definition py_index {A} (l : list A) (i : Z) : result A :=
  let n := Z.of_nat (List.length l) in
  let j := if (i <? 0)%Z then (i + n)%Z else i in
  if ((0 <=? j) && (j <? n))%Z%bool
  then match nth_error l (Z.to_nat j) with
       | Some a => Ok a
       | None => Raise IndexError
       end
  else Raise IndexError.

Fixpoint mapM {A B} (f : A -> result B) (l : list A) : result (list B) :=
  match l with
  | [] => Ok []
  | a :: t => (b <- f a ;; bs <- mapM f t ;; Ok (b :: bs))%result
  end.

(* ------------------------------------------------------------------ *)
(** ** Four channels

    [snapshot_adc] builds its two results with exactly four entries, the
    zero vectors are written only as four-element lists and every loop runs
    over [range(4)]: a per-channel list is a four-tuple here. *)

Record vec4 (A : Type) : Type := V4 { ch1 : A; ch2 : A; ch3 : A; ch4 : A }.
Arguments V4 {A} ch1 ch2 ch3 ch4.

Definition vget {A} (v : vec4 A) (ch : nat) : A :=
  match ch with
  | O => ch1 v
  | 1%nat => ch2 v
  | 2%nat => ch3 v
  | _ => ch4 v
  end.

Definition vmap {A B} (f : A -> B) (v : vec4 A) : vec4 B :=
  V4 (f (ch1 v)) (f (ch2 v)) (f (ch3 v)) (f (ch4 v)).

Definition vmap2 {A B C} (f : A -> B -> C) (v : vec4 A) (w : vec4 B) : vec4 C :=
  V4 (f (ch1 v) (ch1 w)) (f (ch2 v) (ch2 w)) (f (ch3 v) (ch3 w)) (f (ch4 v) (ch4 w)).

Definition vlist {A} (v : vec4 A) : list A := [ch1 v; ch2 v; ch3 v; ch4 v].

(** [for ch in range(4)] with a body that may raise: channels in order,
    the first exception ends the loop. *)
Definition vforM {B} (body : nat -> result B) : result (vec4 B) :=
  (b0 <- body 0%nat ;; b1 <- body 1%nat ;; b2 <- body 2%nat ;; b3 <- body 3%nat ;;
   Ok (V4 b0 b1 b2 b3))%result.

(* ------------------------------------------------------------------ *)
(** ** Text helpers ([str.startswith], slicing, [str.strip]) *)

Module Text.

Definition startswith (p s : string) : bool := String.prefix p s.

(** [s[n:]] *)
Definition drop (n : nat) (s : string) : string :=
  String.substring n (String.length s - n) s.

Definition is_space (c : ascii) : bool :=
  let n := nat_of_ascii c in
  ((n =? 32) || ((9 <=? n) && (n <=? 13)))%nat.

Fixpoint lstrip (s : string) : string :=
  match s with
  | String c t => if is_space c then lstrip t else s
  | EmptyString => EmptyString
  end.

Fixpoint rev_onto (s acc : string) : string :=
  match s with
  | String c t => rev_onto t (String c acc)
  | EmptyString => acc
  end.

Definition rev (s : string) : string := rev_onto s EmptyString.

Definition strip (s : string) : string := rev (lstrip (rev (lstrip s))).

Definition upper_char (c : ascii) : ascii :=
  let n := nat_of_ascii c in
  if ((97 <=? n) && (n <=? 122))%nat then ascii_of_nat (n - 32) else c.

Fixpoint upper (s : string) : string :=
  match s with
  | String c t => String (upper_char c) (upper t)
  | EmptyString => EmptyString
  end.

(** [s.replace(" ", "")] *)
Fixpoint remove_blanks (s : string) : string :=
  match s with
  | String c t => if (nat_of_ascii c =? 32)%nat then remove_blanks t
                  else String c (remove_blanks t)
  | EmptyString => EmptyString
  end.

(** [p in s] *)
Definition contains (p s : string) : bool :=
  match String.index 0 p s with
  | Some _ => true
  | None => false
  end.

End Text.

(* ------------------------------------------------------------------ *)
(** ** The serial port

    The port is what the driver can observe of the device: the lines
    [readline] will return, the blocks [read] will return, and the outcomes
    of the [SNAP] exchanges.  What the driver writes is recorded in [sent].
    The settle delays ([time.sleep]) have no effect on these values and are
    left out. *)

Inductive command : Type :=
| HEAD_TYPE_q
| IDN_q
| I2C_REFRESH
| FACTORY_ZEROS_q
| GAIN (head value : Z)
| GAINS_q
| FREQ (hz : Z)
| FREQ_q
| OS (idx : Z)
| OS_q
| XFER (nbytes : Z)
| SNAP (n_frames : Z).

(** [warnings.warn(..., RuntimeWarning)] of [set_freq] and [set_oversampling]. *)
Inductive warning : Type :=
| OsAutoAdjusted (cur_os hz new_os : Z)
| OsRequestInvalid (os_idx hz new_os : Z).

Inductive event : Type :=
| Sent (c : command)
| Warned (w : warning).

Record port : Type := mkPort {
  rx_lines : list string;                          (* each [readline()]; [""] is a timeout *)
  rx_blocks : list (list Byte.byte);                       (* bytes arriving before each [read] timeout *)
  rx_snaps : list (result (vec4 Z * vec4 Z));      (* each [snapshot_adc] outcome *)
  sent : list event                                (* newest first *)
}.

Definition io (A : Type) : Type := port -> result A * port.

Definition ret {A} (a : A) : io A := fun p => (Ok a, p).
Definition throw {A} (e : exn) : io A := fun p => (Raise e, p).
Definition bind {A B} (m : io A) (k : A -> io B) : io B :=
  fun p => match m p with
           | (Ok a, p') => k a p'
           | (Raise e, p') => (Raise e, p')
           end.
Definition lift {A} (r : result A) : io A := fun p => (r, p).

Declare Scope io_scope.
Delimit Scope io_scope with io.
Notation "x <- m ;; k" := (bind m (fun x => k))
  (at level 61, m at next level, right associativity) : io_scope.
Notation "' pat <- m ;; k" := (bind m (fun x => match x with pat => k end))
  (at level 61, pat pattern, m at next level, right associativity) : io_scope.

Definition emit (e : event) : io unit :=
  fun p => (Ok tt, mkPort (rx_lines p) (rx_blocks p) (rx_snaps p) (e :: sent p)).

(** The events in the order they happened. *)
Definition trace (p : port) : list event := rev (sent p).

Local Open Scope io_scope.

Definition _writeln (c : command) : io unit := emit (Sent c).

Definition _readline : io string :=
  fun p => match rx_lines p with
           | raw :: rest =>
               let p' := mkPort rest (rx_blocks p) (rx_snaps p) (sent p) in
               if String.eqb raw EmptyString
               then (Raise (CoreDAQError DeviceTimeout), p')
               else (Ok (Text.strip raw), p')
           | [] => (Raise (CoreDAQError DeviceTimeout), p)
           end.

Inductive status : Type := ST_OK | ST_ERR | ST_BUSY.

Definition status_eqb (a b : status) : bool :=
  match a, b with
  | ST_OK, ST_OK | ST_ERR, ST_ERR | ST_BUSY, ST_BUSY => true
  | _, _ => false
  end.

Definition _ask (c : command) : io (status * string) :=
  _ <- _writeln c ;;
  line <- _readline ;;
  if Text.startswith "OK" line then ret (ST_OK, Text.strip (Text.drop 2 line))
  else if Text.startswith "ERR" line then ret (ST_ERR, Text.strip (Text.drop 3 line))
  else if Text.startswith "BUSY" line then ret (ST_BUSY, EmptyString)
  else ret (ST_ERR, line).

(** [ser.read(n)]: at most [n] bytes of the block that arrives next; what
    is left of the block stays buffered. *)
Definition ser_read (n : Z) : io (list Byte.byte) :=
  fun p => match rx_blocks p with
           | blk :: rest =>
               let k := Z.to_nat n in
               let r := firstn k blk in
               let left := skipn k blk in
               let blocks := match left with [] => rest | _ => left :: rest end in
               (Ok r, mkPort (rx_lines p) blocks (rx_snaps p) (sent p))
           | [] => (Ok [], p)
           end.

(** [snapshot_adc]: the [SNAP] exchange, by its outcome. *)
Definition snapshot_adc (n_frames : Z) : io (vec4 Z * vec4 Z) :=
  fun p => let p1 := mkPort (rx_lines p) (rx_blocks p) (rx_snaps p) (Sent (SNAP n_frames) :: sent p) in
           match rx_snaps p with
           | r :: rest => (r, mkPort (rx_lines p) (rx_blocks p) rest (sent p1))
           | [] => (Raise (CoreDAQError DeviceTimeout), p1)
           end.

(* ------------------------------------------------------------------ *)
(** ** The session object *)

Record CoreDAQ : Type := mkCoreDAQ {
  frontend_type : frontend;
  cal_slope : vec4 (list Qc);          (* [head][gain], mV per W *)
  cal_intercept : vec4 (list Qc);      (* [head][gain], mV *)
  mv_zero_threshold : Qc;
  factory_zero_adc : vec4 Z;
  linear_zero_adc : vec4 Z;
  loglut_V_V : option (list Qc);
  loglut_log10P : option (list Qc);
  loglut_V_mV : option (list Z);
  loglut_log10P_Q16 : option (list Z);
  log_deadband_mV : Qc
}.

Definition ADC_BITS : Z := 16.
Definition ADC_VFS_VOLTS : Qc := PyNum.qc 5 1.
Definition ADC_LSB_VOLTS : Qc :=
  (PyNum.qc 2 1 * ADC_VFS_VOLTS / PyNum.of_int (2 ^ ADC_BITS))%Qc.
Definition NUM_HEADS : Z := 4.
Definition NUM_GAINS : Z := 8.

Definition _require_frontend (self : CoreDAQ) (expected : frontend) (feature : string)
  : result unit :=
  if negb (frontend_eqb (frontend_type self) expected)
  then Raise (CoreDAQError (NotSupported feature (frontend_type self) expected))
  else Ok tt.

(* ------------------------------------------------------------------ *)
(** ** LOG conversion: volts to power through the lookup table *)

(** [bisect.bisect_left(a, x)]: the loop of the library, [lo] and [hi]
    closing in; each turn shrinks [hi - lo], so [length a] turns suffice. *)
Fixpoint bisect_loop (fuel : nat) (a : list Qc) (x : Qc) (lo hi : nat) : nat :=
  match fuel with
  | O => lo
  | S fuel' =>
      if (lo <? hi)%nat
      then let mid := ((lo + hi) / 2)%nat in
           match nth_error a mid with
           | Some am => if PyNum.ltb am x
                        then bisect_loop fuel' a x (S mid) hi
                        else bisect_loop fuel' a x lo mid
           | None => lo
           end
      else lo
  end.

Definition bisect_left (a : list Qc) (x : Qc) : nat :=
  bisect_loop (List.length a) a x 0 (List.length a).


Definition lsb_mV : Qc := (ADC_LSB_VOLTS * PyNum.qc 1000 1)%Qc.

Definition with_zeros (self : CoreDAQ) (factory active : vec4 Z) : CoreDAQ :=
  mkCoreDAQ (frontend_type self) (cal_slope self) (cal_intercept self)
            (mv_zero_threshold self) factory active
            (loglut_V_V self) (loglut_log10P self) (loglut_V_mV self)
            (loglut_log10P_Q16 self) (log_deadband_mV self).

Definition with_deadband (self : CoreDAQ) (db : Qc) : CoreDAQ :=
  mkCoreDAQ (frontend_type self) (cal_slope self) (cal_intercept self)
            (mv_zero_threshold self) (factory_zero_adc self) (linear_zero_adc self)
            (loglut_V_V self) (loglut_log10P self) (loglut_V_mV self)
            (loglut_log10P_Q16 self) db.

Definition vec4_Z_eqb (a b : vec4 Z) : bool :=
  ((ch1 a =? ch1 b) && (ch2 a =? ch2 b) && (ch3 a =? ch3 b) && (ch4 a =? ch4 b))%Z.

Definition zero4 : vec4 Z := V4 0%Z 0%Z 0%Z 0%Z.

(* ------------------------------------------------------------------ *)
(** ** Frequency and oversampling caps (pure part) *)

Definition _max_freq_for_os (os_idx : Z) : result Z :=
  if negb ((0 <=? os_idx) && (os_idx <=? 7))%Z
  then Raise (ValueError "os_idx must be 0..7")
  else let base := 100000%Z in
       if (os_idx <=? 1)%Z then Ok base
       else Ok (base / 2 ^ (os_idx - 1))%Z.

(** The [for os_idx in range(0, 8)] loop with its [break]. *)
Fixpoint best_os_scan (hz : Z) (idxs : list Z) (best : Z) : result Z :=
  match idxs with
  | [] => Ok best
  | os_idx :: rest =>
      (cap <- _max_freq_for_os os_idx ;;
       if (hz <=? cap)%Z then best_os_scan hz rest os_idx else Ok best)%result
  end.

Definition _best_os_for_freq (hz : Z) : result Z :=
  if (hz <=? 0)%Z then Raise (ValueError "hz must be > 0")
  else if (100000 <? hz)%Z then Raise (ValueError "hz must be <= 100000")
  else best_os_scan hz [0; 1; 2; 3; 4; 5; 6; 7]%Z 0%Z.

(* ------------------------------------------------------------------ *)
(** ** Bulk transfer: decoding the payload *)

(** One little-endian signed 16-bit sample. *)
Definition int16_le (lo hi : Byte.byte) : Z :=
  let u := (Z.of_N (Byte.to_N lo) + 256 * Z.of_N (Byte.to_N hi))%Z in
  if (u <? 32768)%Z then u else (u - 65536)%Z.

(** [array('h').frombytes(buf)] on a little-endian view. *)
Fixpoint samples_of_bytes (buf : list Byte.byte) : list Z :=
  match buf with
  | lo :: hi :: rest => int16_le lo hi :: samples_of_bytes rest
  | _ => []
  end.

(** [samples[c::4]]: [skip] entries are passed over before the next one is kept. *)
Fixpoint stride4 (skip : nat) (samples : list Z) : list Z :=
  match samples with
  | [] => []
  | a :: rest =>
      match skip with
      | O => a :: stride4 3 rest
      | S k => stride4 k rest
      end
  end.

Definition deinterleave (samples : list Z) : vec4 (list Z) :=
  V4 (stride4 0 samples) (stride4 1 samples) (stride4 2 samples) (stride4 3 samples).

Definition chunk : Z := 262144.

(** The [while got < bytes_needed] loop.  Every turn that does not raise
    adds at least one byte, so [bytes_needed] turns are enough; the
    [fuel = 0] case is never reached with bytes still missing. *)
Fixpoint read_loop (fuel : nat) (bytes_needed got : Z) (buf : list Byte.byte)
  : io (list Byte.byte) :=
  if (got <? bytes_needed)%Z
  then match fuel with
       | O => throw (TimeoutError got bytes_needed)
       | S fuel' =>
           r <- ser_read (Z.min chunk (bytes_needed - got)) ;;
           match r with
           | [] => throw (TimeoutError got bytes_needed)
           | _ => read_loop fuel' bytes_needed (got + Z.of_nat (List.length r)) (buf ++ r)
           end
       end
  else ret buf.

Definition transfer_frames_adc (frames : Z) : io (vec4 (list Z)) :=
  if (frames <=? 0)%Z then throw (ValueError "frames must be > 0")
  else
    let bytes_needed := (frames * 4 * 2)%Z in
    _ <- _writeln (XFER bytes_needed) ;;
    line <- _readline ;;
    if negb (Text.startswith "OK" line) then throw (CoreDAQError (XferRefused line))
    else
      buf <- read_loop (Z.to_nat bytes_needed) bytes_needed 0 [] ;;
      let chans := deinterleave (samples_of_bytes buf) in
      let got := Z.of_nat (List.length (ch1 chans)) in
      if negb (got =? frames)%Z
      then throw (CoreDAQError (ParseMismatch frames got))
      else ret chans.

Definition transfer_frames_raw (frames : Z) : io (vec4 (list Z)) :=
  transfer_frames_adc frames.

(* ------------------------------------------------------------------ *)
(** ** The driver proper *)

Section Driver.

(** [10.0 ** y] and [math.log10 x] ([None]: ValueError, math domain error). *)
Variable pow10 : Qc -> Qc.
Variable log10 : Qc -> option Qc.
(** [int(s, 0)], [None] for its ValueError. *)
Variable parse_int : string -> option Z.
(** The text processing of [get_gains] and of [_load_factory_zeros]
    ([str.replace], [str.split], [int]) on a reply payload. *)
Variable parse_gains : string -> option (vec4 Z).
Variable parse_factory_zeros : string -> result (vec4 Z).
(** The [CAL <head> <gain>] exchanges: the 4 x 8 slopes and intercepts;
    the [LOGCAL 1] exchange: the decoded records (V_mV, log10P_Q16). *)
Variable cal_exchange : io (vec4 (list Qc) * vec4 (list Qc)).
Variable logcal_exchange : io (list (Z * Z)).

(** *** LOG lookup table *)

Definition interp_one (xs ys : list Qc) (x : Qc) : result Qc :=
  (x_first <- py_index xs 0 ;;
   if PyNum.leb x x_first
   then y_first <- py_index ys 0 ;; Ok (pow10 y_first)
   else
     x_last <- py_index xs (-1) ;;
     if PyNum.leb x_last x
     then y_last <- py_index ys (-1) ;; Ok (pow10 y_last)
     else
       let j := Z.of_nat (bisect_left xs x) in
       x0 <- py_index xs (j - 1) ;;
       x1 <- py_index xs j ;;
       y0 <- py_index ys (j - 1) ;;
       y1 <- py_index ys j ;;
       let y := if PyNum.eqb x1 x0
                then y0
                else let t := ((x - x0) / (x1 - x0))%Qc in
                     (y0 + t * (y1 - y0))%Qc in
       Ok (pow10 y))%result.

(** The scalar call [voltage_to_power_W(v)]. *)
Definition voltage_to_power_W (self : CoreDAQ) (v_volts : Qc) : result Qc :=
  (_ <- _require_frontend self LOG "voltage_to_power_W" ;;
   match loglut_V_V self, loglut_log10P self with
   | Some xs, Some ys => interp_one xs ys v_volts
   | _, _ => Raise (CoreDAQError LutNotLoaded)
   end)%result.


(** *** LINEAR zeroing *)

Definition _load_factory_zeros (self : CoreDAQ) : io (CoreDAQ * vec4 Z) :=
  _ <- lift (_require_frontend self LINEAR "_load_factory_zeros") ;;
  '(st, payload) <- _ask FACTORY_ZEROS_q ;;
  if negb (status_eqb st ST_OK)
  then throw (CoreDAQError (CommandFailed "FACTORY_ZEROS?" payload))
  else
    z <- lift (parse_factory_zeros payload) ;;
    ret (with_zeros self z z, z).

Definition refresh_factory_zeros (self : CoreDAQ) : io (CoreDAQ * vec4 Z) :=
  if negb (frontend_eqb (frontend_type self) LINEAR)
  then ret (self, zero4)
  else _load_factory_zeros self.

Definition get_linear_zero_adc (self : CoreDAQ) : vec4 Z :=
  if negb (frontend_eqb (frontend_type self) LINEAR) then zero4
  else linear_zero_adc self.

Definition get_factory_zero_adc (self : CoreDAQ) : vec4 Z :=
  if negb (frontend_eqb (frontend_type self) LINEAR) then zero4
  else factory_zero_adc self.

(** Returns [None]; the session after the call is the result here. *)
Definition set_soft_zero_adc (self : CoreDAQ) (z1 z2 z3 z4 : Z) : CoreDAQ :=
  if negb (frontend_eqb (frontend_type self) LINEAR) then self
  else with_zeros self (factory_zero_adc self) (V4 z1 z2 z3 z4).

Definition restore_factory_zero (self : CoreDAQ) : io CoreDAQ :=
  if negb (frontend_eqb (frontend_type self) LINEAR) then ret self
  else
    let restored := with_zeros self (factory_zero_adc self) (factory_zero_adc self) in
    if vec4_Z_eqb (factory_zero_adc self) zero4
    then fun p => match _load_factory_zeros self p with
                  | (Ok (self', _), p') => (Ok self', p')
                  | (Raise _, p') => (Ok restored, p')       (* except Exception: pass *)
                  end
    else ret restored.

Definition soft_zero_from_snapshot (self : CoreDAQ) (n_frames : Z)
  : io (CoreDAQ * (vec4 Z * vec4 Z)) :=
  _ <- lift (_require_frontend self LINEAR "soft_zero_from_snapshot") ;;
  if (n_frames <=? 0)%Z then throw (ValueError "n_frames must be > 0")
  else
    '(codes, gains) <- snapshot_adc n_frames ;;
    ret (with_zeros self (factory_zero_adc self) codes, (codes, gains)).

Definition _apply_linear_zero_ch (self : CoreDAQ) (codes : vec4 Z) : vec4 Z :=
  if negb (frontend_eqb (frontend_type self) LINEAR) then codes
  else vmap2 Z.sub codes (linear_zero_adc self).

(** *** LOG deadband controls *)

Definition set_log_deadband_mV (self : CoreDAQ) (deadband_mV : Qc) : result CoreDAQ :=
  if PyNum.ltb deadband_mV 0 then Raise (ValueError "deadband_mV must be >= 0")
  else Ok (with_deadband self deadband_mV).

Definition get_log_deadband_mV (self : CoreDAQ) : Qc := log_deadband_mV self.

(** *** Snapshots *)

(** [use_zero] is the legacy keyword of the signature. *)
Definition snapshot_volts (self : CoreDAQ) (n_frames : Z) (use_zero : option bool)
  : io (vec4 Qc * vec4 Z) :=
  '(codes, gains) <- snapshot_adc n_frames ;;
  let codes := _apply_linear_zero_ch self codes in
  let v := vmap (fun c => (PyNum.of_int c * ADC_LSB_VOLTS)%Qc) codes in
  ret (v, gains).

Definition snapshot_mV (self : CoreDAQ) (n_frames : Z) (use_zero : option bool)
  : io (vec4 Qc * vec4 Z) :=
  '(codes, gains) <- snapshot_adc n_frames ;;
  let codes := _apply_linear_zero_ch self codes in
  let mv := vmap (fun c => (PyNum.of_int c * lsb_mV)%Qc) codes in
  let mv := vmap (fun x => PyNum.round_nd x 3) mv in
  ret (mv, gains).

(** *** Gains *)

Definition set_gain (self : CoreDAQ) (head value : Z) : io unit :=
  _ <- lift (_require_frontend self LINEAR "set_gain") ;;
  if negb ((1 <=? head) && (head <=? 4))%Z then throw (ValueError "head must be 1..4")
  else if negb ((0 <=? value) && (value <=? 7))%Z
  then throw (ValueError "gain value must be 0..7")
  else
    '(st, payload) <- _ask (GAIN head value) ;;
    if negb (status_eqb st ST_OK)
    then throw (CoreDAQError (GainFailed head payload))
    else ret tt.

Definition get_gains (self : CoreDAQ) : io (vec4 Z) :=
  _ <- lift (_require_frontend self LINEAR "get_gains") ;;
  '(st, payload) <- _ask GAINS_q ;;
  if negb (status_eqb st ST_OK)
  then throw (CoreDAQError (CommandFailed "GAINS?" payload))
  else match parse_gains payload with
       | Some g => ret g
       | None => throw (CoreDAQError (UnexpectedPayload "GAINS?" payload))
       end.

(** *** LINEAR conversion of one reading *)

Definition linear_decimals (slope_mV_per_W : Qc) : result Z :=
  let power_lsb := (lsb_mV / slope_mV_per_W)%Qc in
  if PyNum.leb power_lsb 0 then Ok 0%Z
  else match log10 power_lsb with
       | Some l => Ok (Z.max 0 (Z.min 12 (PyNum.round_int (- l)%Qc)))
       | None => Raise (ValueError "math domain error")
       end.

Definition linear_power (slope_mV_per_W intercept_mV mv_corr : Qc) (decimals : Z) : Qc :=
  let p_w := ((mv_corr - intercept_mV) / slope_mV_per_W)%Qc in
  let p_w := if PyNum.ltb p_w 0 then 0%Qc else p_w in
  PyNum.round_nd p_w decimals.

(** The body of [for ch in range(4)] in the LINEAR branch of [snapshot_W]. *)
Definition snapshot_W_linear_ch (self : CoreDAQ) (mv : vec4 Qc) (gains : vec4 Z) (ch : nat)
  : result Qc :=
  (let gain := vget gains ch in
   slope_mV_per_W <- py_index (vget (cal_slope self) ch) gain ;;
   intercept_mV <- py_index (vget (cal_intercept self) ch) gain ;;
   if PyNum.eqb slope_mV_per_W 0
   then Raise (CoreDAQError (InvalidSlope (Z.of_nat ch + 1) gain))
   else
     let mv_corr := vget mv ch in
     if PyNum.ltb (PyNum.abs mv_corr) (mv_zero_threshold self) then Ok 0%Qc
     else
       decimals <- linear_decimals slope_mV_per_W ;;
       Ok (linear_power slope_mV_per_W intercept_mV mv_corr decimals))%result.

(** The body of [for ch_idx in range(4)] in the LINEAR branch of
    [transfer_frames_W]. *)
Definition transfer_W_linear_ch (self : CoreDAQ) (mv_ch : vec4 (list Qc)) (gains : vec4 Z)
           (ch_idx : nat) : result (list Qc) :=
  (let gain := vget gains ch_idx in
   slope_mV_per_W <- py_index (vget (cal_slope self) ch_idx) gain ;;
   intercept_mV <- py_index (vget (cal_intercept self) ch_idx) gain ;;
   if PyNum.eqb slope_mV_per_W 0
   then Raise (CoreDAQError (InvalidSlope (Z.of_nat ch_idx + 1) gain))
   else
     decimals <- linear_decimals slope_mV_per_W ;;
     Ok (map (fun mv_corr =>
                if PyNum.ltb (PyNum.abs mv_corr) (mv_zero_threshold self) then 0%Qc
                else linear_power slope_mV_per_W intercept_mV mv_corr decimals)
             (vget mv_ch ch_idx)))%result.

(** *** LOG conversion of one reading *)

Definition active_deadband (self : CoreDAQ) (log_deadband_mV_arg : option Qc) : Qc :=
  match log_deadband_mV_arg with
  | None => log_deadband_mV self
  | Some d => d
  end.

(** The body of [for ch in range(4)] in the LOG branch of [snapshot_W]. *)
Definition snapshot_W_log_ch (self : CoreDAQ) (db : Qc) (mv_corr : Qc) : result Qc :=
  if PyNum.ltb 0 db && PyNum.ltb (PyNum.abs mv_corr) db then Ok 0%Qc
  else let v := (mv_corr / PyNum.qc 1000 1)%Qc in
       voltage_to_power_W self v.

(** The body of [for v in v_ch[ch_idx]] in the LOG branch of [transfer_frames_W]. *)
Definition transfer_W_log_sample (self : CoreDAQ) (db : Qc) (v : Qc) : result Qc :=
  let mv_equiv := (v * PyNum.qc 1000 1)%Qc in
  if PyNum.ltb 0 db && PyNum.ltb (PyNum.abs mv_equiv) db then Ok 0%Qc
  else voltage_to_power_W self v.

(** *** Autogain *)

Definition autogain_channel (self : CoreDAQ) (min_mv max_mv : Qc)
           (mv_now : vec4 Qc) (gains : vec4 Z) (ch : nat) : io bool :=
  let vabs := PyNum.abs (vget mv_now ch) in
  let g := vget gains ch in
  let head := (Z.of_nat ch + 1)%Z in
  if PyNum.ltb vabs min_mv && (g <? 7)%Z
  then _ <- set_gain self head (g + 1) ;; ret true
  else if PyNum.ltb max_mv vabs && (0 <? g)%Z
  then _ <- set_gain self head (g - 1) ;; ret true
  else ret false.

(** One turn of the inner [for ch in range(4)]: the final [changed]. *)
Definition autogain_pass (self : CoreDAQ) (min_mv max_mv : Qc)
           (mv_now : vec4 Qc) (gains : vec4 Z) : io bool :=
  c0 <- autogain_channel self min_mv max_mv mv_now gains 0 ;;
  c1 <- autogain_channel self min_mv max_mv mv_now gains 1 ;;
  c2 <- autogain_channel self min_mv max_mv mv_now gains 2 ;;
  c3 <- autogain_channel self min_mv max_mv mv_now gains 3 ;;
  ret (c0 || c1 || c2 || c3).

(** [for _ in range(max_iters)] with its [break]. *)
Fixpoint autogain_loop (self : CoreDAQ) (n_frames : Z) (min_mv max_mv : Qc) (iters : nat)
  : io unit :=
  match iters with
  | O => ret tt
  | S iters' =>
      '(mv_now, gains) <- snapshot_mV self n_frames None ;;
      changed <- autogain_pass self min_mv max_mv mv_now gains ;;
      if negb changed then ret tt
      else autogain_loop self n_frames min_mv max_mv iters'
  end.

(** *** snapshot_W *)

(** The result is [out], with [(mv, gains)] beside it when [return_debug]
    is set on a LINEAR device. *)
Definition snapshot_W (self : CoreDAQ) (n_frames : Z) (use_zero : option bool)
           (autogain : bool) (min_mv max_mv : Qc) (max_iters : Z)
           (return_debug : bool) (log_deadband_mV_arg : option Qc)
  : io (vec4 Qc * option (vec4 Qc * vec4 Z)) :=
  match frontend_type self with
  | LOG =>
      '(mv, _gains) <- snapshot_mV self n_frames None ;;
      let db := active_deadband self log_deadband_mV_arg in
      out <- lift (vforM (fun ch => snapshot_W_log_ch self db (vget mv ch))) ;;
      ret (out, None)
  | LINEAR =>
      _ <- (if autogain
            then autogain_loop self n_frames min_mv max_mv (Z.to_nat max_iters)
            else ret tt) ;;
      '(mv, gains) <- snapshot_mV self n_frames None ;;
      out <- lift (vforM (snapshot_W_linear_ch self mv gains)) ;;
      if return_debug then ret (out, Some (mv, gains)) else ret (out, None)
  end.

(** *** Bulk transfer conversions *)

Definition transfer_frames_mV (self : CoreDAQ) (frames : Z) (use_zero : option bool)
           (log_deadband_mV_arg : option Qc) : io (vec4 (list Qc)) :=
  ch <- transfer_frames_adc frames ;;
  match frontend_type self with
  | LINEAR =>
      ret (vmap2 (fun z codes => map (fun code => (PyNum.of_int (code - z) * lsb_mV)%Qc) codes)
                 (linear_zero_adc self) ch)
  | LOG =>
      let db := active_deadband self log_deadband_mV_arg in
      ret (vmap (fun lst =>
                   let mv_list := map (fun x => (PyNum.of_int x * lsb_mV)%Qc) lst in
                   if PyNum.ltb 0 db
                   then map (fun v => if PyNum.ltb (PyNum.abs v) db then 0%Qc else v) mv_list
                   else mv_list)
                ch)
  end.

Definition transfer_frames_volts (self : CoreDAQ) (frames : Z) (use_zero : option bool)
  : io (vec4 (list Qc)) :=
  mv <- transfer_frames_mV self frames use_zero None ;;
  ret (vmap (map (fun x => (x / PyNum.qc 1000 1)%Qc)) mv).

Definition transfer_frames_W (self : CoreDAQ) (frames : Z) (use_zero : option bool)
           (log_deadband_mV_arg : option Qc) : io (vec4 (list Qc)) :=
  if (frames <=? 0)%Z then throw (ValueError "frames must be > 0")
  else match frontend_type self with
       | LINEAR =>
           mv_ch <- transfer_frames_mV self frames None None ;;
           gains <- get_gains self ;;
           lift (vforM (transfer_W_linear_ch self mv_ch gains))
       | LOG =>
           v_ch <- transfer_frames_volts self frames None ;;
           let db := active_deadband self log_deadband_mV_arg in
           lift (vforM (fun ch_idx => mapM (transfer_W_log_sample self db) (vget v_ch ch_idx)))
       end.

(** *** Frequency and oversampling *)

Definition i2c_refresh : io unit :=
  '(st, payload) <- _ask I2C_REFRESH ;;
  if negb (status_eqb st ST_OK)
  then throw (CoreDAQError (CommandFailed "I2C REFRESH" payload))
  else ret tt.

Definition _parse_int (s : string) : result Z :=
  match parse_int s with
  | Some n => Ok n
  | None => Raise (ValueError "invalid literal for int()")
  end.

Definition get_oversampling : io Z :=
  '(st, p) <- _ask OS_q ;;
  if negb (status_eqb st ST_OK) then throw (CoreDAQError (DeviceSaid p))
  else lift (_parse_int p).

Definition get_freq_hz : io Z :=
  '(st, p) <- _ask FREQ_q ;;
  if negb (status_eqb st ST_OK) then throw (CoreDAQError (DeviceSaid p))
  else lift (_parse_int p).

Definition set_freq (hz : Z) : io unit :=
  if ((hz <=? 0) || (100000 <? hz))%Z then throw (CoreDAQError FreqRange)
  else
    '(st, p) <- _ask (FREQ hz) ;;
    if negb (status_eqb st ST_OK) then throw (CoreDAQError (DeviceSaid p))
    else
      cur_os <- get_oversampling ;;
      cap <- lift (_max_freq_for_os cur_os) ;;
      if (cap <? hz)%Z
      then
        new_os <- lift (_best_os_for_freq hz) ;;
        '(st, p) <- _ask (OS new_os) ;;
        if negb (status_eqb st ST_OK) then throw (CoreDAQError (DeviceSaid p))
        else emit (Warned (OsAutoAdjusted cur_os hz new_os))
      else ret tt.

Definition set_oversampling (os_idx : Z) : io unit :=
  if negb ((0 <=? os_idx) && (os_idx <=? 7))%Z then throw (CoreDAQError OsRange)
  else
    hz <- get_freq_hz ;;
    cap <- lift (_max_freq_for_os os_idx) ;;
    if (cap <? hz)%Z
    then
      new_os <- lift (_best_os_for_freq hz) ;;
      '(st, p) <- _ask (OS new_os) ;;
      if negb (status_eqb st ST_OK) then throw (CoreDAQError (DeviceSaid p))
      else emit (Warned (OsRequestInvalid os_idx hz new_os))
    else
      '(st, p) <- _ask (OS os_idx) ;;
      if negb (status_eqb st ST_OK) then throw (CoreDAQError (DeviceSaid p))
      else ret tt.

(** *** Session construction *)

Definition _detect_frontend_type_once : io frontend :=
  '(st, p) <- _ask HEAD_TYPE_q ;;
  if negb (status_eqb st ST_OK)
  then throw (CoreDAQError (CommandFailed "HEAD_TYPE?" p))
  else
    let txt := Text.remove_blanks (Text.upper (Text.strip p)) in
    if Text.contains "TYPE=LOG" txt then ret LOG
    else if Text.contains "TYPE=LINEAR" txt then ret LINEAR
    else throw (CoreDAQError (UnexpectedPayload "HEAD_TYPE?" p)).

Definition _load_linear_calibration (self : CoreDAQ) : io CoreDAQ :=
  '(slopes, intercepts) <- cal_exchange ;;
  ret (mkCoreDAQ (frontend_type self) slopes intercepts
                 (mv_zero_threshold self) (factory_zero_adc self) (linear_zero_adc self)
                 (loglut_V_V self) (loglut_log10P self) (loglut_V_mV self)
                 (loglut_log10P_Q16 self) (log_deadband_mV self)).

Definition _load_log_calibration (self : CoreDAQ) : io CoreDAQ :=
  records <- logcal_exchange ;;
  let V_mV := map fst records in
  let Q16 := map snd records in
  match V_mV with
  | [] => throw (CoreDAQError LutEmpty)
  | _ =>
      let V_V := map (fun v => (PyNum.of_int v / PyNum.qc 1000 1)%Qc) V_mV in
      let log10P := map (fun q => (PyNum.of_int q / PyNum.qc 65536 1)%Qc) Q16 in
      if negb (List.length V_V =? List.length log10P)%nat
      then throw (CoreDAQError LutLengthMismatch)
      else ret (mkCoreDAQ (frontend_type self) (cal_slope self) (cal_intercept self)
                          (mv_zero_threshold self) (factory_zero_adc self)
                          (linear_zero_adc self)
                          (Some V_V) (Some log10P) (Some V_mV) (Some Q16)
                          (log_deadband_mV self))
  end.

Definition _load_calibration_for_frontend (self : CoreDAQ) : io CoreDAQ :=
  match frontend_type self with
  | LINEAR => _load_linear_calibration self
  | LOG => _load_log_calibration self
  end.

Definition zero_table : vec4 (list Qc) :=
  let row := repeat 0%Qc (Z.to_nat NUM_GAINS) in V4 row row row row.

(** [CoreDAQ.__init__] *)
Definition CoreDAQ_init : io CoreDAQ :=
  fe <- _detect_frontend_type_once ;;
  let self := mkCoreDAQ fe zero_table zero_table 0%Qc zero4 zero4
                        None None None None (PyNum.qc 300 1) in
  _ <- i2c_refresh ;;
  self <- _load_calibration_for_frontend self ;;
  match frontend_type self with
  | LINEAR => '(self, _) <- _load_factory_zeros self ;; ret self
  | LOG => ret self
  end.

End Driver.

(* ------------------------------------------------------------------ *)
(** ** Reference definitions of the specification *)

(** Log-linear interpolation as the specification words it: clamp below
    the first knot, else clamp above the last knot, else search the knots
    in ascending order for the first adjacent pair whose upper voltage
    reaches [v], and interpolate [log10(power)] linearly between them. *)




(** The table of the specification's scenario. *)
Definition scenario_lut : CoreDAQ :=
  mkCoreDAQ LOG zero_table zero_table 0%Qc zero4 zero4
            (Some [PyNum.qc 0 1; PyNum.qc 1 1; PyNum.qc 2 1])
            (Some [PyNum.qc (-9) 1; PyNum.qc (-6) 1; PyNum.qc (-3) 1])
            (Some [0; 1000; 2000]%Z)
            (Some [-589824; -393216; -196608]%Z)
            (PyNum.qc 300 1).


(** Stand-ins for the libm calls where a concrete run is needed: the
    first returns its exponent unchanged (an injective function, as
    [10 ** y] is on the reals); the second is defined on positive
    arguments only, as [math.log10] is, and returns the decimal exponent of
    its argument's integer part. *)
Definition exponent_of (y : Qc) : Qc := y.

Definition log10_digits (x : Qc) : option Qc :=
  if PyNum.ltb 0 x
  then Some (PyNum.of_int (Z.log2 (Qfloor x) / 3))
  else None.

(** A reply line that [_ask] classifies as [OK], and its payload. *)
Definition reply_ok (raw : string) : bool :=
  negb (String.eqb raw EmptyString) && Text.startswith "OK" (Text.strip raw).

Definition ok_payload (raw : string) : string :=
  Text.strip (Text.drop 2 (Text.strip raw)).

(** A stand-in for [int(s, 0)] on plain decimal literals. *)
Definition int_literal (s : string) : option Z :=
  option_map Z.of_int (NilZero.int_of_string s).

(** The device of the scenario: it acknowledges [FREQ], reports
    oversampling index 6 and acknowledges [OS]. *)
Definition port_os6 : port :=
  mkPort ["OK"; "OK 6"; "OK"]%string [] [] [].

(** The highest oversampling index whose cap admits [hz]. *)
Definition highest_compatible_os (hz best : Z) : Prop :=
  (0 <= best <= 7)%Z /\
  (exists cap, _max_freq_for_os best = Ok cap /\ (hz <= cap)%Z) /\
  (forall i cap, _max_freq_for_os i = Ok cap -> (hz <= cap)%Z -> (i <= best)%Z).

(** A port on which nothing arrives and nothing was written. *)
Definition idle_port : port := mkPort [] [] [] [].

(** A stand-in for the payload parser of [_load_factory_zeros]. *)
Definition zeros_of_payload (payload : string) : result (vec4 Z) :=
  match int_literal payload with
  | Some z => Ok (V4 z z z z)
  | None => Raise (CoreDAQError (UnexpectedPayload "FACTORY_ZEROS?" payload))
  end.

(** A device that answers one snapshot: 1000 codes (152.588 mV) on
    channel 1, 3000 codes on the others. *)
Definition port_one_snapshot : port :=
  mkPort [] [] [Ok (V4 1000 3000 3000 3000, V4 0 0 0 0)]%Z [].

(** A LOG device at power-up: it identifies its head, acknowledges
    [I2C REFRESH] and streams the three records of the scenario table. *)
Definition port_log_powerup : port :=
  mkPort ["OK TYPE=LOG"; "OK"]%string [] [] [].

Definition logcal_three_points : io (list (Z * Z)) :=
  ret [(0, -589824); (1000, -393216); (2000, -196608)]%Z.

Definition cal_all_zero : io (vec4 (list Qc) * vec4 (list Qc)) :=
  ret (zero_table, zero_table).

(** A LINEAR session: slope 100 mV/W and intercept 5 mV in every cell,
    factory zeros as in the driver's docstring. *)
Definition linear_session : CoreDAQ :=
  let slopes := repeat (PyNum.qc 100 1) 8 in
  let intercepts := repeat (PyNum.qc 5 1) 8 in
  mkCoreDAQ LINEAR (V4 slopes slopes slopes slopes)
            (V4 intercepts intercepts intercepts intercepts)
            0%Qc (V4 836 835 834 839)%Z (V4 836 835 834 839)%Z
            None None None None (PyNum.qc 300 1).

(** A LINEAR device that answers one snapshot at gain 0. *)
Definition port_linear_snapshot : port :=
  mkPort [] [] [Ok (V4 1524 835 834 839, V4 0 0 0 0)]%Z [].

(** [max(0, x)] and [clamp(n, 0, 12)] of the specification. *)
Definition max0 (x : Qc) : Qc := if PyNum.leb 0%Qc x then x else 0%Qc.

Definition clamp_0_12 (n : Z) : Z := Z.max 0 (Z.min 12 n).

(** A LINEAR session whose calibration slope is negative: -100 mV/W,
    intercept 0 mV, zeros 0. *)
Definition inverted_session : CoreDAQ :=
  let slopes := repeat (PyNum.qc (-100) 1) 8 in
  let intercepts := repeat 0%Qc 8 in
  mkCoreDAQ LINEAR (V4 slopes slopes slopes slopes)
            (V4 intercepts intercepts intercepts intercepts)
            0%Qc zero4 zero4 None None None None (PyNum.qc 300 1).

(** The scale of a zero-subtracted code: [snapshot_mV] rounds the
    millivolts to three decimals, [transfer_frames_mV] does not. *)
Definition snapshot_scale (c : Z) : Qc := PyNum.round_nd (PyNum.of_int c * lsb_mV)%Qc 3.

Definition transfer_scale (c : Z) : Qc := (PyNum.of_int c * lsb_mV)%Qc.

(** The bytes a sequence of [read] calls can obtain before one of them
    times out: the blocks up to the first empty one. *)
Fixpoint stream (blocks : list (list Byte.byte)) : list Byte.byte :=
  match blocks with
  | [] => []
  | [] :: _ => []
  | blk :: rest => blk ++ stream rest
  end.

(** A device that acknowledges [XFER] and then delivers [n] zero bytes in
    one block. *)
Definition port_xfer (n : nat) : port :=
  mkPort ["OK"%string] [repeat Byte.x00 n] [] [].

(** What one channel of the autogain pass asks for: the next gain, or
    nothing. *)
Definition adjustment (min_mv max_mv reading : Qc) (g : Z) : option Z :=
  let vabs := PyNum.abs reading in
  if PyNum.ltb vabs min_mv && (g <? 7)%Z then Some (g + 1)%Z
  else if PyNum.ltb max_mv vabs && (0 <? g)%Z then Some (g - 1)%Z
  else None.

(** The gain commands one pass sends when none of them fails, in channel
    order. *)
Definition decisions (min_mv max_mv : Qc) (mv : vec4 Qc) (gains : vec4 Z) : list event :=
  flat_map (fun ch => match adjustment min_mv max_mv (vget mv ch) (vget gains ch) with
                      | Some v => [Sent (GAIN (Z.of_nat ch + 1) v)]
                      | None => []
                      end)
           [0; 1; 2; 3]%nat.

Definition is_snap (e : event) : bool :=
  match e with
  | Sent (SNAP _) => true
  | _ => false
  end.

Definition gain_cmd_in_range (e : event) : Prop :=
  match e with
  | Sent (GAIN head value) => (1 <= head <= 4 /\ 0 <= value <= 7)%Z
  | _ => True
  end.

Fixpoint no_two_snaps (tr : list event) : bool :=
  match tr with
  | e1 :: ((e2 :: _) as rest) => negb (is_snap e1 && is_snap e2) && no_two_snaps rest
  | _ => true
  end.

(** The traces of the autogain loop with a budget of iterations, against
    the outcomes of the snapshots it takes: each iteration is a snapshot
    followed by gain commands decided on that snapshot; another iteration
    follows only after a pass that sent all its commands, at least one. *)
Inductive loop_trace (self : CoreDAQ) (n_frames : Z) (min_mv max_mv : Qc)
  : nat -> list (result (vec4 Z * vec4 Z)) -> list event -> Prop :=
| LT_budget snaps :
    loop_trace self n_frames min_mv max_mv 0 snaps []
| LT_snapshot_failed n snaps :
    match snaps with Ok _ :: _ => False | _ => True end ->
    loop_trace self n_frames min_mv max_mv (S n) snaps [Sent (SNAP n_frames)]
| LT_last n codes gains snaps k :
    let mv := vmap snapshot_scale (vmap2 Z.sub codes (linear_zero_adc self)) in
    Forall gain_cmd_in_range (firstn k (decisions min_mv max_mv mv gains)) ->
    loop_trace self n_frames min_mv max_mv (S n) (Ok (codes, gains) :: snaps)
               (Sent (SNAP n_frames) :: firstn k (decisions min_mv max_mv mv gains))
| LT_more n codes gains snaps tr :
    let mv := vmap snapshot_scale (vmap2 Z.sub codes (linear_zero_adc self)) in
    decisions min_mv max_mv mv gains <> [] ->
    Forall gain_cmd_in_range (decisions min_mv max_mv mv gains) ->
    loop_trace self n_frames min_mv max_mv n snaps tr ->
    loop_trace self n_frames min_mv max_mv (S n) (Ok (codes, gains) :: snaps)
               (Sent (SNAP n_frames) :: decisions min_mv max_mv mv gains ++ tr).

(** The inner [for ch in range(4)] from a list of channels, [changed]
    carried along. *)
Fixpoint pass_from (self : CoreDAQ) (min_mv max_mv : Qc) (mv_now : vec4 Qc) (gains : vec4 Z)
         (chs : list nat) (changed : bool) : io bool :=
  match chs with
  | [] => ret changed
  | ch :: rest =>
      bind (autogain_channel self min_mv max_mv mv_now gains ch)
           (fun c => pass_from self min_mv max_mv mv_now gains rest (changed || c))
  end.

Definition decision_of (min_mv max_mv : Qc) (mv : vec4 Qc) (gains : vec4 Z) (ch : nat)
  : list event :=
  match adjustment min_mv max_mv (vget mv ch) (vget gains ch) with
  | Some v => [Sent (GAIN (Z.of_nat ch + 1) v)]
  | None => []
  end.

(** A LINEAR device with a weak signal on channel 1: two snapshots, the
    gain command in between acknowledged. *)
Definition port_autogain : port :=
  mkPort ["OK"%string] []
         [Ok (V4 1000 20000 20000 20000, V4 3 3 3 3);
          Ok (V4 2000 20000 20000 20000, V4 4 3 3 3)]%Z [].



(** The oversampling index by frequency band, as the caps 100000 / 2^(i-1)
    cut the range 1..100000. *)
Definition os_band (hz : Z) : Z :=
  (if hz <=? 1562 then 7 else if hz <=? 3125 then 6 else if hz <=? 6250 then 5
   else if hz <=? 12500 then 4 else if hz <=? 25000 then 3 else if hz <=? 50000 then 2
   else 1)%Z.

(** A device that acknowledges [FREQ] and reports oversampling index 2. *)
Definition port_os2 : port := mkPort ["OK"; "OK 2"]%string [] [] [].

(** A device that reports 50000 Hz and acknowledges [OS]. *)
Definition port_50k : port := mkPort ["OK 50000"; "OK"]%string [] [] [].

(** Full scale in millivolts: 32768 codes of [lsb_mV]. *)
Definition full_scale_mV : Qc := PyNum.qc 5000 1.

(** A LOG device that acknowledges [XFER] and delivers one frame: the codes
    1000, -1000, 20000 and 0. *)
Definition port_xfer_one_frame : port :=
  mkPort ["OK"%string]
         [[Byte.xe8; Byte.x03; Byte.x18; Byte.xfc; Byte.x20; Byte.x4e; Byte.x00; Byte.x00]]
         [] [].


(** A LINEAR device in range on every channel: two snapshots with the same
    readings (about 1398 mV after the zeros of [linear_session]). *)
Definition port_settled : port :=
  mkPort [] []
         [Ok (V4 10000 10000 10000 10000, V4 3 3 3 3);
          Ok (V4 10000 10000 10000 10000, V4 3 3 3 3)]%Z [].

(* ------------------------------------------------------------------ *)
(** ** Python text builtins, on ASCII text

    The replies of the device are decoded with [errors="ignore"], so the
    text the driver parses is ASCII. *)

Module PyStr.

(** [str.isspace]: the blanks of [str.strip] and of [str.split]. *)
Definition isspace (c : ascii) : bool :=
  let n := nat_of_ascii c in
  (((9 <=? n) && (n <=? 13)) || ((28 <=? n) && (n <=? 32)))%nat.

(** The blanks [int] accepts around a literal: C's [isspace]. *)
Definition c_isspace (c : ascii) : bool :=
  let n := nat_of_ascii c in
  (((9 <=? n) && (n <=? 13)) || (n =? 32))%nat.

Fixpoint lstrip_with (blank : ascii -> bool) (s : string) : string :=
  match s with
  | String c t => if blank c then lstrip_with blank t else s
  | EmptyString => EmptyString
  end.

Fixpoint rstrip_with (blank : ascii -> bool) (s : string) : string :=
  match s with
  | String c t =>
      match rstrip_with blank t with
      | EmptyString => if blank c then EmptyString else String c EmptyString
      | t' => String c t'
      end
  | EmptyString => EmptyString
  end.

Definition strip_with (blank : ascii -> bool) (s : string) : string :=
  rstrip_with blank (lstrip_with blank s).

(** [s.strip()] *)
Definition strip (s : string) : string := strip_with isspace s.

(** [s.split()]: the maximal runs of non-blank characters; [word] is the
    run being read. *)
Fixpoint split_from (s : string) (word : string) : list string :=
  match s with
  | String c t =>
      if isspace c
      then match word with
           | EmptyString => split_from t EmptyString
           | _ => word :: split_from t EmptyString
           end
      else split_from t (word ++ String c EmptyString)
  | EmptyString =>
      match word with
      | EmptyString => []
      | _ => [word]
      end
  end.

Definition split (s : string) : list string := split_from s EmptyString.

(** [s.split(sep)] for a separator of one character: the pieces between
    the separators, empty pieces included. *)
Fixpoint split_on_from (sep : ascii) (s : string) (piece : string) : list string :=
  match s with
  | String c t =>
      if Ascii.eqb c sep then piece :: split_on_from sep t EmptyString
      else split_on_from sep t (piece ++ String c EmptyString)
  | EmptyString => [piece]
  end.

Definition split_on (sep : ascii) (s : string) : list string :=
  split_on_from sep s EmptyString.

(** [s.split(sep, 1)]: what precedes the first separator and, when there is
    one, what follows it. *)
Fixpoint split_once_from (sep : ascii) (s : string) (piece : string) : string * option string :=
  match s with
  | String c t =>
      if Ascii.eqb c sep then (piece, Some t)
      else split_once_from sep t (piece ++ String c EmptyString)
  | EmptyString => (piece, None)
  end.

Definition split_once (sep : ascii) (s : string) : string * option string :=
  split_once_from sep s EmptyString.

(** [sub in s] *)
Fixpoint contains (sub s : string) : bool :=
  String.prefix sub s
  || match s with
     | String _ t => contains sub t
     | EmptyString => false
     end.

(** [s.endswith(suffix)] *)
Fixpoint endswith (suffix s : string) : bool :=
  String.eqb suffix s
  || match s with
     | String _ t => endswith suffix t
     | EmptyString => false
     end.

Definition lower_char (c : ascii) : ascii :=
  let n := nat_of_ascii c in
  if ((65 <=? n) && (n <=? 90))%nat then ascii_of_nat (n + 32) else c.

(** [s.lower()] *)
Fixpoint lower (s : string) : string :=
  match s with
  | String c t => String (lower_char c) (lower t)
  | EmptyString => EmptyString
  end.

(** [s.replace(old, new)] for a non-empty [old]: occurrences are replaced
    from the left and do not overlap; [skip] counts the characters of a
    matched occurrence still to pass over. *)
Fixpoint replace_from (old new : string) (s : string) (skip : nat) : string :=
  match s with
  | String c t =>
      match skip with
      | S k => replace_from old new t k
      | O => if String.prefix old s
             then new ++ replace_from old new t (String.length old - 1)%nat
             else String c (replace_from old new t 0)
      end
  | EmptyString => EmptyString
  end.

Definition replace (old new s : string) : string := replace_from old new s 0.

(** The value of a digit in the bases up to 36. *)
Definition digit_value (c : ascii) : option Z :=
  let n := Z.of_nat (nat_of_ascii c) in
  if ((48 <=? n) && (n <=? 57))%Z then Some (n - 48)%Z
  else if ((97 <=? n) && (n <=? 122))%Z then Some (n - 87)%Z
  else if ((65 <=? n) && (n <=? 90))%Z then Some (n - 55)%Z
  else None.

(** The digits of a literal: single underscores between digits are
    passed over, one at the end or two in a row are refused. *)
Fixpoint digits (base : Z) (s : string) (acc : Z) (after_underscore : bool) : option Z :=
  match s with
  | String c t =>
      if Ascii.eqb c "_"
      then if after_underscore then None else digits base t acc true
      else match digit_value c with
           | Some d => if (d <? base)%Z then digits base t (acc * base + d)%Z false else None
           | None => None
           end
  | EmptyString => if after_underscore then None else Some acc
  end.

(** The character after a leading [0], the place of a base marker. *)
Definition marker (s : string) : option ascii :=
  match s with
  | String "0" (String x _) => Some x
  | _ => None
  end.

Definition marks (m : option ascii) (lower upper : ascii) : bool :=
  match m with
  | Some x => Ascii.eqb x lower || Ascii.eqb x upper
  | None => false
  end.

Definition starts_with_zero (s : string) : bool :=
  match s with
  | String "0" _ => true
  | _ => false
  end.

(** [s[n:]] *)
Fixpoint drop (n : nat) (s : string) : string :=
  match n, s with
  | S k, String _ t => drop k t
  | _, _ => s
  end.

(** The literal after its sign: [None] is [int]'s ValueError.  With base 0
    the literal names its base by [0x], [0o] or [0b], and a decimal literal
    with a leading zero must be zero; a base marker may be followed by one
    underscore. *)
Definition magnitude (base : Z) (s : string) : option Z :=
  let m := marker s in
  let '(b, zero_only) :=
    if (base =? 0)%Z
    then if negb (starts_with_zero s) then (10%Z, false)
         else if marks m "x" "X" then (16%Z, false)
         else if marks m "o" "O" then (8%Z, false)
         else if marks m "b" "B" then (2%Z, false)
         else (10%Z, true)
    else (base, false) in
  let s := if ((b =? 16)%Z && marks m "x" "X") || ((b =? 8)%Z && marks m "o" "O")
              || ((b =? 2)%Z && marks m "b" "B")
           then match drop 2 s with
                | String "_" t => t
                | t => t
                end
           else s in
  match s with
  | EmptyString => None
  | String "_" _ => None
  | _ =>
      match digits b s 0%Z false with
      | Some n => if zero_only && negb (n =? 0)%Z then None else Some n
      | None => None
      end
  end.

(** [int(s, base)] for [base] 0 or 2..36: blanks around the literal, one
    sign, the magnitude. *)
Definition int (base : Z) (s : string) : option Z :=
  match strip_with c_isspace s with
  | String "-" t => option_map Z.opp (magnitude base t)
  | String "+" t => magnitude base t
  | t => magnitude base t
  end.

(** [str(n)] and [f"{n}"] for an integer. *)
Definition str_of_int (n : Z) : string := NilZero.string_of_int (Z.to_int n).

End PyStr.

(** Every character of a string passes a test. *)
Fixpoint all_chars (P : ascii -> bool) (s : string) : bool :=
  match s with
  | String c t => P c && all_chars P t
  | EmptyString => true
  end.

Definition is_digit (c : ascii) : bool :=
  let n := nat_of_ascii c in ((48 <=? n) && (n <=? 57))%nat.

(** The characters of a printed integer: digits and the sign. *)
Definition is_numeric (c : ascii) : bool := is_digit c || Ascii.eqb c "-".

(* ------------------------------------------------------------------ *)
(** ** Reply payloads

    The text processing that [get_gains], [_load_factory_zeros] and
    [snapshot_adc] apply to the payload of a reply. *)

(** [[parts[i] for i in range(1, len(parts), 2)]] *)
Fixpoint odd_entries {A} (l : list A) : list A :=
  match l with
  | _ :: b :: t => b :: odd_entries t
  | _ => []
  end.

(** A comprehension of [int(...)] calls: the first ValueError ends it. *)
Fixpoint ints (base : Z) (l : list string) : option (list Z) :=
  match l with
  | [] => Some []
  | s :: t => match PyStr.int base s with
              | Some n => option_map (cons n) (ints base t)
              | None => None
              end
  end.

(** [get_gains]: [None] is the CoreDAQError for an unexpected payload. *)
Definition gains_of_payload (payload : string) : option (vec4 Z) :=
  let parts := PyStr.split (PyStr.replace "=" " " (PyStr.replace "HEAD" EmptyString payload)) in
  match ints 10 (odd_entries parts) with
  | Some [g1; g2; g3; g4] => Some (V4 g1 g2 g3 g4)
  | _ => None
  end.

(** The four ways [_load_factory_zeros] refuses a payload. *)
Inductive zeros_error : Type :=
| ZerosTooShort
| ZerosMissing (k : string)
| ZerosBadValue (k : string)
| ZerosParseError.

(** The dictionary [kv], newest entry first: an entry for each token with
    an [=] in it. *)
Definition kv_of_parts (parts : list string) : list (string * string) :=
  fold_left (fun kv t => match PyStr.split_once "=" t with
                         | (k, Some v) => (PyStr.lower (PyStr.strip k), PyStr.strip v) :: kv
                         | (_, None) => kv
                         end)
            parts [].

Fixpoint kv_get (kv : list (string * string)) (k : string) : option string :=
  match kv with
  | (k', v) :: rest => if String.eqb k' k then Some v else kv_get rest k
  | [] => None
  end.

(** The local function [_get] of [_load_factory_zeros]. *)
Definition zeros_get (kv : list (string * string)) (k : string) : zeros_error + Z :=
  match kv_get kv k with
  | None => inl (ZerosMissing k)
  | Some v => match PyStr.int 0 v with
              | Some n => inr n
              | None => inl (ZerosBadValue k)
              end
  end.

Definition factory_zeros_of_payload (payload : string) : zeros_error + vec4 Z :=
  let parts := PyStr.split payload in
  if (List.length parts <? 4)%nat then inl ZerosTooShort
  else if existsb (PyStr.contains "=") parts
  then
    let kv := kv_of_parts parts in
    match zeros_get kv "h1" with
    | inl e => inl e
    | inr z1 =>
        match zeros_get kv "h2" with
        | inl e => inl e
        | inr z2 =>
            match zeros_get kv "h3" with
            | inl e => inl e
            | inr z3 =>
                match zeros_get kv "h4" with
                | inl e => inl e
                | inr z4 => inr (V4 z1 z2 z3 z4)
                end
            end
        end
    end
  else
    match ints 0 (firstn 4 parts) with
    | Some [z1; z2; z3; z4] => inr (V4 z1 z2 z3 z4)
    | _ => inl ZerosParseError
    end.

(** The message of the CoreDAQError, before the payload it quotes. *)
Definition zeros_message (e : zeros_error) : string :=
  match e with
  | ZerosTooShort => "FACTORY_ZEROS? payload too short"
  | ZerosMissing k => ("FACTORY_ZEROS? missing " ++ k ++ "=")%string
  | ZerosBadValue k => ("FACTORY_ZEROS? bad " ++ k ++ " value")%string
  | ZerosParseError => "FACTORY_ZEROS? parse error"
  end.

(** The parser in the form [_load_factory_zeros] takes it. *)
Definition factory_zeros_result (payload : string) : result (vec4 Z) :=
  match factory_zeros_of_payload payload with
  | inr z => Ok z
  | inl e => Raise (CoreDAQError (UnexpectedPayload (zeros_message e) payload))
  end.

(** The three ways [snapshot_adc] refuses a payload. *)
Inductive snap_error : Type :=
| SnapTooShort
| SnapBadCodes
| SnapBadGains.

(** The first part with [G=] in it, and the parts after it. *)
Fixpoint from_gain_part (parts : list string) : option (string * list string) :=
  match parts with
  | part :: rest => if PyStr.contains "G=" part then Some (part, rest)
                    else from_gain_part rest
  | [] => None
  end.

Definition snap_of_payload (payload : string) : snap_error + (vec4 Z * vec4 Z) :=
  let parts := PyStr.split payload in
  if (List.length parts <? 4)%nat then inl SnapTooShort
  else
    match ints 10 (firstn 4 parts) with
    | Some [c1; c2; c3; c4] =>
        match from_gain_part parts with
        | None => inr (V4 c1 c2 c3 c4, zero4)
        | Some (part, rest) =>
            match nth_error (PyStr.split_on "=" part) 1 with
            | Some g =>
                match ints 10 (g :: firstn 3 rest) with
                | Some [g1; g2; g3; g4] => inr (V4 c1 c2 c3 c4, V4 g1 g2 g3 g4)
                | _ => inl SnapBadGains
                end
            | None => inl SnapBadGains
            end
        end
    | _ => inl SnapBadCodes
    end.

(** [" ".join(parts)] *)
Fixpoint join_blank (parts : list string) : string :=
  match parts with
  | [] => EmptyString
  | [s] => s
  | s :: rest => (s ++ String " " (join_blank rest))%string
  end.

(** A snapshot reply as the firmware prints it: four codes, then the
    gains after [G=]. *)
Definition snap_reply (codes gains : vec4 Z) : string :=
  join_blank [PyStr.str_of_int (ch1 codes); PyStr.str_of_int (ch2 codes);
              PyStr.str_of_int (ch3 codes); PyStr.str_of_int (ch4 codes);
              ("G=" ++ PyStr.str_of_int (ch1 gains))%string; PyStr.str_of_int (ch2 gains);
              PyStr.str_of_int (ch3 gains); PyStr.str_of_int (ch4 gains)].

(** A gains reply: [HEAD<n>=<gain>] for four heads, whatever their
    numbers. *)
Definition gains_reply (heads gains : vec4 Z) : string :=
  join_blank [("HEAD" ++ PyStr.str_of_int (ch1 heads) ++ "=" ++ PyStr.str_of_int (ch1 gains))%string;
              ("HEAD" ++ PyStr.str_of_int (ch2 heads) ++ "=" ++ PyStr.str_of_int (ch2 gains))%string;
              ("HEAD" ++ PyStr.str_of_int (ch3 heads) ++ "=" ++ PyStr.str_of_int (ch3 gains))%string;
              ("HEAD" ++ PyStr.str_of_int (ch4 heads) ++ "=" ++ PyStr.str_of_int (ch4 gains))%string].

(** The two forms of the factory zeros the docstring gives. *)
Definition zeros_reply_plain (z : vec4 Z) : string :=
  join_blank [PyStr.str_of_int (ch1 z); PyStr.str_of_int (ch2 z);
              PyStr.str_of_int (ch3 z); PyStr.str_of_int (ch4 z)].

Definition zeros_token (k : string) (z : Z) : string :=
  (k ++ "=" ++ PyStr.str_of_int z)%string.

Definition zeros_reply_keyed (z : vec4 Z) : string :=
  join_blank [zeros_token "h1" (ch1 z); zeros_token "h2" (ch2 z);
              zeros_token "h3" (ch3 z); zeros_token "h4" (ch4 z)].

(** Three plain numbers and one keyed one. *)
Definition zeros_reply_mixed (z : vec4 Z) : string :=
  join_blank [PyStr.str_of_int (ch1 z); PyStr.str_of_int (ch2 z);
              PyStr.str_of_int (ch3 z); zeros_token "h4" (ch4 z)].

(** A string without blanks: one part for [str.split]. *)
Definition solid (s : string) : bool := all_chars (fun c => negb (PyStr.isspace c)) s.

(* ------------------------------------------------------------------ *)
(** ** The exchanges on the wire

    The commands as the text the driver writes and the replies as the
    bytes it reads, for the functions whose behaviour is in that text: the
    polling of [snapshot_adc], the acquisition control and the sensor
    queries.  [rx] holds what each [readline()] will return (nothing left,
    or an empty line, is the read timeout); [tx] records each write and
    [slept] each [time.sleep], newest first.  Writes are taken to succeed.
    [time.time()] is read off a clock [time_at]: its [k]-th reading is
    [time_at k]. *)

Module Wire.

Inductive pyexn : Type :=
| CoreDAQError (msg : string)
| ValueError (msg : string)
| InvalidLiteral (base : Z) (literal : string)     (* the ValueError of [int] *)
| ZeroDivisionError.

(** [Unfinished] is a loop cut short by its fuel; the loops below are
    given enough fuel never to end so. *)
Inductive outcome (A : Type) : Type :=
| Done (a : A)
| Fail (e : pyexn)
| Unfinished.
Arguments Done {A} a.
Arguments Fail {A} e.
Arguments Unfinished {A}.

Record wire : Type := mkWire {
  rx : list string;
  tx : list string;
  clock_reads : nat;
  slept : list Qc
}.

Definition act (A : Type) : Type := wire -> outcome A * wire.

Definition ret {A} (a : A) : act A := fun w => (Done a, w).
Definition fail {A} (e : pyexn) : act A := fun w => (Fail e, w).
Definition bind {A B} (m : act A) (k : A -> act B) : act B :=
  fun w => match m w with
           | (Done a, w') => k a w'
           | (Fail e, w') => (Fail e, w')
           | (Unfinished, w') => (Unfinished, w')
           end.

Declare Scope wire_scope.
Delimit Scope wire_scope with wire.
Notation "x <- m ;; k" := (bind m (fun x => k))
  (at level 61, m at next level, right associativity) : wire_scope.
Notation "' pat <- m ;; k" := (bind m (fun x => match x with pat => k end))
  (at level 61, pat pattern, m at next level, right associativity) : wire_scope.
Local Open Scope wire_scope.

Definition newline : string := String "010"%char EmptyString.

Definition is_ascii (c : ascii) : bool := (nat_of_ascii c <? 128)%nat.

(** [encode("ascii", errors="ignore")] and [decode("ascii", "ignore")]:
    what is not ASCII is dropped. *)
Fixpoint ascii_ignore (s : string) : string :=
  match s with
  | String c t => if is_ascii c then String c (ascii_ignore t) else ascii_ignore t
  | EmptyString => EmptyString
  end.

Definition ser_write (data : string) : act unit :=
  fun w => (Done tt, mkWire (rx w) (data :: tx w) (clock_reads w) (slept w)).

Definition _writeln (s : string) : act unit :=
  let s := if negb (PyStr.endswith newline s) then (s ++ newline)%string else s in
  ser_write (ascii_ignore s).

Definition _readline : act string :=
  fun w => match rx w with
           | raw :: rest =>
               let w' := mkWire rest (tx w) (clock_reads w) (slept w) in
               match raw with
               | EmptyString => (Fail (CoreDAQError "Device timeout"), w')
               | _ => (Done (PyStr.strip (ascii_ignore raw)), w')
               end
           | [] => (Fail (CoreDAQError "Device timeout"), w)
           end.

Definition _ask (cmd : string) : act (status * string) :=
  _ <- _writeln cmd ;;
  line <- _readline ;;
  if String.prefix "OK" line then ret (ST_OK, PyStr.strip (PyStr.drop 2 line))
  else if String.prefix "ERR" line then ret (ST_ERR, PyStr.strip (PyStr.drop 3 line))
  else if String.prefix "BUSY" line then ret (ST_BUSY, EmptyString)
  else ret (ST_ERR, line).

Definition _parse_int (s : string) : act Z :=
  match PyStr.int 0 s with
  | Some n => ret n
  | None => fail (InvalidLiteral 0 s)
  end.

Definition idn : act string :=
  '(st, p) <- _ask "IDN?" ;;
  if negb (status_eqb st ST_OK) then fail (CoreDAQError p) else ret p.

Definition state_enum : act Z :=
  '(st, p) <- _ask "STATE?" ;;
  if negb (status_eqb st ST_OK) then fail (CoreDAQError p) else _parse_int p.

Definition arm_acquisition (frames : Z) (use_trigger trigger_rising : bool) : act unit :=
  if (frames <=? 0)%Z then fail (ValueError "frames must be > 0")
  else
    '(st, p) <- _ask ("ACQ ARM " ++ PyStr.str_of_int frames)%string ;;
    if negb (status_eqb st ST_OK) then fail (CoreDAQError ("ACQ ARM failed: " ++ p)%string)
    else if use_trigger
    then
      let pol := if trigger_rising then "R"%string else "F"%string in
      '(st, p) <- _ask ("TRIGARM " ++ PyStr.str_of_int frames ++ " " ++ pol)%string ;;
      if negb (status_eqb st ST_OK) then fail (CoreDAQError ("TRIGARM failed: " ++ p)%string)
      else ret tt
    else ret tt.

Definition start_acquisition : act unit :=
  '(st, p) <- _ask "ACQ START" ;;
  if negb (status_eqb st ST_OK) then fail (CoreDAQError ("ACQ START failed: " ++ p)%string)
  else ret tt.

Definition stop_acquisition : act unit :=
  '(st, p) <- _ask "ACQ STOP" ;;
  if negb (status_eqb st ST_OK) then fail (CoreDAQError ("ACQ STOP failed: " ++ p)%string)
  else ret tt.

Definition acquisition_status : act string :=
  '(st, p) <- _ask "STREAM?" ;;
  if negb (status_eqb st ST_OK) then fail (CoreDAQError p) else ret p.

Definition frames_remaining : act Z :=
  '(st, p) <- _ask "LEFT?" ;;
  if negb (status_eqb st ST_OK) then fail (CoreDAQError p) else _parse_int p.

(** [time.sleep]: a negative length is a ValueError. *)
Definition time_sleep (secs : Qc) : act unit :=
  fun w => if PyNum.ltb secs 0%Qc
           then (Fail (ValueError "sleep length must be non-negative"), w)
           else (Done tt, mkWire (rx w) (tx w) (clock_reads w) (secs :: slept w)).

Definition snap_message (e : snap_error) : string :=
  match e with
  | SnapTooShort => "SNAP? payload too short: "
  | SnapBadCodes => "Failed to parse ADC codes from SNAP?: "
  | SnapBadGains => "Failed to parse gains from SNAP?: "
  end.

Definition snap_result (payload : string) : outcome (vec4 Z * vec4 Z) :=
  match snap_of_payload payload with
  | inr r => Done r
  | inl e => Fail (CoreDAQError (snap_message e ++ payload)%string)
  end.

Section Clock.

Variable time_at : nat -> Qc.

Definition time_time : act Qc :=
  fun w => (Done (time_at (clock_reads w)),
            mkWire (rx w) (tx w) (S (clock_reads w)) (slept w)).

(** The [while True] of [wait_for_completion]: the state is asked first,
    the clock is read only when there is a [timeout_s]. *)
Fixpoint wait_loop (fuel : nat) (poll_s : Qc) (timeout_s : option Qc) (t0 : Qc) : act unit :=
  match fuel with
  | O => fun w => (Unfinished, w)
  | S fuel' =>
      s <- state_enum ;;
      if (s =? 4)%Z then ret tt
      else
        expired <- match timeout_s with
                   | Some t => now <- time_time ;; ret (PyNum.ltb t (now - t0)%Qc)
                   | None => ret false
                   end ;;
        if expired then fail (CoreDAQError "Acquisition timeout")
        else _ <- time_sleep poll_s ;; wait_loop fuel' poll_s timeout_s t0
  end.

(** Each turn of the loop reads a line, so one turn more than there are
    lines to read is fuel enough. *)
Definition wait_for_completion (poll_s : Qc) (timeout_s : option Qc) : act unit :=
  t0 <- time_time ;;
  fun w => wait_loop (S (List.length (rx w))) poll_s timeout_s t0 w.

(** The [while True] of [snapshot_adc]. *)
Fixpoint snap_loop (fuel : nat) (timeout_s sleep_s t0 : Qc) : act (vec4 Z * vec4 Z) :=
  match fuel with
  | O => fun w => (Unfinished, w)
  | S fuel' =>
      '(st, payload) <- _ask "SNAP?" ;;
      if status_eqb st ST_BUSY
      then
        now <- time_time ;;
        if PyNum.ltb timeout_s (now - t0)%Qc then fail (CoreDAQError "Snapshot timeout")
        else _ <- time_sleep sleep_s ;; snap_loop fuel' timeout_s sleep_s t0
      else if negb (status_eqb st ST_OK)
      then fail (CoreDAQError ("SNAP? failed: " ++ payload)%string)
      else fun w => (snap_result payload, w)
  end.

Definition snapshot_adc (n_frames : Z) (timeout_s poll_hz : Qc) : act (vec4 Z * vec4 Z) :=
  '(st, payload) <- _ask ("SNAP " ++ PyStr.str_of_int n_frames)%string ;;
  if negb (status_eqb st ST_OK) then fail (CoreDAQError ("SNAP arm failed: " ++ payload)%string)
  else
    t0 <- time_time ;;
    sleep_s <- (if PyNum.eqb poll_hz 0%Qc then fail ZeroDivisionError
                else ret (1 / poll_hz)%Qc) ;;
    fun w => snap_loop (S (List.length (rx w))) timeout_s sleep_s t0 w.

End Clock.

(** The sensor queries.  [float] is Python's parser of a float literal;
    [None] is its ValueError. *)
Section Sensors.

Variable float : string -> option Qc.

Definition get_head_temperature_C : act Qc :=
  _ <- _writeln "TEMP?" ;;
  line <- _readline ;;
  if negb (String.prefix "OK" line)
  then fail (CoreDAQError ("TEMP? error: " ++ line)%string)
  else
    let val := PyStr.strip (PyStr.drop 3 line) in
    match float val with
    | Some x => ret x
    | None => fail (CoreDAQError ("Bad TEMP format: '" ++ val ++ "'")%string)
    end.

Definition get_head_humidity : act Qc :=
  _ <- _writeln "HUM?" ;;
  line <- _readline ;;
  if negb (String.prefix "OK" line)
  then fail (CoreDAQError ("HUM? error: " ++ line)%string)
  else
    let val := PyStr.strip (PyStr.drop 3 line) in
    match float val with
    | Some x => ret x
    | None => fail (CoreDAQError ("Bad HUM format: '" ++ val ++ "'")%string)
    end.

Definition get_die_temperature_C : act Qc :=
  _ <- _writeln "DIE_TEMP?" ;;
  line <- _readline ;;
  if negb (String.prefix "OK" line)
  then fail (CoreDAQError ("DIE_TEMP? error: " ++ line)%string)
  else
    let val := PyStr.strip (PyStr.drop 3 line) in
    match float val with
    | Some x => ret x
    | None => fail (CoreDAQError ("Bad DIE_TEMP format: '" ++ val ++ "'")%string)
    end.

End Sensors.

End Wire.

(** A reply as the device sends it: the text and the end of the line. *)
Definition reply_line (s : string) : string := (s ++ Wire.newline)%string.

(** Text of printable ASCII characters, the space included. *)
Definition printable (s : string) : bool :=
  all_chars (fun c => let n := nat_of_ascii c in ((32 <=? n) && (n <? 127))%nat) s.

(** A clock that advances by 10 ms from one reading to the next. *)
Definition ticking_clock (k : nat) : Qc := PyNum.qc (Z.of_nat k) 100.

(** A device that acknowledges the arming, is busy for two polls and then
    sends four codes and four gains. *)
Definition wire_two_busy : Wire.wire :=
  Wire.mkWire [reply_line "OK"; reply_line "BUSY"; reply_line "BUSY";
               reply_line "OK 1000 3000 3000 3000 G=0 1 2 3"]
              [] 0 [].

(** A device that reports states 2 and 3 and then 4. *)
Definition wire_running : Wire.wire :=
  Wire.mkWire [reply_line "OK 2"; reply_line "OK 3"; reply_line "OK 4"] [] 0 [].

(** A sensor reply with a sign right after [OK]. *)
Definition wire_signed_reading : Wire.wire :=
  Wire.mkWire [reply_line "OK-5.25"] [] 0 [].

(** A stand-in for [float] on the literal of the scenario. *)
Definition float_5_25 (s : string) : option Qc :=
  if String.eqb s "5.25" then Some (PyNum.qc 21 4) else None.

(* ------------------------------------------------------------------ *)
(** ** Port discovery

    [CoreDAQ.find].  A listed port is its device name and the descriptor
    strings of [serial.tools.list_ports]; an attribute that is missing or
    [None] reads as the empty string.  The strings are taken with
    characters up to 255: lower-casing leaves those beyond ASCII outside
    ASCII, so whether a hint occurs does not depend on them.  [answers n
    dev] is what the [n]-th probe of the call reads from [dev] after
    writing [IDN?]: [None] when opening, writing or reading raises. *)

Module Discovery.

Record port_info : Type := mkPortInfo {
  device : string;
  manufacturer : option string;
  product : option string;
  description : option string;
  serial_number : option string
}.

(** [getattr(p, name, "") or ""] *)
Definition attr (a : option string) : string :=
  match a with
  | Some s => s
  | None => EmptyString
  end.

Definition MANUFACTURER_HINTS : list string := ["coreinstrumentation"; "core instrumentation"]%string.
Definition PRODUCT_HINTS : list string := ["coredaq"]%string.
Definition SERIAL_PREFIXES : list string := ["cdaq"; "coredaq"]%string.

Definition _contains_any (s : string) (hints : list string) : bool :=
  let s := PyStr.lower s in
  existsb (fun h => PyStr.contains h s) hints.

Definition _descriptor_match (p : port_info) : bool :=
  let man := attr (manufacturer p) in
  let prod := attr (product p) in
  let desc := attr (description p) in
  let sn := attr (serial_number p) in
  if _contains_any man MANUFACTURER_HINTS then true
  else if _contains_any prod PRODUCT_HINTS then true
  else if _contains_any desc PRODUCT_HINTS then true
  else
    let sn_l := PyStr.lower sn in
    if existsb (fun pref => String.prefix pref sn_l) SERIAL_PREFIXES then true
    else false.

(** [_probe_idn] on what the port answered. *)
Definition _probe_idn (answer : option string) : bool :=
  match answer with
  | Some raw =>
      let line := PyStr.strip (Wire.ascii_ignore raw) in
      if negb (String.prefix "OK" line) then false
      else
        let payload := PyStr.lower (PyStr.strip (PyStr.drop 2 line)) in
        PyStr.contains "coredaq" payload
  | None => false
  end.

Section Probing.

Variable answers : nat -> string -> option string.

(** One [for p in ports] loop: the ports that pass [select] are probed in
    turn, [n] counting the probes; those that answer are kept. *)
Fixpoint probe_pass (select : port_info -> bool) (ports : list port_info) (n : nat)
  : list string * nat :=
  match ports with
  | p :: rest =>
      if select p
      then
        let ok := _probe_idn (answers n (device p)) in
        let '(found, n') := probe_pass select rest (S n) in
        (if ok then device p :: found else found, n')
      else probe_pass select rest n
  | [] => ([], n)
  end.

Definition find (ports : list port_info) : list string :=
  let '(found, n) := probe_pass _descriptor_match ports 0 in
  match found with
  | [] => fst (probe_pass (fun _ => true) ports n)
  | _ => found
  end.

End Probing.

End Discovery.

(** Two listed ports: a coreDAQ known by its product string, and an
    adapter without descriptors behind which a coreDAQ answers too. *)
Definition two_ports : list Discovery.port_info :=
  [Discovery.mkPortInfo "/dev/ttyACM0" None (Some "coreDAQ"%string) None None;
   Discovery.mkPortInfo "/dev/ttyUSB0" None None None None].

Definition both_answer (dev : string) : option string :=
  Some (reply_line "OK coreDAQ v3.1").

(* ------------------------------------------------------------------ *)
(** * Properties *)

(** ** Order and equality tests on Python floats *)

Module PyNumFacts.
Import PyNum.
Local Open Scope Qc_scope.
Lemma leb_le x y : leb x y = true <-> x <= y.
Proof. unfold leb, Qcle. apply Qle_bool_iff. Qed.
Lemma leb_gt x y : leb x y = false <-> y < x.
Proof.
  unfold leb, Qclt. rewrite <- not_true_iff_false, Qle_bool_iff. split; intro H.
  - apply Qnot_le_lt; exact H.
  - apply Qlt_not_le; exact H.
Qed.
Lemma ltb_lt x y : ltb x y = true <-> x < y.
Proof. unfold ltb. rewrite negb_true_iff. apply leb_gt. Qed.
Lemma ltb_ge x y : ltb x y = false <-> y <= x.
Proof. unfold ltb. rewrite negb_false_iff. apply leb_le. Qed.
Lemma eqb_eq x y : eqb x y = true <-> x = y.
Proof.
  unfold eqb. rewrite Qeq_bool_iff. split; intro H.
  - apply Qc_is_canon; exact H.
  - subst; reflexivity.
Qed.
Lemma eqb_neq x y : eqb x y = false <-> x <> y.
Proof. rewrite <- not_true_iff_false, eqb_eq. tauto. Qed.
End PyNumFacts.

Ltac qc_order :=
  repeat match goal with
         | H : PyNum.leb _ _ = true |- _ => apply PyNumFacts.leb_le in H
         | H : PyNum.leb _ _ = false |- _ => apply PyNumFacts.leb_gt in H
         | H : PyNum.ltb _ _ = true |- _ => apply PyNumFacts.ltb_lt in H
         | H : PyNum.ltb _ _ = false |- _ => apply PyNumFacts.ltb_ge in H
         | H : PyNum.eqb _ _ = true |- _ => apply PyNumFacts.eqb_eq in H
         | H : PyNum.eqb _ _ = false |- _ => apply PyNumFacts.eqb_neq in H
         | |- PyNum.leb _ _ = true => apply PyNumFacts.leb_le
         | |- PyNum.leb _ _ = false => apply PyNumFacts.leb_gt
         | |- PyNum.ltb _ _ = true => apply PyNumFacts.ltb_lt
         | |- PyNum.ltb _ _ = false => apply PyNumFacts.ltb_ge
         end;
  unfold Qcle, Qclt in *; try lra.

Section Bisect.
Local Open Scope Qc_scope.



End Bisect.

Section Indexing.
Context {A : Type}.




End Indexing.




Section Reference.
Local Open Scope Qc_scope.
Variable pow10 : Qc -> Qc.




End Reference.

(* ------------------------------------------------------------------ *)
(** ** Log lookup-table interpolation *)

Section LogInterpolation.
Local Open Scope Qc_scope.
Variable pow10 : Qc -> Qc.



End LogInterpolation.



(* ------------------------------------------------------------------ *)
(** ** Frequency and oversampling coupling *)

Local Open Scope Z_scope.

Lemma max_freq_range i cap : _max_freq_for_os i = Ok cap -> 0 <= i <= 7.
Proof.
  unfold _max_freq_for_os. destruct ((0 <=? i) && (i <=? 7)) eqn:E; simpl; [|discriminate].
  intros _. apply andb_true_iff in E. destruct E as [E1 E2].
  apply Z.leb_le in E1, E2. lia.
Qed.

Lemma best_os_spec hz :
  1 <= hz <= 100000 ->
  exists best, _best_os_for_freq hz = Ok best /\ highest_compatible_os hz best.
Proof.
  intros Hhz. unfold _best_os_for_freq.
  destruct (hz <=? 0) eqn:E0; [apply Z.leb_le in E0; lia|].
  destruct (100000 <? hz) eqn:E1; [apply Z.ltb_lt in E1; lia|].
  clear E0 E1.
  assert (Hall : forall i cap, _max_freq_for_os i = Ok cap ->
                 (i = 0 /\ cap = 100000) \/ (i = 1 /\ cap = 100000) \/ (i = 2 /\ cap = 50000) \/
                 (i = 3 /\ cap = 25000) \/ (i = 4 /\ cap = 12500) \/ (i = 5 /\ cap = 6250) \/
                 (i = 6 /\ cap = 3125) \/ (i = 7 /\ cap = 1562)).
  { intros i cap Hi. pose proof (max_freq_range _ Hi) as Hr.
    assert (Hc : i = 0 \/ i = 1 \/ i = 2 \/ i = 3 \/ i = 4 \/ i = 5 \/ i = 6 \/ i = 7) by lia.
    repeat (destruct Hc as [-> | Hc]; [vm_compute in Hi; inversion Hi; tauto|]).
    subst. vm_compute in Hi; inversion Hi; tauto. }
  cbn [best_os_scan].
  repeat match goal with
         | |- context [_max_freq_for_os ?n] =>
             let c := eval vm_compute in (_max_freq_for_os n) in
             change (_max_freq_for_os n) with c; cbn [rbind]
         end.
  repeat match goal with
         | |- context [hz <=? ?c] => destruct (Z.leb_spec hz c)
         end;
    try lia;
    (eexists; split; [reflexivity|]; split; [lia|]; split;
     [eexists; split; [vm_compute; reflexivity | lia]
     | intros i cap Hi Hcap; destruct (Hall i cap Hi) as [[? ?]|[[? ?]|[[? ?]|[[? ?]|[[? ?]|[[? ?]|[[? ?]|[? ?]]]]]]]]; lia]).
Qed.

Lemma _ask_ok (c : command) (p : port) (l : string) (rest : list string) :
  rx_lines p = l :: rest -> reply_ok l = true ->
  _ask c p = (Ok (ST_OK, ok_payload l),
              mkPort rest (rx_blocks p) (rx_snaps p) (Sent c :: sent p)).
Proof.
  intros Hrx Hok. unfold reply_ok in Hok. apply andb_true_iff in Hok. destruct Hok as [Hne Hpre].
  apply negb_true_iff in Hne.
  unfold _ask, bind, _writeln, emit, _readline. cbn [rx_lines rx_blocks rx_snaps sent].
  rewrite Hrx, Hne, Hpre. reflexivity.
Qed.

Section Frequency.
Variable parse_int : string -> option Z.

(** C5 (as amended).  When the requested frequency exceeds the cap of the
    current oversampling index, [set_freq] sends [FREQ], reads the index
    back, sends [OS best] for the highest index whose cap still admits the
    frequency (the most oversampling, hence the lowest noise) and raises a
    RuntimeWarning; at 10000 Hz with index 6 (cap 3125 Hz) that index is 4
    (cap 12500 Hz). *)
Theorem C5_set_freq_auto_adjusts (p : port) (hz cur_os : Z)
        (l1 l2 l3 : string) (rest : list string) :
  1 <= hz <= 100000 ->
  rx_lines p = l1 :: l2 :: l3 :: rest ->
  reply_ok l1 = true -> reply_ok l2 = true -> reply_ok l3 = true ->
  parse_int (ok_payload l2) = Some cur_os ->
  (exists cap, _max_freq_for_os cur_os = Ok cap /\ cap < hz) ->
  (exists best,
      highest_compatible_os hz best /\
      set_freq parse_int hz p
      = (Ok tt, mkPort rest (rx_blocks p) (rx_snaps p)
                       (Warned (OsAutoAdjusted cur_os hz best) :: Sent (OS best)
                        :: Sent OS_q :: Sent (FREQ hz) :: sent p)))
  /\ _max_freq_for_os 6 = Ok 3125
  /\ _max_freq_for_os 4 = Ok 12500
  /\ trace (snd (set_freq int_literal 10000 port_os6))
     = [Sent (FREQ 10000); Sent OS_q; Sent (OS 4); Warned (OsAutoAdjusted 6 10000 4)].
Proof.
  intros Hhz Hrx H1 H2 H3 Hparse (cap & Hcap & Hlt).
  split; [|repeat split; reflexivity].
  destruct (best_os_spec Hhz) as (best & Hbest & Hspec).
  exists best. split; [exact Hspec|].
  unfold set_freq.
  replace ((hz <=? 0) || (100000 <? hz)) with false
    by (symmetry; apply orb_false_iff; split; [apply Z.leb_gt | apply Z.ltb_ge]; lia).
  unfold bind at 1. rewrite (_ask_ok (FREQ hz) p Hrx H1). cbn [status_eqb negb].
  unfold bind at 1. unfold get_oversampling. unfold bind at 1.
  erewrite _ask_ok; [| reflexivity | exact H2]. cbn [status_eqb negb].
  unfold lift at 1, _parse_int. rewrite Hparse.
  unfold bind at 1, lift at 1. rewrite Hcap.
  replace (cap <? hz) with true by (symmetry; apply Z.ltb_lt; exact Hlt).
  unfold bind at 1, lift at 1. rewrite Hbest.
  unfold bind at 1. erewrite _ask_ok; [| reflexivity | exact H3]. cbn [status_eqb negb].
  reflexivity.
Qed.

End Frequency.

Lemma C5_set_freq_auto_adjusts_witness :
  1 <= 10000 <= 100000 /\
  int_literal (ok_payload "OK 6") = Some 6 /\
  exists best,
    highest_compatible_os 10000 best /\
    set_freq int_literal 10000 port_os6
    = (Ok tt, mkPort [] [] []
                     [Warned (OsAutoAdjusted 6 10000 best); Sent (OS best);
                      Sent OS_q; Sent (FREQ 10000)]).
Proof.
  split; [lia|]. split; [reflexivity|].
  refine (proj1 (@C5_set_freq_auto_adjusts int_literal port_os6 10000 6 "OK" "OK 6" "OK" []
                   _ eq_refl eq_refl eq_refl eq_refl eq_refl _)).
  - lia.
  - exists 3125. split; [reflexivity | lia].
Defined.

(** On the scenario device the command that goes out is [OS 4], not [OS 1]. *)
Lemma C5_index_1_counterexample :
  ~ In (Sent (OS 1)) (trace (snd (set_freq int_literal 10000 port_os6))).
Proof.
  vm_compute. intros [H | [H | [H | [H | []]]]]; discriminate H.
Qed.

(* ------------------------------------------------------------------ *)
(** ** The frontend gate *)

Section FrontendGate.
Local Open Scope Z_scope.
Variable pow10 : Qc -> Qc.
Variable parse_gains : string -> option (vec4 Z).
Variable parse_factory_zeros : string -> result (vec4 Z).

(** C8 (as amended).  The operations gated through [_require_frontend]
    ([voltage_to_power_W] on a LINEAR session; [set_gain], [get_gains],
    [soft_zero_from_snapshot] and [_load_factory_zeros] on a LOG session)
    raise a CoreDAQError that names the feature, the actual frontend and the
    required one, before any traffic on the port.  The zero-offset
    operations [set_soft_zero_adc], [restore_factory_zero] and
    [refresh_factory_zeros] are guarded differently: on a LOG session they
    return without raising, leave the session and the port as they were,
    and [refresh_factory_zeros] returns (0, 0, 0, 0). *)
Theorem C8_frontend_gate (self : CoreDAQ) (p : port) :
  frontend_type self = LOG ->
  (forall head value,
      set_gain self head value p
      = (Raise (CoreDAQError (NotSupported "set_gain" LOG LINEAR)), p))
  /\ get_gains parse_gains self p
     = (Raise (CoreDAQError (NotSupported "get_gains" LOG LINEAR)), p)
  /\ (forall n_frames,
         soft_zero_from_snapshot self n_frames p
         = (Raise (CoreDAQError (NotSupported "soft_zero_from_snapshot" LOG LINEAR)), p))
  /\ _load_factory_zeros parse_factory_zeros self p
     = (Raise (CoreDAQError (NotSupported "_load_factory_zeros" LOG LINEAR)), p)
  /\ (forall self' v,
         frontend_type self' = LINEAR ->
         voltage_to_power_W pow10 self' v
         = Raise (CoreDAQError (NotSupported "voltage_to_power_W" LINEAR LOG)))
  /\ (forall z1 z2 z3 z4, set_soft_zero_adc self z1 z2 z3 z4 = self)
  /\ restore_factory_zero parse_factory_zeros self p = (Ok self, p)
  /\ refresh_factory_zeros parse_factory_zeros self p = (Ok (self, zero4), p).
Proof.
  intro Hlog.
  repeat split; intros;
    unfold set_gain, get_gains, soft_zero_from_snapshot, _load_factory_zeros,
      voltage_to_power_W, set_soft_zero_adc, restore_factory_zero, refresh_factory_zeros,
      _require_frontend, bind, lift, ret;
    try rewrite Hlog; try match goal with H : frontend_type _ = LINEAR |- _ => rewrite H end;
    reflexivity.
Qed.

End FrontendGate.

Lemma C8_frontend_gate_witness :
  frontend_type scenario_lut = LOG /\
  restore_factory_zero zeros_of_payload scenario_lut idle_port = (Ok scenario_lut, idle_port) /\
  refresh_factory_zeros zeros_of_payload scenario_lut idle_port
  = (Ok (scenario_lut, zero4), idle_port).
Proof.
  split; [reflexivity|].
  pose proof (@C8_frontend_gate exponent_of (fun _ => None) zeros_of_payload
                scenario_lut idle_port eq_refl) as H.
  destruct H as (_ & _ & _ & _ & _ & _ & Hrestore & Hrefresh).
  split; [exact Hrestore | exact Hrefresh].
Defined.

(** On a LOG session the zero-offset calls do not raise. *)
Lemma C8_silent_return_counterexample :
  ~ ((exists e p', restore_factory_zero zeros_of_payload scenario_lut idle_port = (Raise e, p'))
     /\ (exists e p', refresh_factory_zeros zeros_of_payload scenario_lut idle_port = (Raise e, p'))).
Proof.
  intros [(e & p' & H) _]. vm_compute in H. discriminate H.
Qed.

(* ------------------------------------------------------------------ *)
(** ** The LOG deadband *)

Section Loops.
Context {B : Type}.

Lemma vforM_ok (body : nat -> result B) (out : vec4 B) :
  vforM body = Ok out ->
  forall ch, (ch < 4)%nat -> body ch = Ok (vget out ch).
Proof.
  unfold vforM, rbind. intros H ch Hch.
  destruct (body 0%nat) eqn:E0; [|discriminate].
  destruct (body 1%nat) eqn:E1; [|discriminate].
  destruct (body 2%nat) eqn:E2; [|discriminate].
  destruct (body 3%nat) eqn:E3; [|discriminate].
  inversion H; subst; clear H.
  destruct ch as [|[|[|[|ch]]]]; try lia; simpl; assumption.
Qed.


End Loops.

Ltac qc_to_q :=
  repeat match goal with
         | H : PyNum.leb _ _ = true |- _ => apply PyNumFacts.leb_le in H
         | H : PyNum.leb _ _ = false |- _ => apply PyNumFacts.leb_gt in H
         | H : PyNum.ltb _ _ = true |- _ => apply PyNumFacts.ltb_lt in H
         | H : PyNum.ltb _ _ = false |- _ => apply PyNumFacts.ltb_ge in H
         | |- PyNum.leb _ _ = true => apply PyNumFacts.leb_le
         | |- PyNum.leb _ _ = false => apply PyNumFacts.leb_gt
         | |- PyNum.ltb _ _ = true => apply PyNumFacts.ltb_lt
         | |- PyNum.ltb _ _ = false => apply PyNumFacts.ltb_ge
         | |- @eq Qc _ _ => apply Qc_is_canon
         end;
  unfold Qcle, Qclt, Qcminus, Qcplus, Qcmult, Qcopp, Q2Qc in *;
  cbn [this] in *;
  repeat (setoid_rewrite Qred_correct);
  repeat match goal with
         | H : context [Qred _] |- _ => setoid_rewrite Qred_correct in H
         end.

Lemma abs_nonneg (x : Qc) : (0 <= PyNum.abs x)%Qc.
Proof.
  unfold PyNum.abs. destruct (PyNum.ltb x 0) eqn:E; qc_to_q; lra.
Qed.

Lemma abs_lt_pos (x d : Qc) : (PyNum.abs x < d)%Qc -> PyNum.ltb 0 d = true.
Proof.
  intro H. pose proof (abs_nonneg x). qc_to_q. lra.
Qed.

Lemma vget_vmap {A B} (f : A -> B) (v : vec4 A) (ch : nat) :
  vget (vmap f v) ch = f (vget v ch).
Proof. destruct ch as [|[|[|ch]]]; reflexivity. Qed.

Section Deadband.
Local Open Scope Qc_scope.
Variable pow10 : Qc -> Qc.
Variable log10 : Qc -> option Qc.
Variable parse_gains : string -> option (vec4 Z).

Lemma snapshot_W_log_ch_dead (self : CoreDAQ) (d m : Qc) :
  PyNum.abs m < d -> snapshot_W_log_ch pow10 self d m = Ok 0.
Proof.
  intro H. unfold snapshot_W_log_ch.
  rewrite (abs_lt_pos _ H).
  replace (PyNum.ltb (PyNum.abs m) d) with true
    by (symmetry; apply PyNumFacts.ltb_lt; exact H).
  reflexivity.
Qed.




Lemma snapshot_W_log_zero (self : CoreDAQ) (log_deadband_mV_arg : option Qc)
      n_frames use_zero autogain min_mv max_mv max_iters return_debug p out dbg p' :
  frontend_type self = LOG ->
  snapshot_W pow10 log10 self n_frames use_zero autogain min_mv max_mv
             max_iters return_debug log_deadband_mV_arg p
  = (Ok (out, dbg), p') ->
  exists mv gains,
    snapshot_mV self n_frames None p = (Ok (mv, gains), p') /\
    forall ch, (ch < 4)%nat ->
               PyNum.abs (vget mv ch) < active_deadband self log_deadband_mV_arg ->
               vget out ch = 0.
Proof.
  intros Hlog Hrun.
  unfold snapshot_W in Hrun. rewrite Hlog in Hrun. unfold bind at 1 in Hrun.
  destruct (snapshot_mV self n_frames None p) as [[[mv gains]|e] p1] eqn:Hsnap;
    [|discriminate].
  unfold bind, lift, ret in Hrun.
  set (d := active_deadband self log_deadband_mV_arg) in *.
  destruct (vforM (fun ch => snapshot_W_log_ch pow10 self d (vget mv ch))) as [o|e] eqn:Hloop;
    [|discriminate].
  inversion Hrun; subst; clear Hrun.
  exists mv, gains. split; [reflexivity|].
  intros ch Hch Hdead.
  pose proof (vforM_ok _ Hloop Hch) as Hone. cbv beta in Hone.
  rewrite (@snapshot_W_log_ch_dead self _ _ Hdead) in Hone. congruence.
Qed.



End Deadband.


(* ------------------------------------------------------------------ *)
(** ** Session construction and the default deadband *)

Section Construction.
Local Open Scope Qc_scope.
Variable parse_factory_zeros : string -> result (vec4 Z).
Variable cal_exchange : io (vec4 (list Qc) * vec4 (list Qc)).
Variable logcal_exchange : io (list (Z * Z)).

Lemma init_deadband (p p' : port) (self : CoreDAQ) :
  CoreDAQ_init parse_factory_zeros cal_exchange logcal_exchange p = (Ok self, p') ->
  log_deadband_mV self = PyNum.qc 300 1.
Proof.
  unfold CoreDAQ_init. unfold bind at 1.
  destruct (_detect_frontend_type_once p) as [[fe|e] p1]; [|discriminate].
  unfold bind at 1. destruct (i2c_refresh p1) as [[[]|e] p2]; [|discriminate].
  unfold bind at 1.
  destruct fe; cbn [_load_calibration_for_frontend frontend_type].
  - unfold _load_linear_calibration. unfold bind at 1.
    destruct (cal_exchange p2) as [[[slopes intercepts]|e] p3]; [|discriminate].
    cbn [ret frontend_type]. unfold _load_factory_zeros, bind, lift, ret, _require_frontend.
    cbn [frontend_type frontend_eqb negb].
    destruct (_ask FACTORY_ZEROS_q p3) as [[[st payload]|e] p4]; [|discriminate].
    destruct (negb (status_eqb st ST_OK)); [discriminate|].
    destruct (parse_factory_zeros payload); [|discriminate].
    intro H; inversion H; subst. reflexivity.
  - unfold _load_log_calibration. unfold bind at 1.
    destruct (logcal_exchange p2) as [[records|e] p3]; [|discriminate].
    destruct (map fst records); [discriminate|].
    match goal with |- context [negb ?c] => destruct (negb c) end; [discriminate|].
    cbn [ret frontend_type]. intro H; inversion H; subst. reflexivity.
Qed.

(** C10.  A session that [CoreDAQ.__init__] returns has the LOG deadband
    at 300.0 mV: [get_log_deadband_mV] returns 300.0, the zero-offset calls
    leave it there, [set_log_deadband_mV d] is what replaces it by [d]; and
    on a LOG device a [snapshot_W] without a deadband argument reports 0 W
    for every channel whose corrected reading is below 300 mV in magnitude. *)
Theorem C10_default_deadband (p p' : port) (self : CoreDAQ) :
  CoreDAQ_init parse_factory_zeros cal_exchange logcal_exchange p = (Ok self, p') ->
  get_log_deadband_mV self = PyNum.qc 300 1
  /\ (forall z1 z2 z3 z4,
         get_log_deadband_mV (set_soft_zero_adc self z1 z2 z3 z4) = PyNum.qc 300 1)
  /\ (forall d self2,
         set_log_deadband_mV self d = Ok self2 -> get_log_deadband_mV self2 = d)
  /\ (frontend_type self = LOG ->
      forall pow10 log10 n_frames use_zero autogain min_mv max_mv max_iters return_debug
             p1 out dbg p2,
        snapshot_W pow10 log10 self n_frames use_zero autogain min_mv max_mv
                   max_iters return_debug None p1
        = (Ok (out, dbg), p2) ->
        exists mv gains,
          snapshot_mV self n_frames None p1 = (Ok (mv, gains), p2) /\
          forall ch, (ch < 4)%nat -> PyNum.abs (vget mv ch) < PyNum.qc 300 1 ->
                     vget out ch = 0).
Proof.
  intro Hinit. pose proof (init_deadband _ Hinit) as Hdb.
  split; [exact Hdb|]. split; [|split].
  - intros z1 z2 z3 z4. unfold get_log_deadband_mV, set_soft_zero_adc.
    destruct (negb (frontend_eqb (frontend_type self) LINEAR)); [exact Hdb|].
    cbn [with_zeros log_deadband_mV]. exact Hdb.
  - intros d self2. unfold set_log_deadband_mV.
    destruct (PyNum.ltb d 0); [discriminate|].
    intro H; inversion H; subst. reflexivity.
  - intros Hlog pow10 log10 n_frames use_zero autogain min_mv max_mv max_iters return_debug
           p1 out dbg p2 Hrun.
    eapply snapshot_W_log_zero in Hrun; [|exact Hlog].
    destruct Hrun as (mv & gains & Hsnap & Hzero).
    exists mv, gains. split; [exact Hsnap|].
    intros ch Hch Hdead. apply Hzero; [exact Hch|].
    unfold active_deadband. rewrite Hdb. exact Hdead.
Qed.

End Construction.

Lemma C10_default_deadband_witness :
  exists self p',
    CoreDAQ_init zeros_of_payload cal_all_zero logcal_three_points port_log_powerup
    = (Ok self, p')
    /\ frontend_type self = LOG
    /\ get_log_deadband_mV self = PyNum.qc 300 1.
Proof.
  destruct (CoreDAQ_init zeros_of_payload cal_all_zero logcal_three_points port_log_powerup)
    as [[self|e] p'] eqn:Hinit; [|vm_compute in Hinit; discriminate Hinit].
  exists self, p'. split; [reflexivity|]. split.
  - vm_compute in Hinit. inversion Hinit. reflexivity.
  - exact (proj1 (@C10_default_deadband zeros_of_payload cal_all_zero logcal_three_points
                    _ _ _ Hinit)).
Defined.

(* ------------------------------------------------------------------ *)
(** ** Zero subtraction and the legacy use_zero argument *)

Section LegacyToggle.
Local Open Scope Qc_scope.
Variable pow10 : Qc -> Qc.
Variable log10 : Qc -> option Qc.
Variable parse_gains : string -> option (vec4 Z).

Lemma snapshot_adc_next (n_frames : Z) (p : port) codes gains rest :
  rx_snaps p = Ok (codes, gains) :: rest ->
  snapshot_adc n_frames p
  = (Ok (codes, gains),
     mkPort (rx_lines p) (rx_blocks p) rest (Sent (SNAP n_frames) :: sent p)).
Proof. intro H. unfold snapshot_adc. rewrite H. reflexivity. Qed.

(** C7.  On the LINEAR frontend the six conversions subtract the active
    zero of each channel from the raw code before scaling, and the legacy
    [use_zero] argument has no effect: calls that differ only in
    [use_zero] return the same values and leave the port in the same
    state. *)
Theorem C7_zero_always_subtracted (self : CoreDAQ) :
  frontend_type self = LINEAR ->
  (* the toggle is ignored *)
  (forall (u1 u2 : option bool) n_frames frames autogain min_mv max_mv max_iters
          return_debug db p,
      snapshot_volts self n_frames u1 p = snapshot_volts self n_frames u2 p
      /\ snapshot_mV self n_frames u1 p = snapshot_mV self n_frames u2 p
      /\ snapshot_W pow10 log10 self n_frames u1 autogain min_mv max_mv max_iters
                    return_debug db p
         = snapshot_W pow10 log10 self n_frames u2 autogain min_mv max_mv max_iters
                      return_debug db p
      /\ transfer_frames_mV self frames u1 db p = transfer_frames_mV self frames u2 db p
      /\ transfer_frames_volts self frames u1 p = transfer_frames_volts self frames u2 p
      /\ transfer_frames_W pow10 log10 parse_gains self frames u1 db p
         = transfer_frames_W pow10 log10 parse_gains self frames u2 db p)
  (* snapshots: code minus zero, then the scale *)
  /\ (forall u n_frames p codes gains rest,
         rx_snaps p = Ok (codes, gains) :: rest ->
         let corrected := vmap2 Z.sub codes (linear_zero_adc self) in
         let p' := mkPort (rx_lines p) (rx_blocks p) rest (Sent (SNAP n_frames) :: sent p) in
         snapshot_volts self n_frames u p
         = (Ok (vmap (fun c => PyNum.of_int c * ADC_LSB_VOLTS) corrected, gains), p')
         /\ snapshot_mV self n_frames u p
            = (Ok (vmap (fun c => PyNum.round_nd (PyNum.of_int c * lsb_mV) 3) corrected,
                   gains), p')
         /\ forall min_mv max_mv max_iters return_debug db,
             snapshot_W pow10 log10 self n_frames u false min_mv max_mv max_iters
                        return_debug db p
             = (rbind (vforM (snapshot_W_linear_ch log10 self
                                (vmap (fun c => PyNum.round_nd (PyNum.of_int c * lsb_mV) 3)
                                      corrected) gains))
                      (fun out => Ok (out, if return_debug
                                           then Some (vmap (fun c => PyNum.round_nd
                                                              (PyNum.of_int c * lsb_mV) 3)
                                                           corrected, gains)
                                           else None)),
                p'))
  (* transfers: code minus zero, then the scale *)
  /\ (forall u db frames p chans p',
         transfer_frames_adc frames p = (Ok chans, p') ->
         let mv := vmap2 (fun z codes => map (fun code => PyNum.of_int (code - z) * lsb_mV) codes)
                         (linear_zero_adc self) chans in
         transfer_frames_mV self frames u db p = (Ok mv, p')
         /\ transfer_frames_volts self frames u p
            = (Ok (vmap (map (fun x => x / PyNum.qc 1000 1)) mv), p')
         /\ transfer_frames_W pow10 log10 parse_gains self frames u db p
            = bind (get_gains parse_gains self)
                   (fun gains => lift (vforM (transfer_W_linear_ch log10 self mv gains))) p').
Proof.
  intro Hlin. split; [|split].
  - intros. repeat split; reflexivity.
  - intros u n_frames p codes gains rest Hrx corrected p'.
    pose proof (snapshot_adc_next n_frames p Hrx) as Hsnap.
    assert (Hzero : _apply_linear_zero_ch self codes = corrected).
    { unfold _apply_linear_zero_ch. rewrite Hlin. reflexivity. }
    split; [|split].
    + unfold snapshot_volts, bind. rewrite Hsnap, Hzero. reflexivity.
    + unfold snapshot_mV, bind. rewrite Hsnap, Hzero. reflexivity.
    + intros. unfold snapshot_W. rewrite Hlin.
      unfold bind at 1. unfold ret at 1. unfold bind at 1.
      unfold snapshot_mV, bind at 1. rewrite Hsnap, Hzero.
      unfold ret at 1. unfold bind, lift, rbind.
      destruct (vforM _); [destruct return_debug|]; reflexivity.
  - intros u db frames p chans p' Hadc mv.
    assert (Hmv : forall u' db', transfer_frames_mV self frames u' db' p = (Ok mv, p')).
    { intros. unfold transfer_frames_mV, bind. rewrite Hadc, Hlin. reflexivity. }
    split; [apply Hmv|]. split.
    + unfold transfer_frames_volts, bind. rewrite Hmv. reflexivity.
    + unfold transfer_frames_W.
      destruct (frames <=? 0)%Z eqn:Hf.
      * exfalso. unfold transfer_frames_adc in Hadc. rewrite Hf in Hadc. discriminate Hadc.
      * rewrite Hlin. unfold bind at 1. rewrite Hmv. reflexivity.
Qed.

End LegacyToggle.

Lemma C7_zero_always_subtracted_witness :
  frontend_type linear_session = LINEAR /\
  snapshot_mV linear_session 1 (Some false) port_linear_snapshot
  = snapshot_mV linear_session 1 (Some true) port_linear_snapshot.
Proof.
  split; [reflexivity|].
  exact (proj1 (proj2 (proj1 (@C7_zero_always_subtracted exponent_of log10_digits
                                (fun _ => None) linear_session eq_refl)
                             (Some false) (Some true) 1%Z 1%Z false 0%Qc 0%Qc 0%Z false None
                             port_linear_snapshot))).
Defined.

(* ------------------------------------------------------------------ *)
(** ** LINEAR conversion: formula, rounding and monotonicity *)

Section HalfEven.
Local Open Scope Q_scope.

(** The rounded value is within one half of the argument. *)
Lemma half_even_bounds (q : Q) :
  inject_Z (PyNum.half_even q) - (1 # 2) <= q /\ q <= inject_Z (PyNum.half_even q) + (1 # 2).
Proof.
  destruct q as [n d]. unfold PyNum.half_even. cbn [Qnum Qden].
  pose proof (Z.div_mod n (Z.pos d) ltac:(lia)) as Hdm.
  pose proof (Z.mod_pos_bound n (Z.pos d) ltac:(lia)) as Hr.
  set (f := (n / Z.pos d)%Z) in *. set (r := (n mod Z.pos d)%Z) in *.
  destruct (Z.compare_spec (2 * r) (Z.pos d)) as [E|E|E];
    [destruct (Z.even f)| |];
    unfold Qle, Qminus, Qplus, Qopp, inject_Z; cbn [Qnum Qden]; nia.
Qed.

End HalfEven.

Section Rounding.
Local Open Scope Qc_scope.

Lemma half_even_mono (x y : Qc) : x <= y -> (PyNum.half_even x <= PyNum.half_even y)%Z.
Proof.
  intro Hxy.
  destruct (Qc_eq_dec x y) as [->|Hne]; [lia|].
  destruct (Z_le_gt_dec (PyNum.half_even x) (PyNum.half_even y)) as [H|H]; [exact H|].
  exfalso. apply Hne. apply Qc_is_canon.
  destruct (half_even_bounds x) as [Hx _]. destruct (half_even_bounds y) as [_ Hy].
  assert (Hstep : (inject_Z (PyNum.half_even y) + 1 <= inject_Z (PyNum.half_even x))%Q).
  { rewrite <- (inject_Z_plus _ 1). rewrite <- Zle_Qle. lia. }
  unfold Qcle in Hxy. lra.
Qed.

Lemma Qcdiv_le_mono (a b s : Qc) : 0 < s -> a <= b -> a / s <= b / s.
Proof.
  intros Hs Hab. unfold Qcdiv, Qcinv. qc_to_q.
  apply Qmult_le_compat_r; [exact Hab|]. apply Qinv_le_0_compat. lra.
Qed.

Lemma of_int_mono (a b : Z) : (a <= b)%Z -> PyNum.of_int a <= PyNum.of_int b.
Proof.
  intro H. unfold PyNum.of_int. qc_to_q.
  rewrite <- Zle_Qle. exact H.
Qed.

Lemma of_int_pow10_pos (n : Z) : (0 <= n)%Z -> 0 < PyNum.of_int (10 ^ n).
Proof.
  intro H. unfold PyNum.of_int. qc_to_q.
  change 0%Q with (inject_Z 0). rewrite <- Zlt_Qlt.
  apply Z.pow_pos_nonneg; lia.
Qed.

Lemma Q2Qc_le (a b : Q) : (a <= b)%Q -> Q2Qc a <= Q2Qc b.
Proof. intro H. unfold Qcle, Q2Qc. cbn [this]. rewrite !Qred_correct. exact H. Qed.

Lemma round_nd_mono (x y : Qc) (n : Z) :
  (0 <= n)%Z -> x <= y -> PyNum.round_nd x n <= PyNum.round_nd y n.
Proof.
  intros Hn Hxy. unfold PyNum.round_nd.
  replace (0 <=? n)%Z with true by (symmetry; apply Z.leb_le; exact Hn).
  pose proof (of_int_pow10_pos Hn) as Hpos.
  assert (Hscaled : x * PyNum.of_int (10 ^ n) <= y * PyNum.of_int (10 ^ n)).
  { apply Qcmult_le_compat_r; [exact Hxy|]. apply Qclt_le_weak. exact Hpos. }
  apply half_even_mono in Hscaled.
  apply Q2Qc_le.
  unfold Qdiv. apply Qmult_le_compat_r.
  - rewrite <- Zle_Qle. exact Hscaled.
  - apply Qinv_le_0_compat. change 0%Q with (inject_Z 0).
    rewrite <- Zle_Qle. apply Z.pow_nonneg. lia.
Qed.

Lemma lsb_mV_pos : 0 < lsb_mV.
Proof. reflexivity. Qed.

End Rounding.

Section LinearConversion.
Local Open Scope Qc_scope.
Variable log10 : Qc -> option Qc.
Hypothesis log10_defined : forall x, 0 < x -> log10 x <> None.

Lemma linear_power_formula (s i m : Qc) (d : Z) :
  linear_power s i m d = PyNum.round_nd (max0 ((m - i) / s)) d.
Proof.
  unfold linear_power, max0, PyNum.ltb, PyNum.leb.
  destruct (Qle_bool _ _); reflexivity.
Qed.

Lemma lsb_over_slope_sign (s : Qc) :
  (0 < s -> 0 < lsb_mV / s) /\ (s < 0 -> lsb_mV / s <= 0).
Proof.
  pose proof lsb_mV_pos as Hl.
  assert (Hprod : s <> 0 -> lsb_mV / s * s = lsb_mV) by (intro; field; assumption).
  split; intro Hs.
  - assert (Hne : s <> 0) by (intro E; subst; discriminate Hs).
    specialize (Hprod Hne). apply (f_equal this) in Hprod.
    destruct (Qclt_le_dec 0 (lsb_mV / s)) as [H|H]; [exact H|exfalso].
    revert Hprod H. generalize (lsb_mV / s). intros t Hprod H.
    unfold Qcle, Qclt, Qcmult, Q2Qc in *. cbn [this] in *.
    assert (Hq : (t * s == lsb_mV)%Q) by (rewrite <- Hprod, Qred_correct; reflexivity).
    change (Qred 0) with 0%Q in *. nra.
  - assert (Hne : s <> 0) by (intro E; subst; discriminate Hs).
    specialize (Hprod Hne). apply (f_equal this) in Hprod.
    destruct (Qclt_le_dec 0 (lsb_mV / s)) as [H|H]; [exfalso|exact H].
    revert Hprod H. generalize (lsb_mV / s). intros t Hprod H.
    unfold Qcle, Qclt, Qcmult, Q2Qc in *. cbn [this] in *.
    assert (Hq : (t * s == lsb_mV)%Q) by (rewrite <- Hprod, Qred_correct; reflexivity).
    change (Qred 0) with 0%Q in *. nra.
Qed.

Lemma linear_decimals_cases (s : Qc) :
  (0 < s -> exists l, log10 (lsb_mV / s) = Some l /\
                      linear_decimals log10 s = Ok (clamp_0_12 (PyNum.round_int (- l))))
  /\ (s < 0 -> linear_decimals log10 s = Ok 0%Z).
Proof.
  destruct (lsb_over_slope_sign s) as [Hpos Hneg].
  unfold linear_decimals. split; intro Hs.
  - specialize (Hpos Hs).
    replace (PyNum.leb (lsb_mV / s) 0) with false
      by (symmetry; apply PyNumFacts.leb_gt; exact Hpos).
    destruct (log10 (lsb_mV / s)) as [l|] eqn:El.
    + exists l. split; reflexivity.
    + exfalso. exact (log10_defined Hpos El).
  - specialize (Hneg Hs).
    replace (PyNum.leb (lsb_mV / s) 0) with true
      by (symmetry; apply PyNumFacts.leb_le; exact Hneg).
    reflexivity.
Qed.

Lemma linear_decimals_range (s : Qc) (d : Z) :
  linear_decimals log10 s = Ok d -> (0 <= d <= 12)%Z.
Proof.
  unfold linear_decimals.
  destruct (PyNum.leb (lsb_mV / s) 0); [intro H; inversion H; lia|].
  destruct (log10 (lsb_mV / s)); [|discriminate].
  intro H; inversion H. lia.
Qed.


Lemma threshold_zero_never (m : Qc) : PyNum.ltb (PyNum.abs m) 0 = false.
Proof. apply PyNumFacts.ltb_ge. apply abs_nonneg. Qed.

Lemma max0_mono (a b : Qc) : a <= b -> max0 a <= max0 b.
Proof.
  intro H. unfold max0.
  destruct (PyNum.leb 0 a) eqn:Ea; destruct (PyNum.leb 0 b) eqn:Eb; qc_to_q; lra.
Qed.

Lemma linear_power_mono (s i m1 m2 : Qc) (d : Z) :
  0 < s -> (0 <= d)%Z -> m1 <= m2 -> linear_power s i m1 d <= linear_power s i m2 d.
Proof.
  intros Hs Hd Hm. rewrite !linear_power_formula.
  apply round_nd_mono; [exact Hd|]. apply max0_mono. apply Qcdiv_le_mono; [exact Hs|].
  qc_to_q. lra.
Qed.

Lemma snapshot_scale_mono (c1 c2 : Z) : (c1 <= c2)%Z -> snapshot_scale c1 <= snapshot_scale c2.
Proof.
  intro H. unfold snapshot_scale. apply round_nd_mono; [lia|].
  apply Qcmult_le_compat_r; [apply of_int_mono; exact H | apply Qclt_le_weak, lsb_mV_pos].
Qed.

Lemma transfer_scale_mono (c1 c2 : Z) : (c1 <= c2)%Z -> transfer_scale c1 <= transfer_scale c2.
Proof.
  intro H. unfold transfer_scale.
  apply Qcmult_le_compat_r; [apply of_int_mono; exact H | apply Qclt_le_weak, lsb_mV_pos].
Qed.

(** The two channel bodies once the calibration cell is known and nonzero. *)
Lemma linear_ch_run (self : CoreDAQ) (mv : vec4 Qc) (mv_ch : vec4 (list Qc))
      (gains : vec4 Z) (ch : nat) (s i : Qc) (d : Z) :
  mv_zero_threshold self = 0 ->
  py_index (vget (cal_slope self) ch) (vget gains ch) = Ok s ->
  py_index (vget (cal_intercept self) ch) (vget gains ch) = Ok i ->
  s <> 0 -> linear_decimals log10 s = Ok d ->
  snapshot_W_linear_ch log10 self mv gains ch = Ok (linear_power s i (vget mv ch) d)
  /\ transfer_W_linear_ch log10 self mv_ch gains ch
     = Ok (map (fun m => linear_power s i m d) (vget mv_ch ch)).
Proof.
  intros Hthr Hs Hi Hne Hd.
  unfold snapshot_W_linear_ch, transfer_W_linear_ch.
  rewrite Hs, Hi, Hthr. cbn [rbind].
  replace (PyNum.eqb s 0) with false by (symmetry; apply PyNumFacts.eqb_neq; exact Hne).
  rewrite Hd, threshold_zero_never. cbn [rbind]. split; [reflexivity|].
  f_equal. apply map_ext. intro m. rewrite threshold_zero_never. reflexivity.
Qed.


(** C9 (as amended).  For a calibration cell with a positive slope the
    conversion from the zero-subtracted code to watts, with the clamp at 0
    and the rounding to the LSB-derived number of decimals, never decreases
    when the code increases, on the snapshot path and on the transfer
    path. *)
Theorem C9_linear_monotone (self : CoreDAQ) (gains : vec4 Z) (ch : nat) (s i : Qc) :
  mv_zero_threshold self = 0 ->
  py_index (vget (cal_slope self) ch) (vget gains ch) = Ok s ->
  py_index (vget (cal_intercept self) ch) (vget gains ch) = Ok i ->
  0 < s ->
  (forall codes1 codes2 : vec4 Z,
      (vget codes1 ch <= vget codes2 ch)%Z ->
      exists w1 w2,
        snapshot_W_linear_ch log10 self (vmap snapshot_scale codes1) gains ch = Ok w1
        /\ snapshot_W_linear_ch log10 self (vmap snapshot_scale codes2) gains ch = Ok w2
        /\ w1 <= w2)
  /\ (forall chans : vec4 (list Z),
         exists ws,
           transfer_W_linear_ch log10 self (vmap (map transfer_scale) chans) gains ch = Ok ws
           /\ forall j1 j2 c1 c2,
               nth_error (vget chans ch) j1 = Some c1 ->
               nth_error (vget chans ch) j2 = Some c2 ->
               (c1 <= c2)%Z ->
               exists w1 w2, nth_error ws j1 = Some w1 /\ nth_error ws j2 = Some w2
                             /\ w1 <= w2).
Proof.
  intros Hthr Hs Hi Hpos.
  assert (Hne : s <> 0) by (intro E; subst; discriminate Hpos).
  destruct (proj1 (linear_decimals_cases s) Hpos) as (l & _ & Hd).
  pose proof (linear_decimals_range _ Hd) as Hrange.
  split.
  - intros codes1 codes2 Hc.
    destruct (linear_ch_run self (vmap snapshot_scale codes1) (V4 [] [] [] []) gains ch
                            Hthr Hs Hi Hne Hd) as [H1 _].
    destruct (linear_ch_run self (vmap snapshot_scale codes2) (V4 [] [] [] []) gains ch
                            Hthr Hs Hi Hne Hd) as [H2 _].
    eexists; eexists. split; [exact H1|]. split; [exact H2|].
    rewrite !vget_vmap. apply linear_power_mono; [exact Hpos | lia |].
    apply snapshot_scale_mono. exact Hc.
  - intro chans.
    destruct (linear_ch_run self (V4 0 0 0 0) (vmap (map transfer_scale) chans) gains ch
                            Hthr Hs Hi Hne Hd) as [_ H].
    eexists. split; [exact H|].
    intros j1 j2 c1 c2 H1 H2 Hc.
    rewrite vget_vmap, map_map.
    set (d := clamp_0_12 (PyNum.round_int (- l))) in *.
    exists (linear_power s i (transfer_scale c1) d), (linear_power s i (transfer_scale c2) d).
    split; [exact (map_nth_error (fun c => linear_power s i (transfer_scale c) d) j1 _ H1)|].
    split; [exact (map_nth_error (fun c => linear_power s i (transfer_scale c) d) j2 _ H2)|].
    apply linear_power_mono; [exact Hpos | lia |].
    apply transfer_scale_mono. exact Hc.
Qed.

End LinearConversion.

Lemma log10_digits_defined (x : Qc) : (0 < x)%Qc -> log10_digits x <> None.
Proof.
  intro H. unfold log10_digits.
  replace (PyNum.ltb 0 x) with true by (symmetry; apply PyNumFacts.ltb_lt; exact H).
  discriminate.
Qed.



Lemma C9_linear_monotone_witness :
  mv_zero_threshold linear_session = 0%Qc /\
  (0 < PyNum.qc 100 1)%Qc /\
  exists w1 w2,
    snapshot_W_linear_ch log10_digits linear_session
                         (vmap snapshot_scale (V4 0 0 0 0)%Z) zero4 0 = Ok w1
    /\ snapshot_W_linear_ch log10_digits linear_session
                            (vmap snapshot_scale (V4 1000 0 0 0)%Z) zero4 0 = Ok w2
    /\ (w1 <= w2)%Qc.
Proof.
  split; [reflexivity|]. split; [reflexivity|].
  apply (proj1 (@C9_linear_monotone log10_digits log10_digits_defined linear_session
                  zero4 0%nat (PyNum.qc 100 1) (PyNum.qc 5 1)
                  eq_refl eq_refl eq_refl eq_refl)).
  simpl. lia.
Defined.

(** With the slope -100 mV/W the code -1000 converts to 2 W and the larger
    code 0 converts to 0 W. *)
Lemma C9_negative_slope_counterexample :
  ~ (PyNum.qc (-100) 1 <> 0%Qc ->
     forall w1 w2,
       snapshot_W_linear_ch log10_digits inverted_session
                            (vmap snapshot_scale (V4 (-1000) 0 0 0)%Z) zero4 0 = Ok w1 ->
       snapshot_W_linear_ch log10_digits inverted_session
                            (vmap snapshot_scale (V4 0 0 0 0)%Z) zero4 0 = Ok w2 ->
       (w1 <= w2)%Qc).
Proof.
  intro H.
  assert (Hne : PyNum.qc (-100) 1 <> 0%Qc) by (intro E; apply (f_equal this) in E; discriminate E).
  specialize (H Hne (PyNum.qc 2 1) 0%Qc).
  assert (H1 : snapshot_W_linear_ch log10_digits inverted_session
                 (vmap snapshot_scale (V4 (-1000) 0 0 0)%Z) zero4 0 = Ok (PyNum.qc 2 1)).
  { vm_compute. first [reflexivity | f_equal; apply Qc_is_canon; reflexivity]. }
  assert (H2 : snapshot_W_linear_ch log10_digits inverted_session
                 (vmap snapshot_scale (V4 0 0 0 0)%Z) zero4 0 = Ok 0%Qc).
  { vm_compute. first [reflexivity | f_equal; apply Qc_is_canon; reflexivity]. }
  specialize (H H1 H2). vm_compute in H. apply H. reflexivity.
Qed.

(* ------------------------------------------------------------------ *)
(** ** Bulk transfer: the read loop and the decoder *)

Section ReadLoop.

Lemma ser_read_stream (n : Z) (p : port) :
  1 <= n ->
  exists r p',
    ser_read n p = (Ok r, p')
    /\ rx_lines p' = rx_lines p /\ rx_snaps p' = rx_snaps p /\ sent p' = sent p
    /\ (r <> [] -> stream (rx_blocks p) = r ++ stream (rx_blocks p'))
    /\ (Z.of_nat (List.length r) <= n)
    /\ (r = [] -> stream (rx_blocks p) = []).
Proof.
  intro Hn. unfold ser_read.
  destruct (rx_blocks p) as [|blk rest] eqn:Hb.
  - exists [], p. rewrite Hb. repeat split; simpl; try reflexivity; try lia; try congruence.
  - destruct blk as [|b blk].
    + exists [], (mkPort (rx_lines p) rest (rx_snaps p) (sent p)).
      destruct (Z.to_nat n); simpl; repeat split; try reflexivity; try lia; try congruence.
    + set (k := Z.to_nat n).
      assert (Hk : (1 <= k)%nat) by (subst k; lia).
      pose proof (firstn_skipn k (b :: blk)) as Hsplit.
      pose proof (firstn_le_length k (b :: blk)) as Hlen.
      eexists; eexists. split; [reflexivity|].
      cbn [rx_lines rx_snaps sent rx_blocks].
      repeat split.
      * intros _. destruct (skipn k (b :: blk)) as [|c left] eqn:Hleft.
        -- rewrite app_nil_r in Hsplit. rewrite Hsplit. reflexivity.
        -- change (stream ((b :: blk) :: rest)) with ((b :: blk) ++ stream rest).
           change (stream ((c :: left) :: rest)) with ((c :: left) ++ stream rest).
           rewrite app_assoc, Hsplit. reflexivity.
      * rewrite length_firstn. subst k. lia.
      * destruct k; [lia|]. simpl. discriminate.
Qed.

Lemma read_loop_spec (needed : Z) :
  forall fuel got buf p,
    (Z.to_nat (needed - got) <= fuel)%nat ->
    let s := stream (rx_blocks p) in
    exists p',
      rx_lines p' = rx_lines p /\ rx_snaps p' = rx_snaps p /\ sent p' = sent p
      /\ read_loop fuel needed got buf p
         = (if needed - got <=? Z.of_nat (List.length s)
            then Ok (buf ++ firstn (Z.to_nat (needed - got)) s)
            else Raise (TimeoutError (got + Z.of_nat (List.length s)) needed),
            p').
Proof.
  induction fuel as [|fuel IH]; intros got buf p Hfuel s.
  - cbn [read_loop].
    destruct (got <? needed) eqn:Hlt; [apply Z.ltb_lt in Hlt; lia|].
    apply Z.ltb_ge in Hlt. exists p. repeat split.
    replace (needed - got <=? Z.of_nat (List.length s)) with true
      by (symmetry; apply Z.leb_le; lia).
    replace (Z.to_nat (needed - got)) with 0%nat by lia.
    rewrite firstn_0, app_nil_r. reflexivity.
  - cbn [read_loop].
    destruct (got <? needed) eqn:Hlt.
    + apply Z.ltb_lt in Hlt.
      assert (Hn : 1 <= Z.min chunk (needed - got)) by (unfold chunk; lia).
      destruct (ser_read_stream p Hn) as (r & p1 & Hread & Hl & Hs & Hsent & Hstream & Hlen & Hempty).
      unfold bind. rewrite Hread.
      destruct r as [|b r].
      * exists p1. repeat split; try assumption.
        subst s. rewrite (Hempty eq_refl). cbn [List.length].
        replace (needed - got <=? Z.of_nat 0) with false by (symmetry; apply Z.leb_gt; lia).
        unfold throw. rewrite Z.add_0_r. reflexivity.
      * assert (Hpos : (1 <= List.length (b :: r))%nat) by (simpl; lia).
        specialize (Hstream ltac:(discriminate)).
        set (r1 := b :: r) in *. clearbody r1.
        destruct (IH (got + Z.of_nat (List.length r1)) (buf ++ r1) p1) as
            (p' & Hl' & Hs' & Hsent' & Hrun); [lia|].
        exists p'. repeat split; try congruence.
        rewrite Hrun. subst s. rewrite Hstream, length_app.
        set (s1 := stream (rx_blocks p1)) in *. clearbody s1.
        destruct (needed - got <=? Z.of_nat (List.length r1 + List.length s1)%nat) eqn:Hc.
        -- apply Z.leb_le in Hc.
           replace (needed - (got + Z.of_nat (List.length r1)) <=? Z.of_nat (List.length s1))
             with true by (symmetry; apply Z.leb_le; lia).
           do 2 f_equal. rewrite <- app_assoc. f_equal.
           rewrite firstn_app. rewrite (@firstn_all2 _ _ r1) by lia.
           f_equal. f_equal. lia.
        -- apply Z.leb_gt in Hc.
           replace (needed - (got + Z.of_nat (List.length r1)) <=? Z.of_nat (List.length s1))
             with false by (symmetry; apply Z.leb_gt; lia).
           do 3 f_equal. lia.
    + apply Z.ltb_ge in Hlt. exists p. repeat split.
      replace (needed - got <=? Z.of_nat (List.length s)) with true
        by (symmetry; apply Z.leb_le; lia).
      replace (Z.to_nat (needed - got)) with 0%nat by lia.
      rewrite firstn_0, app_nil_r. reflexivity.
Qed.

End ReadLoop.

Section Decode.

Lemma stride4_nth (l : list Z) : forall skip i,
  nth_error (stride4 skip l) i = nth_error l (skip + 4 * i).
Proof.
  induction l as [|a l IH]; intros skip i.
  - simpl. destruct i; destruct (skip + _)%nat; reflexivity.
  - cbn [stride4]. destruct skip as [|k].
    + destruct i as [|i]; [reflexivity|].
      cbn [nth_error]. rewrite IH.
      replace (0 + 4 * S i)%nat with (S (3 + 4 * i)) by lia. reflexivity.
    + rewrite IH. reflexivity.
Qed.

Lemma samples_nth : forall k buf,
  nth_error (samples_of_bytes buf) k
  = match nth_error buf (2 * k), nth_error buf (2 * k + 1) with
    | Some lo, Some hi => Some (int16_le lo hi)
    | _, _ => None
    end.
Proof.
  induction k as [|k IH]; intros [|lo [|hi rest]]; try reflexivity.
  - cbn [samples_of_bytes nth_error].
    replace (2 * S k)%nat with (S (S (2 * k))) by lia.
    replace (S (S (2 * k)) + 1)%nat with (S (S (2 * k + 1))) by lia.
    cbn [nth_error]. destruct (2 * k)%nat; destruct (2 * k + 1)%nat; reflexivity.
  - cbn [samples_of_bytes nth_error]. rewrite IH.
    replace (2 * S k)%nat with (S (S (2 * k))) by lia.
    replace (S (S (2 * k)) + 1)%nat with (S (S (2 * k + 1))) by lia.
    reflexivity.
Qed.

Lemma length_by_nth {A} (l : list A) (n : nat) :
  (forall i, (i < n)%nat <-> nth_error l i <> None) -> List.length l = n.
Proof.
  intro H.
  assert (H1 : forall i, (i < n)%nat <-> (i < List.length l)%nat).
  { intro i. rewrite H. apply nth_error_Some. }
  pose proof (H1 n). pose proof (H1 (List.length l)). lia.
Qed.

(** The channel sequences of a buffer of [8 * frames] bytes. *)
Lemma deinterleave_spec (buf : list Byte.byte) (frames : nat) :
  List.length buf = (8 * frames)%nat ->
  forall c, (c < 4)%nat ->
    List.length (vget (deinterleave (samples_of_bytes buf)) c) = frames
    /\ forall i, (i < frames)%nat ->
         exists lo hi,
           nth_error buf (2 * (4 * i + c)) = Some lo
           /\ nth_error buf (2 * (4 * i + c) + 1) = Some hi
           /\ nth_error (vget (deinterleave (samples_of_bytes buf)) c) i
              = Some (int16_le lo hi).
Proof.
  intros Hlen c Hc.
  assert (Hch : forall i, nth_error (vget (deinterleave (samples_of_bytes buf)) c) i
                          = nth_error (samples_of_bytes buf) (c + 4 * i)).
  { intro i. destruct c as [|[|[|[|c]]]]; try lia; cbn [vget deinterleave ch1 ch2 ch3 ch4];
      apply stride4_nth. }
  assert (Hbytes : forall i, (i < frames)%nat ->
             exists lo hi, nth_error buf (2 * (4 * i + c)) = Some lo
                           /\ nth_error buf (2 * (4 * i + c) + 1) = Some hi).
  { intros i Hi.
    destruct (nth_error buf (2 * (4 * i + c))) as [lo|] eqn:Elo;
      [|apply nth_error_None in Elo; lia].
    destruct (nth_error buf (2 * (4 * i + c) + 1)) as [hi|] eqn:Ehi;
      [|apply nth_error_None in Ehi; lia].
    exists lo, hi. split; reflexivity. }
  split.
  - apply length_by_nth. intro i. rewrite Hch, samples_nth. split.
    + intro Hi. destruct (Hbytes i Hi) as (lo & hi & Hlo & Hhi).
      replace (c + 4 * i)%nat with (4 * i + c)%nat by lia. rewrite Hlo, Hhi. discriminate.
    + intro Hsome.
      destruct (nth_error buf (2 * (c + 4 * i))) as [lo|] eqn:Elo; [|congruence].
      assert (2 * (c + 4 * i) < List.length buf)%nat by (apply nth_error_Some; congruence).
      lia.
  - intros i Hi. destruct (Hbytes i Hi) as (lo & hi & Hlo & Hhi).
    exists lo, hi. split; [exact Hlo|]. split; [exact Hhi|].
    rewrite Hch, samples_nth.
    replace (c + 4 * i)%nat with (4 * i + c)%nat by lia. rewrite Hlo, Hhi. reflexivity.
Qed.

End Decode.

Section BulkTransfer.

(** After the acknowledgement, the outcome is decided by the number of
    bytes that arrive before a read times out. *)
Lemma transfer_frames_adc_ack (frames : Z) (p : port) (line : string) (rest : list string) :
  0 < frames -> rx_lines p = line :: rest -> reply_ok line = true ->
  let needed := frames * 4 * 2 in
  let s := stream (rx_blocks p) in
  exists p',
    sent p' = Sent (XFER needed) :: sent p
    /\ transfer_frames_adc frames p
       = (if needed <=? Z.of_nat (List.length s)
          then Ok (deinterleave (samples_of_bytes (firstn (Z.to_nat needed) s)))
          else Raise (TimeoutError (Z.of_nat (List.length s)) needed),
          p').
Proof.
  intros Hpos Hrx Hok needed s.
  unfold reply_ok in Hok. apply andb_true_iff in Hok. destruct Hok as [Hne Hpre].
  apply negb_true_iff in Hne.
  unfold transfer_frames_adc.
  replace (frames <=? 0) with false by (symmetry; apply Z.leb_gt; exact Hpos).
  fold needed.
  unfold bind at 1, _writeln, emit. unfold bind at 1, _readline.
  cbn [rx_lines rx_blocks rx_snaps sent]. rewrite Hrx, Hne. rewrite Hpre. cbn [negb].
  set (p0 := mkPort rest (rx_blocks p) (rx_snaps p) (Sent (XFER needed) :: sent p)).
  destruct (@read_loop_spec needed (Z.to_nat needed) 0 [] p0) as (p' & _ & _ & Hsent & Hrun);
    [lia|].
  exists p'. split; [exact Hsent|].
  unfold bind. rewrite Hrun. cbn [rx_blocks p0]. fold s.
  rewrite !Z.sub_0_r, Z.add_0_l. cbn [app].
  destruct (needed <=? Z.of_nat (List.length s)) eqn:Hc; [|reflexivity].
  apply Z.leb_le in Hc.
  assert (Hlen : List.length (firstn (Z.to_nat needed) s) = (8 * Z.to_nat frames)%nat).
  { rewrite length_firstn. subst needed. lia. }
  destruct (@deinterleave_spec _ _ Hlen 0%nat ltac:(lia)) as [Hl0 _].
  cbn [vget] in Hl0. rewrite Hl0.
  replace (Z.of_nat (Z.to_nat frames) =? frames) with true by (symmetry; apply Z.eqb_eq; lia).
  reflexivity.
Qed.

(** C6 (as amended).  For [frames > 0] the request is [XFER] with
    [frames * 4 * 2] bytes.  Once the device has acknowledged it: if fewer
    bytes arrive before a read times out, the call raises the read-timeout
    error (the short read) and returns no samples; if the bytes arrive, it
    returns four sequences of length [frames], sample [i] of channel [c]
    being the little-endian signed 16-bit value at buffer element
    [i*4 + c]; the parse-mismatch error guards the length of the result and
    is never raised.  1000 frames need 8000 bytes: with 3990 delivered the
    short read is raised at 3990/8000. *)
Theorem C6_bulk_transfer (frames : Z) (p : port) (line : string) (rest : list string) :
  0 < frames -> rx_lines p = line :: rest -> reply_ok line = true ->
  let needed := frames * 4 * 2 in
  let s := stream (rx_blocks p) in
  (Z.of_nat (List.length s) < needed ->
   exists p', transfer_frames_adc frames p
              = (Raise (TimeoutError (Z.of_nat (List.length s)) needed), p')
              /\ sent p' = Sent (XFER needed) :: sent p)
  /\ (needed <= Z.of_nat (List.length s) ->
      exists chans p',
        transfer_frames_adc frames p = (Ok chans, p')
        /\ sent p' = Sent (XFER needed) :: sent p
        /\ (forall c, (c < 4)%nat -> Z.of_nat (List.length (vget chans c)) = frames)
        /\ (forall i c, (Z.of_nat i < frames) -> (c < 4)%nat ->
              exists lo hi,
                nth_error s (2 * (4 * i + c)) = Some lo
                /\ nth_error s (2 * (4 * i + c) + 1) = Some hi
                /\ nth_error (vget chans c) i = Some (int16_le lo hi)))
  /\ (forall r p' expected got,
         transfer_frames_adc frames p = (r, p') ->
         r <> Raise (CoreDAQError (ParseMismatch expected got)))
  /\ fst (transfer_frames_adc 1000 (port_xfer 3990)) = Raise (TimeoutError 3990 8000).
Proof.
  intros Hpos Hrx Hok needed s.
  destruct (transfer_frames_adc_ack p Hpos Hrx Hok) as (p' & Hsent & Hrun).
  fold needed in Hsent, Hrun. fold s in Hrun.
  split; [|split; [|split]].
  - intro Hshort. exists p'. split; [|exact Hsent].
    rewrite Hrun.
    replace (needed <=? Z.of_nat (List.length s)) with false
      by (symmetry; apply Z.leb_gt; exact Hshort).
    reflexivity.
  - intro Hfull. eexists; exists p'.
    rewrite Hrun.
    replace (needed <=? Z.of_nat (List.length s)) with true
      by (symmetry; apply Z.leb_le; exact Hfull).
    split; [reflexivity|]. split; [exact Hsent|].
    assert (Hlen : List.length (firstn (Z.to_nat needed) s) = (8 * Z.to_nat frames)%nat).
    { rewrite length_firstn. subst needed. lia. }
    split.
    + intros c Hc. destruct (@deinterleave_spec _ _ Hlen c Hc) as [Hl _]. rewrite Hl. lia.
    + intros i c Hi Hc. destruct (@deinterleave_spec _ _ Hlen c Hc) as [_ Hs].
      destruct (Hs i ltac:(lia)) as (lo & hi & Hlo & Hhi & Hnth).
      exists lo, hi. split; [|split; [|exact Hnth]].
      * rewrite nth_error_firstn in Hlo. destruct (_ <? _)%nat; [exact Hlo | discriminate].
      * rewrite nth_error_firstn in Hhi. destruct (_ <? _)%nat; [exact Hhi | discriminate].
  - intros r q expected got Hr. rewrite Hrun in Hr.
    destruct (needed <=? Z.of_nat (List.length s)); inversion Hr; discriminate.
  - vm_compute. reflexivity.
Qed.

End BulkTransfer.

Lemma C6_bulk_transfer_witness :
  0 < 2 /\ reply_ok "OK" = true /\
  exists chans p',
    transfer_frames_adc 2 (port_xfer 16) = (Ok chans, p')
    /\ sent p' = [Sent (XFER 16)]
    /\ (forall c, (c < 4)%nat -> Z.of_nat (List.length (vget chans c)) = 2).
Proof.
  split; [lia|]. split; [reflexivity|].
  destruct (proj1 (proj2 (@C6_bulk_transfer 2 (port_xfer 16) "OK" [] ltac:(lia) eq_refl eq_refl))
              ltac:(vm_compute; discriminate))
    as (chans & p' & Hrun & Hsent & Hlen & _).
  exists chans, p'. split; [exact Hrun|]. split; [exact Hsent | exact Hlen].
Defined.

(** For 1000 frames 4000 bytes are not enough: the request is for 8000. *)
Lemma C6_4000_bytes_counterexample :
  ~ (exists chans p', transfer_frames_adc 1000 (port_xfer 4000) = (Ok chans, p')).
Proof.
  intros (chans & p' & H).
  assert (E : fst (transfer_frames_adc 1000 (port_xfer 4000)) = Raise (TimeoutError 4000 8000))
    by (vm_compute; reflexivity).
  rewrite H in E. discriminate E.
Qed.

(* ------------------------------------------------------------------ *)
(** ** The autogain loop *)

Section Autogain.
Local Open Scope Qc_scope.
Variable self : CoreDAQ.
Hypothesis Hlinear : frontend_type self = LINEAR.
Variables min_mv max_mv : Qc.

(** The decision of one channel. *)
Lemma adjustment_spec (reading : Qc) (g v : Z) :
  adjustment min_mv max_mv reading g = Some v ->
  ((PyNum.abs reading < min_mv /\ (g < 7)%Z /\ v = (g + 1)%Z)
   \/ (max_mv < PyNum.abs reading /\ (0 < g)%Z /\ v = (g - 1)%Z))
  /\ ((0 <= g <= 7)%Z -> (0 <= v <= 7)%Z).
Proof.
  unfold adjustment.
  destruct (PyNum.ltb (PyNum.abs reading) min_mv && (g <? 7)%Z) eqn:E1.
  - apply andb_true_iff in E1. destruct E1 as [Ea Eb].
    apply PyNumFacts.ltb_lt in Ea. apply Z.ltb_lt in Eb.
    intro H; inversion H; subst. split; [left; auto | lia].
  - destruct (PyNum.ltb max_mv (PyNum.abs reading) && (0 <? g)%Z) eqn:E2; [|discriminate].
    apply andb_true_iff in E2. destruct E2 as [Ea Eb].
    apply PyNumFacts.ltb_lt in Ea. apply Z.ltb_lt in Eb.
    intro H; inversion H; subst. split; [right; auto | lia].
Qed.

(** [set_gain] on a LINEAR session: a rejected value leaves the port
    alone; an accepted one is written before anything can fail. *)
Lemma set_gain_step (head value : Z) (p : port) :
  (1 <= head <= 4)%Z ->
  exists r p',
    set_gain self head value p = (r, p')
    /\ rx_snaps p' = rx_snaps p
    /\ ((exists e, r = Raise e /\ sent p' = sent p)
        \/ ((0 <= value <= 7)%Z /\ sent p' = Sent (GAIN head value) :: sent p)).
Proof.
  intro Hhead. unfold set_gain, _require_frontend. rewrite Hlinear.
  cbn [frontend_eqb negb]. unfold bind at 1, lift at 1.
  replace ((1 <=? head) && (head <=? 4))%Z with true
    by (symmetry; apply andb_true_iff; split; apply Z.leb_le; lia).
  cbn [negb].
  destruct ((0 <=? value) && (value <=? 7))%Z eqn:Ev; cbn [negb].
  - apply andb_true_iff in Ev. destruct Ev as [E1 E2]. apply Z.leb_le in E1, E2.
    unfold bind, _ask, bind, _writeln, emit, _readline. cbn [rx_lines rx_blocks rx_snaps sent].
    destruct (rx_lines p) as [|raw rest].
    + eexists; eexists. split; [reflexivity|]. split; [reflexivity|]. right. split; [lia|reflexivity].
    + destruct (String.eqb raw EmptyString).
      * eexists; eexists. split; [reflexivity|]. split; [reflexivity|].
        right. split; [lia|reflexivity].
      * destruct (Text.startswith "OK" (Text.strip raw));
          [|destruct (Text.startswith "ERR" (Text.strip raw));
            [|destruct (Text.startswith "BUSY" (Text.strip raw))]];
          cbn [ret status_eqb negb throw];
          (eexists; eexists; split; [reflexivity|]; split; [reflexivity|];
           right; split; [lia|reflexivity]).
  - exists (Raise (ValueError "gain value must be 0..7")), p.
    split; [reflexivity|]. split; [reflexivity|]. left. eexists. split; reflexivity.
Qed.

Section Pass.
Variables (mv : vec4 Qc) (gains : vec4 Z).

Lemma autogain_channel_step (ch : nat) (p : port) :
  (ch < 4)%nat ->
  let d := decision_of min_mv max_mv mv gains ch in
  exists r p',
    autogain_channel self min_mv max_mv mv gains ch p = (r, p')
    /\ rx_snaps p' = rx_snaps p
    /\ ((exists c, r = Ok c /\ sent p' = rev d ++ sent p /\ Forall gain_cmd_in_range d
                   /\ c = negb (match d with [] => true | _ => false end))
        \/ (exists e, r = Raise e
                      /\ (sent p' = sent p
                          \/ (sent p' = rev d ++ sent p /\ Forall gain_cmd_in_range d)))).
Proof.
  intros Hch d. subst d. unfold decision_of, autogain_channel, adjustment.
  assert (Hhead : (1 <= Z.of_nat ch + 1 <= 4)%Z) by lia.
  destruct (PyNum.ltb (PyNum.abs (vget mv ch)) min_mv && (vget gains ch <? 7)%Z).
  - destruct (set_gain_step (vget gains ch + 1) p Hhead) as (r & p' & Hrun & Hsn & Hcase).
    unfold bind. rewrite Hrun.
    destruct Hcase as [(e & -> & Hsent) | (Hv & Hsent)].
    + eexists; eexists. split; [reflexivity|]. split; [exact Hsn|].
      right. exists e. split; [reflexivity|]. left. exact Hsent.
    + destruct r as [[]|e]; eexists; eexists; (split; [reflexivity|]); (split; [exact Hsn|]).
      * left. exists true. repeat split; try exact Hsent.
        constructor; [simpl; lia | constructor].
      * right. exists e. split; [reflexivity|]. right. split; [exact Hsent|].
        constructor; [simpl; lia | constructor].
  - destruct (PyNum.ltb max_mv (PyNum.abs (vget mv ch)) && (0 <? vget gains ch)%Z).
    + destruct (set_gain_step (vget gains ch - 1) p Hhead) as (r & p' & Hrun & Hsn & Hcase).
      unfold bind. rewrite Hrun.
      destruct Hcase as [(e & -> & Hsent) | (Hv & Hsent)].
      * eexists; eexists. split; [reflexivity|]. split; [exact Hsn|].
        right. exists e. split; [reflexivity|]. left. exact Hsent.
      * destruct r as [[]|e]; eexists; eexists; (split; [reflexivity|]); (split; [exact Hsn|]).
        -- left. exists true. repeat split; try exact Hsent.
           constructor; [simpl; lia | constructor].
        -- right. exists e. split; [reflexivity|]. right. split; [exact Hsent|].
           constructor; [simpl; lia | constructor].
    + exists (Ok false), p. split; [reflexivity|]. split; [reflexivity|].
      left. exists false. repeat split. constructor.
Qed.

Lemma pass_from_step (chs : list nat) :
  Forall (fun ch => (ch < 4)%nat) chs ->
  forall (changed : bool) (p : port),
  let ds := flat_map (decision_of min_mv max_mv mv gains) chs in
  exists r p' gs,
    pass_from self min_mv max_mv mv gains chs changed p = (r, p')
    /\ rx_snaps p' = rx_snaps p
    /\ sent p' = rev gs ++ sent p
    /\ Forall gain_cmd_in_range gs
    /\ (exists k, gs = firstn k ds)
    /\ (forall c, r = Ok c ->
                  gs = ds /\ c = changed || negb (match ds with [] => true | _ => false end)).
Proof.
  induction chs as [|ch chs IH]; intros Hall changed p ds.
  - exists (Ok changed), p, []. repeat split; try constructor.
    + exists 0%nat. reflexivity.
    + inversion H; subst. subst ds. simpl. rewrite orb_false_r. reflexivity.
  - inversion Hall as [|? ? Hch Hrest]; subst.
    cbn [pass_from]. subst ds. cbn [flat_map].
    set (d := decision_of min_mv max_mv mv gains ch).
    set (ds := flat_map (decision_of min_mv max_mv mv gains) chs).
    destruct (autogain_channel_step p Hch) as (r & p1 & Hrun & Hsn & Hcase).
    fold d in Hcase. unfold bind at 1. rewrite Hrun.
    destruct Hcase as [(c & -> & Hsent & Hrange & Hc) | (e & -> & Hsent)].
    + destruct (IH Hrest (changed || c) p1) as (r' & p' & gs & Hrun' & Hsn' & Hsent' & Hrange' & (k & Hk) & Hok).
      fold ds in Hk, Hok.
      exists r', p', (d ++ gs). split; [exact Hrun'|]. split; [congruence|].
      split; [rewrite Hsent', Hsent, rev_app_distr, app_assoc; reflexivity|].
      split; [apply Forall_app; split; assumption|].
      split.
      * exists (List.length d + k)%nat. rewrite firstn_app_2, Hk. reflexivity.
      * intros c' Hr. destruct (Hok c' Hr) as [Hgs Hc']. split; [rewrite Hgs; reflexivity|].
        rewrite Hc', Hc. destruct d; destruct ds; destruct changed; reflexivity.
    + destruct Hsent as [Hsent | [Hsent Hrange]].
      * exists (Raise e), p1, []. split; [reflexivity|]. split; [exact Hsn|].
        split; [exact Hsent|]. split; [constructor|]. split; [exists 0%nat; reflexivity|].
        intros c Hc. discriminate Hc.
      * exists (Raise e), p1, d. split; [reflexivity|]. split; [exact Hsn|].
        split; [exact Hsent|]. split; [exact Hrange|]. split.
        -- exists (List.length d). rewrite firstn_app, Nat.sub_diag, firstn_all, firstn_0, app_nil_r.
           reflexivity.
        -- intros c Hc. discriminate Hc.
Qed.

Lemma autogain_pass_step (p : port) :
  let ds := decisions min_mv max_mv mv gains in
  exists r p' gs,
    autogain_pass self min_mv max_mv mv gains p = (r, p')
    /\ rx_snaps p' = rx_snaps p
    /\ sent p' = rev gs ++ sent p
    /\ Forall gain_cmd_in_range gs
    /\ (exists k, gs = firstn k ds)
    /\ (r = Ok true -> gs = ds /\ ds <> [])
    /\ (r = Ok false -> gs = [] /\ ds = []).
Proof.
  intro ds.
  assert (Heq : autogain_pass self min_mv max_mv mv gains p
                = pass_from self min_mv max_mv mv gains [0; 1; 2; 3]%nat false p).
  { unfold autogain_pass, pass_from, bind.
    destruct (autogain_channel self min_mv max_mv mv gains 0 p) as [[c0|e0] p0]; [|reflexivity].
    destruct (autogain_channel self min_mv max_mv mv gains 1 p0) as [[c1|e1] p1]; [|reflexivity].
    destruct (autogain_channel self min_mv max_mv mv gains 2 p1) as [[c2|e2] p2]; [|reflexivity].
    destruct (autogain_channel self min_mv max_mv mv gains 3 p2) as [[c3|e3] p3]; reflexivity. }
  assert (Hall : Forall (fun ch => (ch < 4)%nat) [0; 1; 2; 3]%nat)
    by (repeat constructor; lia).
  destruct (pass_from_step Hall false p) as (r & p' & gs & Hrun & Hsn & Hsent & Hrange & Hk & Hok).
  change (flat_map (decision_of min_mv max_mv mv gains) [0; 1; 2; 3]%nat) with ds in Hk, Hok.
  exists r, p', gs. rewrite Heq. repeat split; try assumption.
  - destruct (Hok true H) as [Hgs _]. exact Hgs.
  - destruct (Hok true H) as [_ Hc]. intro E. rewrite E in Hc. discriminate Hc.
  - destruct (Hok false H) as [Hgs Hc]. destruct ds; [exact Hgs | discriminate Hc].
  - destruct (Hok false H) as [_ Hc]. destruct ds; [reflexivity | discriminate Hc].
Qed.

Lemma decisions_are_gains : Forall (fun e => is_snap e = false) (decisions min_mv max_mv mv gains).
Proof.
  unfold decisions. apply Forall_flat_map. repeat constructor;
    destruct (adjustment _ _ _ _); repeat constructor.
Qed.

End Pass.

Lemma snapshot_mV_step (n_frames : Z) (p : port) :
  match rx_snaps p with
  | Ok (codes, gains) :: rest =>
      snapshot_mV self n_frames None p
      = (Ok (vmap snapshot_scale (vmap2 Z.sub codes (linear_zero_adc self)), gains),
         mkPort (rx_lines p) (rx_blocks p) rest (Sent (SNAP n_frames) :: sent p))
  | _ => exists e p', snapshot_mV self n_frames None p = (Raise e, p')
                      /\ sent p' = Sent (SNAP n_frames) :: sent p
  end.
Proof.
  unfold snapshot_mV, bind, snapshot_adc, _apply_linear_zero_ch. rewrite Hlinear.
  cbn [frontend_eqb negb sent].
  destruct (rx_snaps p) as [|[[codes gains]|e] rest].
  - eexists; eexists. split; reflexivity.
  - reflexivity.
  - eexists; eexists. split; reflexivity.
Qed.

(** Every run of the loop leaves a trace of the shape [loop_trace]. *)
Lemma autogain_loop_trace (n_frames : Z) :
  forall iters p,
  exists r p' tr,
    autogain_loop self n_frames min_mv max_mv iters p = (r, p')
    /\ sent p' = rev tr ++ sent p
    /\ loop_trace self n_frames min_mv max_mv iters (rx_snaps p) tr.
Proof.
  induction iters as [|iters IH]; intro p.
  - exists (Ok tt), p, []. repeat split. constructor.
  - cbn [autogain_loop]. unfold bind at 1.
    pose proof (snapshot_mV_step n_frames p) as Hsnap.
    destruct (rx_snaps p) as [|[[codes gains]|e] rest] eqn:Hrx.
    + destruct Hsnap as (e & p1 & Hrun & Hsent). rewrite Hrun.
      exists (Raise e), p1, [Sent (SNAP n_frames)]. split; [reflexivity|].
      split; [exact Hsent|]. apply LT_snapshot_failed. exact I.
    + rewrite Hsnap.
      set (mv := vmap snapshot_scale (vmap2 Z.sub codes (linear_zero_adc self))).
      set (p1 := mkPort (rx_lines p) (rx_blocks p) rest (Sent (SNAP n_frames) :: sent p)).
      destruct (autogain_pass_step mv gains p1)
        as (r & p2 & gs & Hrun & Hsn & Hsent & Hrange & (k & Hk) & Htrue & Hfalse).
      unfold bind at 1. rewrite Hrun.
      destruct r as [[|]|e].
      * destruct (Htrue eq_refl) as [Hgs Hne]. cbn [negb].
        destruct (IH p2) as (r' & p' & tr & Hrun' & Hsent' & Htr).
        exists r', p', (Sent (SNAP n_frames) :: decisions min_mv max_mv mv gains ++ tr).
        split; [exact Hrun'|]. split.
        -- rewrite Hsent', Hsent, Hgs. cbn [rev sent p1].
           rewrite !rev_app_distr. cbn [rev]. rewrite <- !app_assoc. reflexivity.
        -- rewrite Hgs in Hrange. apply LT_more; [exact Hne | exact Hrange |].
           rewrite Hsn in Htr. exact Htr.
      * cbn [negb]. exists (Ok tt), p2, (Sent (SNAP n_frames) :: gs).
        split; [reflexivity|]. split.
        -- rewrite Hsent. cbn [rev sent p1]. rewrite <- app_assoc. reflexivity.
        -- rewrite Hk in Hrange |- *. apply LT_last. exact Hrange.
      * exists (Raise e), p2, (Sent (SNAP n_frames) :: gs).
        split; [reflexivity|]. split.
        -- rewrite Hsent. cbn [rev sent p1]. rewrite <- app_assoc. reflexivity.
        -- rewrite Hk in Hrange |- *. apply LT_last. exact Hrange.
    + destruct Hsnap as (e' & p1 & Hrun & Hsent). rewrite Hrun.
      exists (Raise e'), p1, [Sent (SNAP n_frames)]. split; [reflexivity|].
      split; [exact Hsent|]. apply LT_snapshot_failed. exact I.
Qed.

Lemma firstn_Forall {A} (P : A -> Prop) (k : nat) (l : list A) :
  Forall P l -> Forall P (firstn k l).
Proof.
  revert k. induction l as [|a l IH]; intros [|k] H; simpl; try constructor.
  - inversion H; assumption.
  - apply IH. inversion H; assumption.
Qed.

Lemma no_two_snaps_gains (gs tr : list event) :
  Forall (fun e => is_snap e = false) gs -> no_two_snaps tr = true ->
  no_two_snaps (gs ++ tr) = true.
Proof.
  induction gs as [|g gs IH]; intros Hg Htr; [exact Htr|].
  inversion Hg as [|? ? Hg1 Hg2]; subst. specialize (IH Hg2 Htr).
  cbn [app no_two_snaps]. destruct (gs ++ tr); [reflexivity|].
  rewrite Hg1, IH. reflexivity.
Qed.

Lemma no_two_snaps_after_snap (n_frames : Z) (l : list event) :
  no_two_snaps l = true ->
  match l with [] => True | e :: _ => is_snap e = false end ->
  no_two_snaps (Sent (SNAP n_frames) :: l) = true.
Proof.
  intros Hl Hhd. cbn [no_two_snaps]. destruct l as [|e l]; [reflexivity|].
  rewrite Hhd, Hl. rewrite andb_false_r. reflexivity.
Qed.

(** What the shape gives: the bounds of the claim. *)
Lemma loop_trace_bounds (n_frames : Z) iters snaps tr :
  loop_trace self n_frames min_mv max_mv iters snaps tr ->
  (List.length (filter is_snap tr) <= iters)%nat
  /\ Forall gain_cmd_in_range tr
  /\ no_two_snaps tr = true.
Proof.
  induction 1 as [snaps | n snaps Hfail | n codes gains snaps k mv Hrange
                  | n codes gains snaps tr mv Hne Hrange Htr IH].
  - repeat split; [simpl; lia | constructor].
  - repeat split; [simpl; lia | repeat constructor].
  - pose proof (firstn_Forall k (decisions_are_gains mv gains)) as Hg.
    split; [|split].
    + cbn [filter is_snap List.length].
      replace (filter is_snap (firstn k (decisions min_mv max_mv mv gains))) with (@nil event);
        [simpl; lia|].
      symmetry. clear -Hg. induction Hg as [|e l He _ IHl]; [reflexivity|].
      cbn [filter]. rewrite He. exact IHl.
    + constructor; [exact I | exact Hrange].
    + apply no_two_snaps_after_snap.
      * rewrite <- (app_nil_r (firstn k _)). apply no_two_snaps_gains; [exact Hg | reflexivity].
      * destruct Hg; [exact I | assumption].
  - destruct IH as (Hcount & Hall & Hadj).
    pose proof (decisions_are_gains mv gains) as Hg.
    split; [|split].
    + cbn [filter is_snap List.length]. rewrite filter_app.
      replace (filter is_snap (decisions min_mv max_mv mv gains)) with (@nil event);
        [simpl; lia|].
      symmetry. clear -Hg. induction Hg as [|e l He _ IHl]; [reflexivity|].
      cbn [filter]. rewrite He. exact IHl.
    + constructor; [exact I|]. apply Forall_app. split; assumption.
    + apply no_two_snaps_after_snap.
      * apply no_two_snaps_gains; assumption.
      * destruct Hg as [|e l He _]; [congruence | exact He].
Qed.

(** C4.  On a LINEAR session, whatever the device reports and answers, the
    autogain loop of [snapshot_W] takes at most [max_iters] snapshots; an
    iteration is followed by another one only after a pass that sent gain
    commands, so the loop ends with the first iteration that adjusts
    nothing; every gain command it sends is for a head in 1..4 with a value
    in 0..7; and a channel's decision is the gain plus one only when the
    reading is below the low threshold and the gain below 7, the gain minus
    one only when the reading is above the high threshold and the gain
    above 0, which stays within 0..7 when the gain was. *)
Theorem C4_autogain_loop (n_frames max_iters : Z) (p : port) :
  (exists r p' tr,
      autogain_loop self n_frames min_mv max_mv (Z.to_nat max_iters) p = (r, p')
      /\ sent p' = rev tr ++ sent p
      /\ loop_trace self n_frames min_mv max_mv (Z.to_nat max_iters) (rx_snaps p) tr
      /\ (List.length (filter is_snap tr) <= Z.to_nat max_iters)%nat
      /\ Forall gain_cmd_in_range tr
      /\ no_two_snaps tr = true)
  /\ (forall reading g v,
         adjustment min_mv max_mv reading g = Some v ->
         ((PyNum.abs reading < min_mv /\ (g < 7)%Z /\ v = (g + 1)%Z)
          \/ (max_mv < PyNum.abs reading /\ (0 < g)%Z /\ v = (g - 1)%Z))
         /\ ((0 <= g <= 7)%Z -> (0 <= v <= 7)%Z)).
Proof.
  split.
  - destruct (autogain_loop_trace n_frames (Z.to_nat max_iters) p)
      as (r & p' & tr & Hrun & Hsent & Htr).
    destruct (loop_trace_bounds Htr) as (Hcount & Hrange & Hadj).
    exists r, p', tr. repeat split; assumption.
  - intros reading g v. apply adjustment_spec.
Qed.

End Autogain.

Lemma C4_autogain_loop_witness :
  frontend_type linear_session = LINEAR
  /\ trace (snd (autogain_loop linear_session 1 (PyNum.qc 100 1) (PyNum.qc 4700 1) 10
                               port_autogain))
     = [Sent (SNAP 1); Sent (GAIN 1 4); Sent (SNAP 1)]
  /\ exists r p' tr,
      autogain_loop linear_session 1 (PyNum.qc 100 1) (PyNum.qc 4700 1) (Z.to_nat 10)
                    port_autogain = (r, p')
      /\ sent p' = rev tr ++ sent port_autogain
      /\ loop_trace linear_session 1 (PyNum.qc 100 1) (PyNum.qc 4700 1) (Z.to_nat 10)
                    (rx_snaps port_autogain) tr
      /\ (List.length (filter is_snap tr) <= Z.to_nat 10)%nat
      /\ Forall gain_cmd_in_range tr
      /\ no_two_snaps tr = true.
Proof.
  split; [reflexivity|]. split; [vm_compute; reflexivity|].
  exact (proj1 (@C4_autogain_loop linear_session eq_refl (PyNum.qc 100 1) (PyNum.qc 4700 1)
                  1 10 port_autogain)).
Defined.

(* ------------------------------------------------------------------ *)
(** ** The zero-offset manager *)

Lemma vec4_Z_eqb_eq (a b : vec4 Z) : vec4_Z_eqb a b = true <-> a = b.
Proof.
  destruct a, b; unfold vec4_Z_eqb; simpl.
  rewrite !andb_true_iff, !Z.eqb_eq. split.
  - intros [[[-> ->] ->] ->]. reflexivity.
  - intros H; inversion H; auto.
Qed.

Lemma round_nd_zero_3 : PyNum.round_nd 0 3 = 0%Qc.
Proof. apply Qc_is_canon. vm_compute. reflexivity. Qed.

Lemma zero_code_mV : PyNum.round_nd (PyNum.of_int 0 * lsb_mV)%Qc 3 = 0%Qc.
Proof. apply Qc_is_canon. vm_compute. reflexivity. Qed.

Lemma zero_code_volts : (PyNum.of_int 0 * ADC_LSB_VOLTS = 0)%Qc.
Proof. apply Qc_is_canon. vm_compute. reflexivity. Qed.

Section ZeroOffsets.
Variable parse_factory_zeros : string -> result (vec4 Z).

(** X1.  The soft zero is what the getter returns: on a LINEAR session
    [get_linear_zero_adc] after [set_soft_zero_adc z1 z2 z3 z4] returns
    (z1, z2, z3, z4) and the factory zeros are untouched; on a LOG session
    the call changes nothing and the getter returns (0, 0, 0, 0). *)
Theorem soft_zero_set_then_get (self : CoreDAQ) (z1 z2 z3 z4 : Z) :
  let self' := set_soft_zero_adc self z1 z2 z3 z4 in
  get_linear_zero_adc self'
  = match frontend_type self with LINEAR => V4 z1 z2 z3 z4 | LOG => zero4 end
  /\ get_factory_zero_adc self' = get_factory_zero_adc self
  /\ factory_zero_adc self' = factory_zero_adc self
  /\ frontend_type self' = frontend_type self
  /\ (frontend_type self = LOG -> self' = self).
Proof.
  destruct self as [fe cs ci th fz lz a b c d db].
  destruct fe; cbn; repeat split; auto; discriminate.
Qed.

Lemma load_factory_zeros_run (self : CoreDAQ) (p : port) r p' :
  frontend_type self = LINEAR ->
  _load_factory_zeros parse_factory_zeros self p = (r, p') ->
  sent p' = Sent FACTORY_ZEROS_q :: sent p
  /\ forall s z, r = Ok (s, z) -> s = with_zeros self z z.
Proof.
  intros Hfe. unfold _load_factory_zeros, _require_frontend. rewrite Hfe.
  cbn [frontend_eqb negb].
  unfold bind, lift, _ask, _writeln, emit, _readline, bind. cbn.
  destruct (rx_lines p) as [|raw rest]; cbn.
  - intros H; inversion H; subst; cbn. split; [reflexivity | discriminate].
  - destruct (String.eqb raw EmptyString); cbn.
    + intros H; inversion H; subst; cbn. split; [reflexivity | discriminate].
    + repeat match goal with
             | |- context [if ?c then _ else _] => destruct c; cbn
             end;
      unfold ret, throw; cbn;
      try (intros H; inversion H; subst; cbn; split; [reflexivity | discriminate]);
      destruct (parse_factory_zeros _); cbn; unfold ret;
      intros H; inversion H; subst; cbn; (split; [reflexivity|]);
      intros s z0 Hz; inversion Hz; subst; reflexivity.
Qed.

(** X2.  [restore_factory_zero] never raises.  On a LINEAR session it
    leaves the active zeros equal to the factory zeros, whatever the device
    answers; when factory zeros other than (0, 0, 0, 0) are loaded it does so
    without any traffic on the port, and otherwise it queries the device
    once. *)
Theorem restore_factory_zero_never_raises (self : CoreDAQ) (p : port) :
  exists self' p',
    restore_factory_zero parse_factory_zeros self p = (Ok self', p')
    /\ frontend_type self' = frontend_type self
    /\ (frontend_type self = LINEAR -> linear_zero_adc self' = factory_zero_adc self')
    /\ (factory_zero_adc self <> zero4 ->
        p' = p /\ factory_zero_adc self' = factory_zero_adc self)
    /\ (frontend_type self = LINEAR -> factory_zero_adc self = zero4 ->
        sent p' = Sent FACTORY_ZEROS_q :: sent p).
Proof.
  unfold restore_factory_zero.
  destruct (frontend_type self) eqn:Hfe; cbn [frontend_eqb negb].
  - destruct (vec4_Z_eqb (factory_zero_adc self) zero4) eqn:E.
    + apply vec4_Z_eqb_eq in E.
      destruct (_load_factory_zeros parse_factory_zeros self p) as [r p1] eqn:L.
      destruct (@load_factory_zeros_run _ _ _ _ Hfe L) as [Hs Hr].
      destruct r as [[s z]|e].
      * exists s, p1. rewrite (Hr s z eq_refl).
        destruct self; cbn in *. repeat split; auto; exfalso; congruence.
      * exists (with_zeros self (factory_zero_adc self) (factory_zero_adc self)), p1.
        destruct self; cbn in *. repeat split; auto; exfalso; congruence.
    + exists (with_zeros self (factory_zero_adc self) (factory_zero_adc self)), p.
      destruct self; cbn in *. repeat split; auto.
      intros _ H. subst. cbn in E. discriminate.
  - exists self, p. repeat split; auto; discriminate.
Qed.

(** X3.  Zeroing on a snapshot zeroes the next identical reading: after
    [soft_zero_from_snapshot] on a LINEAR session, a snapshot that reports
    the same ADC codes reads exactly 0 mV and 0 V on the four channels, the
    factory zeros being kept. *)
Theorem soft_zero_then_same_codes_read_zero (self : CoreDAQ) (n_frames : Z) (p : port)
        (codes gains gains' : vec4 Z) (rest : list (result (vec4 Z * vec4 Z))) :
  frontend_type self = LINEAR -> (0 < n_frames)%Z ->
  rx_snaps p = Ok (codes, gains) :: Ok (codes, gains') :: rest ->
  exists self' p1,
    soft_zero_from_snapshot self n_frames p = (Ok (self', (codes, gains)), p1)
    /\ get_linear_zero_adc self' = codes
    /\ factory_zero_adc self' = factory_zero_adc self
    /\ forall n u, exists p2,
        snapshot_mV self' n u p1 = (Ok (V4 0 0 0 0, gains'), p2)%Qc
        /\ snapshot_volts self' n u p1 = (Ok (V4 0 0 0 0, gains'), p2)%Qc.
Proof.
  intros Hfe Hn Hsn.
  assert (Hle : (n_frames <=? 0)%Z = false) by (apply Z.leb_gt; exact Hn).
  unfold soft_zero_from_snapshot, _require_frontend. rewrite Hfe.
  cbn [frontend_eqb negb]. unfold bind at 1. unfold lift. rewrite Hle.
  unfold bind. rewrite (snapshot_adc_next _ _ Hsn). unfold ret.
  eexists _, _. split; [reflexivity|].
  split; [unfold get_linear_zero_adc; destruct self; cbn in *; subst; reflexivity|].
  split; [destruct self; reflexivity|].
  intros n u. eexists.
  unfold snapshot_mV, snapshot_volts, bind.
  rewrite (@snapshot_adc_next n (mkPort (rx_lines p) (rx_blocks p) (Ok (codes, gains') :: rest)
                                        (Sent (SNAP n_frames) :: sent p))
                              codes gains' rest eq_refl).
  unfold _apply_linear_zero_ch, ret.
  replace (frontend_type (with_zeros self (factory_zero_adc self) codes)) with LINEAR
    by (destruct self; cbn in *; congruence).
  replace (linear_zero_adc (with_zeros self (factory_zero_adc self) codes)) with codes
    by (destruct self; reflexivity).
  cbn [frontend_eqb negb].
  destruct codes as [c1 c2 c3 c4]. unfold vmap, vmap2. simpl ch1; simpl ch2; simpl ch3; simpl ch4.
  rewrite !Z.sub_diag, !zero_code_mV, !zero_code_volts.
  split; reflexivity.
Qed.
End ZeroOffsets.

Lemma soft_zero_then_same_codes_read_zero_witness :
  exists self' p1,
    soft_zero_from_snapshot linear_session 32
      (mkPort [] [] [Ok (V4 840 835 834 839, V4 0 0 0 0); Ok (V4 840 835 834 839, V4 1 0 0 0)]%Z [])
    = (Ok (self', (V4 840 835 834 839, V4 0 0 0 0)%Z), p1)
    /\ get_linear_zero_adc self' = (V4 840 835 834 839)%Z.
Proof.
  destruct (@soft_zero_then_same_codes_read_zero linear_session 32
              (mkPort [] [] [Ok (V4 840 835 834 839, V4 0 0 0 0);
                             Ok (V4 840 835 834 839, V4 1 0 0 0)]%Z [])
              (V4 840 835 834 839)%Z (V4 0 0 0 0)%Z (V4 1 0 0 0)%Z [])
    as (s & p1 & H1 & H2 & _); [reflexivity | lia | reflexivity |].
  exists s, p1. split; assumption.
Defined.

(* ------------------------------------------------------------------ *)
(** ** What the two frontends ignore *)

Section Independence.
Variable pow10 : Qc -> Qc.
Variable log10 : Qc -> option Qc.
Variable parse_gains : string -> option (vec4 Z).

(** The autogain loop reads the session's frontend type and active zeros
    only. *)
Lemma autogain_loop_ext (s s' : CoreDAQ) (n_frames : Z) (min_mv max_mv : Qc) :
  frontend_type s' = frontend_type s -> linear_zero_adc s' = linear_zero_adc s ->
  forall iters p,
    autogain_loop s' n_frames min_mv max_mv iters p
    = autogain_loop s n_frames min_mv max_mv iters p.
Proof.
  intros Hfe Hz. induction iters as [|k IH]; intros p; [reflexivity|].
  cbn [autogain_loop]. unfold bind.
  assert (Hsnap : snapshot_mV s' n_frames None p = snapshot_mV s n_frames None p).
  { unfold snapshot_mV, _apply_linear_zero_ch. rewrite Hfe, Hz. reflexivity. }
  rewrite Hsnap. destruct (snapshot_mV s n_frames None p) as [[[mv gains]|e] p1]; [|reflexivity].
  assert (Hpass : forall q, autogain_pass s' min_mv max_mv mv gains q
                            = autogain_pass s min_mv max_mv mv gains q).
  { intros q. unfold autogain_pass, autogain_channel, set_gain, _require_frontend.
    rewrite Hfe. reflexivity. }
  rewrite Hpass. destruct (autogain_pass s min_mv max_mv mv gains p1) as [[c|e] p2]; [|reflexivity].
  destruct c; cbn [negb]; [apply IH | reflexivity].
Qed.

(** X4.  Zeroing never affects a LOG session: whatever the factory and
    active zero fields hold, the six snapshot and transfer conversions
    return what they return with the fields as they are, and the getter
    reports (0, 0, 0, 0). *)
Theorem log_ignores_zero_offsets (self : CoreDAQ) (fz az : vec4 Z) :
  frontend_type self = LOG ->
  let self' := with_zeros self fz az in
  (forall n u p, snapshot_volts self' n u p = snapshot_volts self n u p)
  /\ (forall n u p, snapshot_mV self' n u p = snapshot_mV self n u p)
  /\ (forall n u ag mn mx it dbg db p,
         snapshot_W pow10 log10 self' n u ag mn mx it dbg db p
         = snapshot_W pow10 log10 self n u ag mn mx it dbg db p)
  /\ (forall frames u db p,
         transfer_frames_mV self' frames u db p = transfer_frames_mV self frames u db p)
  /\ (forall frames u p,
         transfer_frames_volts self' frames u p = transfer_frames_volts self frames u p)
  /\ (forall frames u db p,
         transfer_frames_W pow10 log10 parse_gains self' frames u db p
         = transfer_frames_W pow10 log10 parse_gains self frames u db p)
  /\ get_linear_zero_adc self' = zero4 /\ get_factory_zero_adc self' = zero4.
Proof.
  intros Hfe. destruct self as [fe cs ci th fz0 lz a b c d db0]. cbn in Hfe. subst fe.
  cbn zeta. unfold with_zeros. simpl.
  repeat split; intros; reflexivity.
Qed.

(** X5.  The LOG deadband has no effect on a LINEAR session: whatever the
    configured threshold and whatever the per-call override, the power and
    millivolt conversions of snapshots and transfers return the same results
    and exchange the same traffic. *)
Theorem linear_ignores_deadband (self : CoreDAQ) (d : Qc) (db1 db2 : option Qc) :
  frontend_type self = LINEAR ->
  let self' := with_deadband self d in
  (forall n u ag mn mx it dbg p,
      snapshot_W pow10 log10 self' n u ag mn mx it dbg db1 p
      = snapshot_W pow10 log10 self n u ag mn mx it dbg db2 p)
  /\ (forall n u p, snapshot_mV self' n u p = snapshot_mV self n u p)
  /\ (forall n u p, snapshot_volts self' n u p = snapshot_volts self n u p)
  /\ (forall frames u p,
         transfer_frames_mV self' frames u db1 p = transfer_frames_mV self frames u db2 p)
  /\ (forall frames u p,
         transfer_frames_volts self' frames u p = transfer_frames_volts self frames u p)
  /\ (forall frames u p,
         transfer_frames_W pow10 log10 parse_gains self' frames u db1 p
         = transfer_frames_W pow10 log10 parse_gains self frames u db2 p).
Proof.
  intros Hfe. destruct self as [fe cs ci th fz0 lz a b c d0 db0]. cbn in Hfe. subst fe.
  cbn zeta. unfold with_deadband. simpl.
  repeat split; intros; try reflexivity.
  unfold snapshot_W. cbn [frontend_type]. unfold bind.
  destruct ag.
  - rewrite (@autogain_loop_ext (mkCoreDAQ LINEAR cs ci th fz0 lz a b c d0 db0)
               (mkCoreDAQ LINEAR cs ci th fz0 lz a b c d0 d) n mn mx eq_refl eq_refl).
    reflexivity.
  - reflexivity.
Qed.
End Independence.

Lemma log_ignores_zero_offsets_witness :
  get_linear_zero_adc (with_zeros scenario_lut (V4 836 835 834 839) (V4 1 2 3 4))%Z = zero4.
Proof.
  apply (@log_ignores_zero_offsets exponent_of log10_digits (fun _ => None) scenario_lut
           (V4 836 835 834 839)%Z (V4 1 2 3 4)%Z eq_refl).
Defined.

Lemma linear_ignores_deadband_witness :
  snapshot_mV (with_deadband linear_session (PyNum.qc 50 1)) 1 None port_linear_snapshot
  = snapshot_mV linear_session 1 None port_linear_snapshot.
Proof.
  destruct (@linear_ignores_deadband exponent_of log10_digits (fun _ => None) linear_session
              (PyNum.qc 50 1) None (Some (PyNum.qc 7 1)) eq_refl) as (_ & H & _).
  apply H.
Defined.

(* ------------------------------------------------------------------ *)
(** ** Frequency and oversampling *)

(** [_ask] writes its command, whatever comes back. *)
Lemma _ask_sent (c : command) (p : port) r p' :
  _ask c p = (r, p') -> sent p' = Sent c :: sent p.
Proof.
  unfold _ask, bind, _writeln, emit, _readline. cbn.
  destruct (rx_lines p) as [|raw rest]; cbn.
  - intros H; inversion H; reflexivity.
  - destruct (String.eqb raw EmptyString); cbn.
    + intros H; inversion H; reflexivity.
    + repeat match goal with
             | |- context [if ?c then _ else _] => destruct c; cbn
             end; unfold ret; intros H; inversion H; reflexivity.
Qed.

Lemma trace_snoc (p p' : port) (e : event) :
  sent p' = e :: sent p -> trace p' = trace p ++ [e].
Proof. unfold trace. intros ->. reflexivity. Qed.

Lemma max_freq_table i :
  _max_freq_for_os i
  = if negb ((0 <=? i) && (i <=? 7)) then Raise (ValueError "os_idx must be 0..7")
    else Ok (if i <=? 1 then 100000 else 100000 / 2 ^ (i - 1)).
Proof. unfold _max_freq_for_os. destruct (negb _); [reflexivity|]. destruct (i <=? 1); reflexivity. Qed.

Lemma max_freq_values i cap :
  _max_freq_for_os i = Ok cap ->
  (i = 0 /\ cap = 100000) \/ (i = 1 /\ cap = 100000) \/ (i = 2 /\ cap = 50000) \/
  (i = 3 /\ cap = 25000) \/ (i = 4 /\ cap = 12500) \/ (i = 5 /\ cap = 6250) \/
  (i = 6 /\ cap = 3125) \/ (i = 7 /\ cap = 1562).
Proof.
  intros Hi. pose proof (max_freq_range _ Hi) as Hr.
  assert (Hc : i = 0 \/ i = 1 \/ i = 2 \/ i = 3 \/ i = 4 \/ i = 5 \/ i = 6 \/ i = 7) by lia.
  repeat (destruct Hc as [-> | Hc]; [vm_compute in Hi; inversion Hi; tauto|]).
  subst. vm_compute in Hi; inversion Hi; tauto.
Qed.

Lemma best_os_band hz :
  1 <= hz <= 100000 -> _best_os_for_freq hz = Ok (os_band hz).
Proof.
  intros Hhz. unfold _best_os_for_freq, os_band.
  destruct (hz <=? 0) eqn:E0; [apply Z.leb_le in E0; lia|].
  destruct (100000 <? hz) eqn:E1; [apply Z.ltb_lt in E1; lia|].
  cbn [best_os_scan].
  repeat match goal with
         | |- context [_max_freq_for_os ?n] =>
             let c := eval vm_compute in (_max_freq_for_os n) in
             change (_max_freq_for_os n) with c; cbn [rbind]
         end.
  repeat match goal with
         | |- context [hz <=? ?c] => destruct (Z.leb_spec hz c)
         end; try lia; reflexivity.
Qed.

Lemma best_os_table (h : Z) :
  _best_os_for_freq h
  = (if h <=? 0 then Raise (ValueError "hz must be > 0")
     else if 100000 <? h then Raise (ValueError "hz must be <= 100000")
     else Ok (os_band h)).
Proof.
  destruct (h <=? 0) eqn:E0; [unfold _best_os_for_freq; rewrite E0; reflexivity|].
  destruct (100000 <? h) eqn:E1; [unfold _best_os_for_freq; rewrite E0, E1; reflexivity|].
  apply Z.leb_gt in E0. apply Z.ltb_ge in E1. apply best_os_band. lia.
Qed.

Lemma best_os_ok (h b : Z) :
  _best_os_for_freq h = Ok b -> 1 <= h <= 100000 /\ b = os_band h.
Proof.
  rewrite best_os_table.
  destruct (h <=? 0) eqn:E0; [discriminate|].
  destruct (100000 <? h) eqn:E1; [discriminate|].
  apply Z.leb_gt in E0. apply Z.ltb_ge in E1. intros H; inversion H. lia.
Qed.

(** X6.  [_best_os_for_freq] in closed form: ValueError outside
    1..100000 Hz, otherwise the index of the frequency band (7 up to 1562 Hz,
    6 up to 3125, 5 up to 6250, 4 up to 12500, 3 up to 25000, 2 up to 50000,
    1 above).  So index 0 is never chosen, the chosen cap admits the
    frequency, and a higher frequency never gets a higher index. *)
Theorem best_os_for_freq_closed_form (hz : Z) :
  _best_os_for_freq hz
  = (if hz <=? 0 then Raise (ValueError "hz must be > 0")
     else if 100000 <? hz then Raise (ValueError "hz must be <= 100000")
     else Ok (os_band hz))
  /\ (forall best, _best_os_for_freq hz = Ok best ->
        1 <= best <= 7
        /\ _max_freq_for_os best = Ok (100000 / 2 ^ (best - 1))
        /\ hz <= 100000 / 2 ^ (best - 1))
  /\ (forall hz' best best',
        hz <= hz' -> _best_os_for_freq hz = Ok best -> _best_os_for_freq hz' = Ok best' ->
        best' <= best).
Proof.
  pose proof best_os_table as Hcf. pose proof best_os_ok as Hok.
  split; [apply Hcf|]. split.
  - intros best Hb. destruct (Hok _ _ Hb) as [Hr ->]. unfold os_band.
    repeat match goal with
           | |- context [hz <=? ?c] => destruct (Z.leb_spec hz c)
           end; (split; [lia|]; split; [reflexivity | vm_compute (100000 / _); lia]).
  - intros hz' best best' Hle Hb Hb'.
    destruct (Hok _ _ Hb) as [Hr ->]. destruct (Hok _ _ Hb') as [Hr' ->]. unfold os_band.
    repeat match goal with
           | |- context [?h <=? ?c] => destruct (Z.leb_spec h c)
           end; lia.
Qed.

Section FrequencySetting.
Variable parse_int : string -> option Z.

Lemma get_oversampling_sent (p : port) r p' :
  get_oversampling parse_int p = (r, p') -> sent p' = Sent OS_q :: sent p.
Proof.
  unfold get_oversampling, bind.
  destruct (_ask OS_q p) as [[[st pl]|e] p1] eqn:E; pose proof (_ask_sent _ _ E) as Hs.
  - destruct (negb (status_eqb st ST_OK)); unfold throw, lift; intros H; inversion H; subst; exact Hs.
  - intros H; inversion H; subst; exact Hs.
Qed.

Lemma get_freq_hz_sent (p : port) r p' :
  get_freq_hz parse_int p = (r, p') -> sent p' = Sent FREQ_q :: sent p.
Proof.
  unfold get_freq_hz, bind.
  destruct (_ask FREQ_q p) as [[[st pl]|e] p1] eqn:E; pose proof (_ask_sent _ _ E) as Hs.
  - destruct (negb (status_eqb st ST_OK)); unfold throw, lift; intros H; inversion H; subst; exact Hs.
  - intros H; inversion H; subst; exact Hs.
Qed.

(** X7.  What a successful [set_freq] has done.  The frequency is in
    1..100000 Hz; [FREQ hz] went out first, then the oversampling index was
    read back; if its cap admits the frequency nothing else was sent,
    otherwise exactly one [OS] command followed, for the highest index whose
    cap admits the frequency, and one warning.  Either way the index in
    force afterwards has a cap of at least [hz]. *)
Theorem set_freq_success (hz : Z) (p p' : port) :
  set_freq parse_int hz p = (Ok tt, p') ->
  1 <= hz <= 100000
  /\ exists p1 p2 cur_os cap,
      sent p1 = Sent (FREQ hz) :: sent p
      /\ get_oversampling parse_int p1 = (Ok cur_os, p2)
      /\ _max_freq_for_os cur_os = Ok cap
      /\ ((hz <= cap /\ trace p' = trace p ++ [Sent (FREQ hz); Sent OS_q])
          \/ (cap < hz
              /\ highest_compatible_os hz (os_band hz)
              /\ trace p' = trace p ++ [Sent (FREQ hz); Sent OS_q; Sent (OS (os_band hz));
                                        Warned (OsAutoAdjusted cur_os hz (os_band hz))])).
Proof.
  unfold set_freq.
  destruct ((hz <=? 0) || (100000 <? hz)) eqn:Er; [discriminate|].
  apply orb_false_iff in Er. destruct Er as [E0 E1].
  apply Z.leb_gt in E0. apply Z.ltb_ge in E1.
  assert (Hr : 1 <= hz <= 100000) by lia.
  unfold bind at 1.
  destruct (_ask (FREQ hz) p) as [[[st pl]|e] p1] eqn:A1; [|discriminate].
  pose proof (_ask_sent _ _ A1) as S1.
  destruct (negb (status_eqb st ST_OK)); [discriminate|].
  unfold bind at 1.
  destruct (get_oversampling parse_int p1) as [[cur|e] p2] eqn:G; [|discriminate].
  pose proof (get_oversampling_sent _ G) as S2.
  unfold bind at 1, lift at 1.
  destruct (_max_freq_for_os cur) as [cap|e] eqn:C; [|discriminate].
  intros H. split; [exact Hr|]. exists p1, p2, cur, cap.
  split; [exact S1|]. split; [exact G|]. split; [exact C|].
  destruct (cap <? hz) eqn:Ec.
  - apply Z.ltb_lt in Ec. right. split; [exact Ec|].
    destruct (best_os_spec Hr) as (best & Hbest & Hspec).
    rewrite (best_os_band Hr) in Hbest. inversion Hbest; subst best.
    split; [exact Hspec|].
    revert H. unfold bind at 1, lift at 1. rewrite (best_os_band Hr).
    unfold bind at 1.
    destruct (_ask (OS (os_band hz)) p2) as [[[st3 pl3]|e] p3] eqn:A3; [|discriminate].
    pose proof (_ask_sent _ _ A3) as S3.
    destruct (negb (status_eqb st3 ST_OK)); [discriminate|].
    unfold emit. intros H; inversion H; subst p'. unfold trace. cbn [sent].
    rewrite S3, S2, S1. cbn [rev]. rewrite <- !app_assoc. reflexivity.
  - apply Z.ltb_ge in Ec. left. split; [exact Ec|].
    inversion H; subst p'. unfold trace. rewrite S2, S1. cbn [rev].
    rewrite <- !app_assoc. reflexivity.
Qed.

(** X8.  What a successful [set_oversampling] has done.  The index is in
    0..7; the frequency was read back first; if the cap of the requested
    index admits it, [OS os_idx] was sent and nothing else; otherwise the
    frequency was kept, one [OS] command went out for the highest index
    whose cap admits it, and one warning.  The index sent always has a cap
    of at least the frequency the device reported. *)
Theorem set_oversampling_success (os_idx : Z) (p p' : port) :
  set_oversampling parse_int os_idx p = (Ok tt, p') ->
  0 <= os_idx <= 7
  /\ exists p1 hz cap,
      get_freq_hz parse_int p = (Ok hz, p1)
      /\ _max_freq_for_os os_idx = Ok cap
      /\ ((hz <= cap /\ trace p' = trace p ++ [Sent FREQ_q; Sent (OS os_idx)])
          \/ (cap < hz /\ 1 <= hz <= 100000
              /\ highest_compatible_os hz (os_band hz)
              /\ os_band hz < os_idx
              /\ trace p' = trace p ++ [Sent FREQ_q; Sent (OS (os_band hz));
                                        Warned (OsRequestInvalid os_idx hz (os_band hz))])).
Proof.
  unfold set_oversampling.
  destruct (negb ((0 <=? os_idx) && (os_idx <=? 7))) eqn:Er; [discriminate|].
  apply negb_false_iff, andb_true_iff in Er. destruct Er as [E0 E1].
  apply Z.leb_le in E0, E1.
  unfold bind at 1.
  destruct (get_freq_hz parse_int p) as [[hz|e] p1] eqn:G; [|discriminate].
  pose proof (get_freq_hz_sent _ G) as S1.
  unfold bind at 1, lift at 1.
  destruct (_max_freq_for_os os_idx) as [cap|e] eqn:C; [|discriminate].
  intros H. split; [lia|]. exists p1, hz, cap.
  split; [reflexivity|]. split; [first [exact C | reflexivity]|].
  destruct (cap <? hz) eqn:Ec; rewrite ?Ec in H.
  - apply Z.ltb_lt in Ec. right. split; [exact Ec|].
    revert H. unfold bind at 1, lift at 1.
    destruct (_best_os_for_freq hz) as [best|e] eqn:B; [|discriminate].
    destruct (@best_os_ok _ _ B) as [Hr ->].
    destruct (best_os_spec Hr) as (best & Hbest & Hspec).
    rewrite B in Hbest. inversion Hbest; subst best.
    unfold bind at 1.
    destruct (_ask (OS (os_band hz)) p1) as [[[st3 pl3]|e] p3] eqn:A3; [|discriminate].
    pose proof (_ask_sent _ _ A3) as S3.
    destruct (negb (status_eqb st3 ST_OK)); [discriminate|].
    unfold emit. intros H; inversion H; subst p'.
    split; [exact Hr|]. split; [exact Hspec|]. split.
    + destruct Hspec as (_ & _ & Hmax).
      destruct (Z.lt_ge_cases (os_band hz) os_idx) as [Hlt|Hge]; [exact Hlt|exfalso].
      destruct (@max_freq_values _ _ C) as [[? ?]|[[? ?]|[[? ?]|[[? ?]|[[? ?]|[[? ?]|[[? ?]|[? ?]]]]]]]];
        subst; unfold os_band in Hge;
        repeat match type of Hge with
               | context [?h <=? ?c] => destruct (Z.leb_spec h c)
               end; lia.
    + unfold trace. cbn [sent]. rewrite S3, S1. cbn [rev]. rewrite <- !app_assoc. reflexivity.
  - apply Z.ltb_ge in Ec. left. split; [exact Ec|].
    revert H. unfold bind at 1.
    destruct (_ask (OS os_idx) p1) as [[[st3 pl3]|e] p3] eqn:A3; [|discriminate].
    pose proof (_ask_sent _ _ A3) as S3.
    destruct (negb (status_eqb st3 ST_OK)); [discriminate|].
    unfold ret. intros H; inversion H; subst p'.
    unfold trace. rewrite S3, S1. cbn [rev]. rewrite <- !app_assoc. reflexivity.
Qed.
End FrequencySetting.

Lemma set_freq_success_witness :
  1 <= 40000 <= 100000
  /\ exists p1 p2 cur_os cap,
      sent p1 = Sent (FREQ 40000) :: sent port_os2
      /\ get_oversampling int_literal p1 = (Ok cur_os, p2)
      /\ _max_freq_for_os cur_os = Ok cap
      /\ ((40000 <= cap
           /\ trace (snd (set_freq int_literal 40000 port_os2))
              = trace port_os2 ++ [Sent (FREQ 40000); Sent OS_q])
          \/ (cap < 40000
              /\ highest_compatible_os 40000 (os_band 40000)
              /\ trace (snd (set_freq int_literal 40000 port_os2))
                 = trace port_os2 ++ [Sent (FREQ 40000); Sent OS_q; Sent (OS (os_band 40000));
                                      Warned (OsAutoAdjusted cur_os 40000 (os_band 40000))])).
Proof.
  apply (@set_freq_success int_literal 40000 port_os2
           (snd (set_freq int_literal 40000 port_os2))).
  vm_compute. reflexivity.
Defined.

Lemma set_oversampling_success_witness :
  0 <= 4 <= 7
  /\ exists p1 hz cap,
      get_freq_hz int_literal port_50k = (Ok hz, p1)
      /\ _max_freq_for_os 4 = Ok cap
      /\ ((hz <= cap
           /\ trace (snd (set_oversampling int_literal 4 port_50k))
              = trace port_50k ++ [Sent FREQ_q; Sent (OS 4)])
          \/ (cap < hz /\ 1 <= hz <= 100000
              /\ highest_compatible_os hz (os_band hz)
              /\ os_band hz < 4
              /\ trace (snd (set_oversampling int_literal 4 port_50k))
                 = trace port_50k ++ [Sent FREQ_q; Sent (OS (os_band hz));
                                      Warned (OsRequestInvalid 4 hz (os_band hz))])).
Proof.
  apply (@set_oversampling_success int_literal 4 port_50k
           (snd (set_oversampling int_literal 4 port_50k))).
  vm_compute. reflexivity.
Defined.

(* ------------------------------------------------------------------ *)
(** ** Argument checks and bulk transfers *)

Section Validation.
Variable pow10 : Qc -> Qc.
Variable log10 : Qc -> option Qc.
Variable parse_int : string -> option Z.
Variable parse_gains : string -> option (vec4 Z).

(** X9.  Arguments are checked before anything is written: an
    out-of-range frequency or oversampling index (CoreDAQError), a head
    outside 1..4 or a gain outside 0..7 on a LINEAR session (ValueError), a
    frame count that is not positive in the four transfer calls and in
    [soft_zero_from_snapshot] (ValueError) raise with the port untouched. *)
Theorem invalid_arguments_raise_before_io (self : CoreDAQ) (p : port) :
  (forall hz, hz <= 0 \/ 100000 < hz ->
     set_freq parse_int hz p = (Raise (CoreDAQError FreqRange), p))
  /\ (forall os_idx, os_idx < 0 \/ 7 < os_idx ->
        set_oversampling parse_int os_idx p = (Raise (CoreDAQError OsRange), p))
  /\ (forall head value, frontend_type self = LINEAR -> head < 1 \/ 4 < head ->
        set_gain self head value p = (Raise (ValueError "head must be 1..4"), p))
  /\ (forall head value, frontend_type self = LINEAR -> 1 <= head <= 4 ->
        value < 0 \/ 7 < value ->
        set_gain self head value p = (Raise (ValueError "gain value must be 0..7"), p))
  /\ (forall frames u db, frames <= 0 ->
        transfer_frames_adc frames p = (Raise (ValueError "frames must be > 0"), p)
        /\ transfer_frames_mV self frames u db p = (Raise (ValueError "frames must be > 0"), p)
        /\ transfer_frames_volts self frames u p = (Raise (ValueError "frames must be > 0"), p)
        /\ transfer_frames_W pow10 log10 parse_gains self frames u db p
           = (Raise (ValueError "frames must be > 0"), p))
  /\ (forall n_frames, frontend_type self = LINEAR -> n_frames <= 0 ->
        soft_zero_from_snapshot self n_frames p
        = (Raise (ValueError "n_frames must be > 0"), p)).
Proof.
  repeat split.
  - intros hz H. unfold set_freq.
    replace ((hz <=? 0) || (100000 <? hz)) with true; [reflexivity|].
    symmetry. apply orb_true_iff. destruct H; [left; apply Z.leb_le | right; apply Z.ltb_lt]; lia.
  - intros os_idx H. unfold set_oversampling.
    replace ((0 <=? os_idx) && (os_idx <=? 7)) with false; [reflexivity|].
    symmetry. apply andb_false_iff. destruct H; [left; apply Z.leb_gt | right; apply Z.leb_gt]; lia.
  - intros head value Hfe H. unfold set_gain, _require_frontend. rewrite Hfe.
    cbn [frontend_eqb negb]. unfold bind, lift.
    replace ((1 <=? head) && (head <=? 4)) with false; [reflexivity|].
    symmetry. apply andb_false_iff. destruct H; [left; apply Z.leb_gt | right; apply Z.leb_gt]; lia.
  - intros head value Hfe Hh H. unfold set_gain, _require_frontend. rewrite Hfe.
    cbn [frontend_eqb negb]. unfold bind, lift.
    replace ((1 <=? head) && (head <=? 4)) with true
      by (symmetry; apply andb_true_iff; split; apply Z.leb_le; lia).
    replace ((0 <=? value) && (value <=? 7)) with false; [reflexivity|].
    symmetry. apply andb_false_iff. destruct H; [left; apply Z.leb_gt | right; apply Z.leb_gt]; lia.
  - unfold transfer_frames_adc. apply Z.leb_le in H. rewrite H. reflexivity.
  - unfold transfer_frames_mV, bind, transfer_frames_adc. apply Z.leb_le in H. rewrite H. reflexivity.
  - unfold transfer_frames_volts, transfer_frames_mV, bind, transfer_frames_adc.
    apply Z.leb_le in H. rewrite H. reflexivity.
  - unfold transfer_frames_W. apply Z.leb_le in H. rewrite H. reflexivity.
  - intros n Hfe H. unfold soft_zero_from_snapshot, _require_frontend. rewrite Hfe.
    cbn [frontend_eqb negb]. unfold bind, lift. apply Z.leb_le in H. rewrite H. reflexivity.
Qed.
End Validation.

(** *** Bulk transfers: shape and range *)

Lemma int16_le_range (lo hi : Byte.byte) : -32768 <= int16_le lo hi <= 32767.
Proof.
  unfold int16_le.
  pose proof (Byte.to_N_bounded lo). pose proof (Byte.to_N_bounded hi).
  destruct (Z.ltb_spec (Z.of_N (Byte.to_N lo) + 256 * Z.of_N (Byte.to_N hi)) 32768); lia.
Qed.

(** A transfer that returns was acknowledged and found its bytes. *)
Lemma transfer_frames_adc_ok (frames : Z) (p : port) chans p' :
  transfer_frames_adc frames p = (Ok chans, p') ->
  0 < frames
  /\ frames * 4 * 2 <= Z.of_nat (List.length (stream (rx_blocks p)))
  /\ chans = deinterleave (samples_of_bytes
                             (firstn (Z.to_nat (frames * 4 * 2)) (stream (rx_blocks p))))
  /\ sent p' = Sent (XFER (frames * 4 * 2)) :: sent p.
Proof.
  intros H.
  assert (Hpos : 0 < frames).
  { unfold transfer_frames_adc in H. destruct (frames <=? 0) eqn:E; [discriminate|].
    apply Z.leb_gt in E. exact E. }
  assert (Hline : exists line rest, rx_lines p = line :: rest /\ reply_ok line = true).
  { unfold transfer_frames_adc in H. destruct (frames <=? 0); [discriminate|].
    unfold bind, _writeln, emit, _readline in H. cbn in H.
    destruct (rx_lines p) as [|raw rest]; [discriminate|].
    exists raw, rest. split; [reflexivity|]. unfold reply_ok.
    destruct (String.eqb raw EmptyString); [discriminate|]. cbn [negb andb].
    destruct (Text.startswith "OK" (Text.strip raw)); [reflexivity|].
    cbn in H. discriminate. }
  destruct Hline as (line & rest & Hrx & Hok).
  destruct (transfer_frames_adc_ack p Hpos Hrx Hok) as (q & Hs & Hrun).
  cbv zeta in Hrun. rewrite Hrun in H.
  destruct (frames * 4 * 2 <=? Z.of_nat (List.length (stream (rx_blocks p)))) eqn:E;
    [|discriminate].
  apply Z.leb_le in E. inversion H; subst. repeat split; auto.
Qed.

Lemma transfer_channel_shape (frames : Z) (s : list Byte.byte) (c : nat) :
  0 < frames -> frames * 4 * 2 <= Z.of_nat (List.length s) -> (c < 4)%nat ->
  let chan := vget (deinterleave (samples_of_bytes (firstn (Z.to_nat (frames * 4 * 2)) s))) c in
  List.length chan = Z.to_nat frames
  /\ Forall (fun x => -32768 <= x <= 32767) chan.
Proof.
  intros Hpos Hlen Hc. cbv zeta.
  assert (Hbuf : List.length (firstn (Z.to_nat (frames * 4 * 2)) s) = (8 * Z.to_nat frames)%nat).
  { rewrite length_firstn. lia. }
  destruct (@deinterleave_spec _ _ Hbuf c Hc) as [Hl Hnth]. split; [exact Hl|].
  apply Forall_forall. intros x Hin. apply In_nth_error in Hin. destruct Hin as [i Hi].
  assert (Hi' : (i < Z.to_nat frames)%nat).
  { rewrite <- Hl. apply nth_error_Some. congruence. }
  destruct (Hnth i Hi') as (lo & hi & _ & _ & Hv). rewrite Hv in Hi. inversion Hi.
  apply int16_le_range.
Qed.

Lemma mapM_length {A B} (f : A -> result B) (l : list A) (out : list B) :
  mapM f l = Ok out -> List.length out = List.length l.
Proof.
  revert out. induction l as [|a t IH]; intros out; cbn [mapM].
  - intros H; inversion H; reflexivity.
  - unfold rbind. destruct (f a); [|discriminate].
    destruct (mapM f t) as [bs|]; [|discriminate].
    intros H; inversion H; subst. cbn. f_equal. apply IH. reflexivity.
Qed.

Section Shapes.
Variable pow10 : Qc -> Qc.
Variable log10 : Qc -> option Qc.
Variable parse_gains : string -> option (vec4 Z).

Lemma transfer_frames_mV_length (self : CoreDAQ) frames u db p out p' :
  transfer_frames_mV self frames u db p = (Ok out, p') ->
  exists chans, transfer_frames_adc frames p = (Ok chans, p')
                /\ forall c, (c < 4)%nat ->
                             List.length (vget out c) = List.length (vget chans c).
Proof.
  unfold transfer_frames_mV, bind.
  destruct (transfer_frames_adc frames p) as [[chans|e] q] eqn:E; [|discriminate].
  intros H. exists chans.
  destruct (frontend_type self); unfold ret in H; inversion H; subst; (split; [reflexivity|]);
    intros c Hc; destruct chans as [a b c0 d]; destruct (linear_zero_adc self);
    do 4 (destruct c as [|c]; [cbn; try destruct (PyNum.ltb 0 _); rewrite ?length_map; reflexivity|]);
    lia.
Qed.

(** X10.  The shape of a bulk transfer.  Whenever one of the four transfer
    calls returns, [frames] is positive and each of the four channels holds
    exactly [frames] samples; the ADC codes are signed 16-bit values. *)
Theorem transfer_results_have_frames_samples (self : CoreDAQ) (frames : Z) (u : option bool)
        (db : option Qc) (p : port) :
  (forall chans p',
      transfer_frames_adc frames p = (Ok chans, p') ->
      0 < frames
      /\ forall c, (c < 4)%nat ->
           List.length (vget chans c) = Z.to_nat frames
           /\ Forall (fun x => -32768 <= x <= 32767) (vget chans c))
  /\ (forall out p',
         transfer_frames_mV self frames u db p = (Ok out, p') ->
         forall c, (c < 4)%nat -> List.length (vget out c) = Z.to_nat frames)
  /\ (forall out p',
         transfer_frames_volts self frames u p = (Ok out, p') ->
         forall c, (c < 4)%nat -> List.length (vget out c) = Z.to_nat frames)
  /\ (forall out p',
         transfer_frames_W pow10 log10 parse_gains self frames u db p = (Ok out, p') ->
         forall c, (c < 4)%nat -> List.length (vget out c) = Z.to_nat frames).
Proof.
  assert (Hadc : forall chans p',
             transfer_frames_adc frames p = (Ok chans, p') ->
             0 < frames
             /\ forall c, (c < 4)%nat ->
                  List.length (vget chans c) = Z.to_nat frames
                  /\ Forall (fun x => -32768 <= x <= 32767) (vget chans c)).
  { intros chans p' H. destruct (@transfer_frames_adc_ok _ _ _ _ H) as (Hpos & Hlen & -> & _).
    split; [exact Hpos|]. intros c Hc. apply transfer_channel_shape; assumption. }
  assert (HmV : forall s' u' db' out p',
             transfer_frames_mV s' frames u' db' p = (Ok out, p') ->
             forall c, (c < 4)%nat -> List.length (vget out c) = Z.to_nat frames).
  { intros s' u' db' out p' H c Hc.
    destruct (@transfer_frames_mV_length _ _ _ _ _ _ _ H) as (chans & Ha & Hl).
    rewrite (Hl c Hc). apply (Hadc _ _ Ha). exact Hc. }
  assert (Hvolts : forall s' u' out p',
             transfer_frames_volts s' frames u' p = (Ok out, p') ->
             forall c, (c < 4)%nat -> List.length (vget out c) = Z.to_nat frames).
  { intros s' u' out p'. unfold transfer_frames_volts, bind.
    destruct (transfer_frames_mV s' frames u' None p) as [[mv|e] q] eqn:E; [|discriminate].
    unfold ret. intros H c Hc. inversion H; subst.
    rewrite vget_vmap, length_map. apply (HmV _ _ _ _ _ E c Hc). }
  split; [exact Hadc|]. split; [apply HmV|]. split; [apply Hvolts|].
  intros out p'. unfold transfer_frames_W.
  destruct (frames <=? 0); [discriminate|].
  destruct (frontend_type self).
  - unfold bind.
    destruct (transfer_frames_mV self frames None None p) as [[mv|e] q] eqn:E; [|discriminate].
    destruct (get_gains parse_gains self q) as [[gains|e] q2]; [|discriminate].
    unfold lift. intros H c Hc. inversion H as [[Hv Hq]].
    pose proof (@vforM_ok _ _ _ Hv c Hc) as Hch. unfold transfer_W_linear_ch in Hch.
    unfold rbind in Hch.
    destruct (py_index _ _); [|discriminate]. destruct (py_index _ _); [|discriminate].
    destruct (PyNum.eqb _ _); [discriminate|].
    destruct (linear_decimals _ _); [|discriminate].
    inversion Hch as [Hm]. rewrite length_map. apply (HmV _ _ _ _ _ E c Hc).
  - unfold bind.
    destruct (transfer_frames_volts self frames None p) as [[v|e] q] eqn:E; [|discriminate].
    unfold lift. intros H c Hc. inversion H as [[Hv Hq]].
    pose proof (@vforM_ok _ _ _ Hv c Hc) as Hch. cbv beta in Hch.
    rewrite (@mapM_length _ _ _ _ _ Hch). apply (Hvolts _ _ _ _ E c Hc).
Qed.
End Shapes.

(** *** LOG transfers in millivolts *)

Lemma transfer_scale_bound (x : Z) :
  -32768 <= x <= 32767 -> (PyNum.abs (transfer_scale x) <= full_scale_mV)%Qc.
Proof.
  intros Hx. unfold PyNum.abs.
  assert (Hlo : (transfer_scale (-32768) <= transfer_scale x)%Qc)
    by (apply transfer_scale_mono; lia).
  assert (Hhi : (transfer_scale x <= transfer_scale 32767)%Qc)
    by (apply transfer_scale_mono; lia).
  assert (E1 : (transfer_scale (-32768) = - full_scale_mV)%Qc)
    by (apply Qc_is_canon; vm_compute; reflexivity).
  assert (E2 : (transfer_scale 32767 <= full_scale_mV)%Qc)
    by (vm_compute; discriminate).
  rewrite E1 in Hlo.
  destruct (PyNum.ltb (transfer_scale x) 0) eqn:E.
  - apply Qcopp_le_compat in Hlo. rewrite Qcopp_involutive in Hlo. exact Hlo.
  - apply Qcle_trans with (transfer_scale 32767); assumption.
Qed.

(** X11.  Millivolt transfers on a LOG session.  Every sample returned by
    [transfer_frames_mV] comes from the ADC code at the same position: it is
    that code times the LSB, or exactly 0 when the deadband is positive and
    the magnitude is below it.  So no returned sample lies strictly inside
    the deadband unless it is 0, none exceeds the 5000 mV full scale, and a
    deadband of 0 (or below) returns the scaled codes untouched. *)
Theorem log_transfer_mV_deadband (self : CoreDAQ) (frames : Z) (u : option bool)
        (db : option Qc) (p p' : port) (out : vec4 (list Qc)) :
  frontend_type self = LOG ->
  transfer_frames_mV self frames u db p = (Ok out, p') ->
  let d := active_deadband self db in
  exists chans,
    transfer_frames_adc frames p = (Ok chans, p')
    /\ ((d <= 0)%Qc -> out = vmap (map transfer_scale) chans)
    /\ forall c i v,
        (c < 4)%nat -> nth_error (vget out c) i = Some v ->
        exists x,
          nth_error (vget chans c) i = Some x
          /\ (v = transfer_scale x \/ (v = 0 /\ PyNum.abs (transfer_scale x) < d))%Qc
          /\ (0 < d -> v = 0 \/ d <= PyNum.abs v)%Qc
          /\ (PyNum.abs v <= full_scale_mV)%Qc.
Proof.
  intros Hfe H d.
  unfold transfer_frames_mV, bind in H.
  destruct (transfer_frames_adc frames p) as [[chans|e] q] eqn:E; [|discriminate].
  rewrite Hfe in H. unfold ret in H. inversion H as [[Hout Hq]]. subst q.
  fold d. fold d in Hout.
  exists chans. split; [reflexivity|].
  destruct (@transfer_frames_adc_ok _ _ _ _ E) as (Hpos & Hlen & Hch & _).
  split.
  - intros Hd. destruct (PyNum.ltb 0 d) eqn:Ed; [qc_order|]. reflexivity.
  - intros c i v Hc Hv. rewrite vget_vmap in Hv.
    assert (Hrange : forall x, nth_error (vget chans c) i = Some x -> -32768 <= x <= 32767).
    { intros x Hx. subst chans.
      destruct (@transfer_channel_shape frames _ c Hpos Hlen Hc) as [_ HF].
      rewrite Forall_forall in HF. apply HF. eapply nth_error_In. exact Hx. }
    assert (Hzero : (PyNum.abs 0 <= full_scale_mV)%Qc) by (vm_compute; discriminate).
    destruct (PyNum.ltb 0 d) eqn:Ed.
    + rewrite map_map in Hv. rewrite nth_error_map in Hv.
      destruct (nth_error (vget chans c) i) as [x|] eqn:Hx; [|discriminate].
      cbn [option_map] in Hv. exists x. split; [reflexivity|].
      change (PyNum.of_int x * lsb_mV)%Qc with (transfer_scale x) in Hv.
      destruct (PyNum.ltb (PyNum.abs (transfer_scale x)) d) eqn:Ex; inversion Hv; subst v.
      * apply PyNumFacts.ltb_lt in Ex. repeat split; auto.
      * apply PyNumFacts.ltb_ge in Ex. repeat split; auto.
        apply transfer_scale_bound. apply Hrange. reflexivity.
    + rewrite nth_error_map in Hv.
      destruct (nth_error (vget chans c) i) as [x|] eqn:Hx; [|discriminate].
      cbn [option_map] in Hv. exists x. split; [reflexivity|].
      change (PyNum.of_int x * lsb_mV)%Qc with (transfer_scale x) in Hv.
      inversion Hv; subst v. apply PyNumFacts.ltb_ge in Ed.
      repeat split; auto.
      * intros Hd. exfalso. unfold Qcle, Qclt in *. lra.
      * apply transfer_scale_bound. apply Hrange. reflexivity.
Qed.

Lemma log_transfer_mV_deadband_witness :
  exists chans p',
    transfer_frames_adc 1 port_xfer_one_frame = (Ok chans, p').
Proof.
  destruct (transfer_frames_mV scenario_lut 1 None None port_xfer_one_frame)
    as [[out|e] p'] eqn:E; [|vm_compute in E; discriminate].
  destruct (@log_transfer_mV_deadband scenario_lut 1 None None port_xfer_one_frame p' out
              eq_refl E) as (chans & H & _).
  exists chans, p'. exact H.
Defined.

(* ------------------------------------------------------------------ *)
(** ** LINEAR power values *)

Section Grid.
Local Open Scope Qc_scope.






End Grid.

Section LinearOutputs.
Local Open Scope Qc_scope.
Variable log10 : Qc -> option Qc.


End LinearOutputs.


(* ------------------------------------------------------------------ *)
(** ** LOG conversion: order, bounds and totality *)

Section Segments.
Local Open Scope Qc_scope.



End Segments.

Section LogMonotone.
Local Open Scope Qc_scope.
Variable pow10 : Qc -> Qc.




End LogMonotone.


Section LogTotal.
Local Open Scope Qc_scope.
Variable pow10 : Qc -> Qc.



End LogTotal.


(* ------------------------------------------------------------------ *)
(** ** Autogain at rest, the deadband setting and session construction *)

Section AutogainSettled.
Local Open Scope Qc_scope.
Variable pow10 : Qc -> Qc.
Variable log10 : Qc -> option Qc.

Lemma autogain_channel_idle (self : CoreDAQ) (min_mv max_mv : Qc) (mv : vec4 Qc)
      (gains : vec4 Z) (ch : nat) (p : port) :
  adjustment min_mv max_mv (vget mv ch) (vget gains ch) = None ->
  autogain_channel self min_mv max_mv mv gains ch p = (Ok false, p).
Proof.
  unfold adjustment, autogain_channel.
  destruct (PyNum.ltb (PyNum.abs (vget mv ch)) min_mv && (vget gains ch <? 7)%Z); [discriminate|].
  destruct (PyNum.ltb max_mv (PyNum.abs (vget mv ch)) && (0 <? vget gains ch)%Z); [discriminate|].
  reflexivity.
Qed.

(** X16.  Autogain that has nothing to adjust.  With a budget of no
    iterations, or on a LOG session, [snapshot_W] with [autogain=True] is
    the call without it.  On a LINEAR session with a budget of at least one
    iteration, if the first snapshot shows every channel within the
    thresholds or with its gain at the end of the range, no gain command is
    sent and the result is that of the call without autogain on the next
    snapshot: one extra snapshot is all it costs. *)
Theorem autogain_with_nothing_to_adjust (self : CoreDAQ) (n_frames : Z) (u : option bool)
        (min_mv max_mv : Qc) (max_iters : Z) (dbg : bool) (db : option Qc) (p : port) :
  ((max_iters <= 0)%Z \/ frontend_type self = LOG ->
   snapshot_W pow10 log10 self n_frames u true min_mv max_mv max_iters dbg db p
   = snapshot_W pow10 log10 self n_frames u false min_mv max_mv max_iters dbg db p)
  /\ (frontend_type self = LINEAR -> (1 <= max_iters)%Z ->
      forall codes gains rest,
        rx_snaps p = Ok (codes, gains) :: rest ->
        let mv := vmap snapshot_scale (vmap2 Z.sub codes (linear_zero_adc self)) in
        (forall ch, (ch < 4)%nat ->
                    adjustment min_mv max_mv (vget mv ch) (vget gains ch) = None) ->
        snapshot_W pow10 log10 self n_frames u true min_mv max_mv max_iters dbg db p
        = snapshot_W pow10 log10 self n_frames u false min_mv max_mv max_iters dbg db
                     (mkPort (rx_lines p) (rx_blocks p) rest
                             (Sent (SNAP n_frames) :: sent p))).
Proof.
  split.
  - intros [Hit|Hfe]; unfold snapshot_W.
    + destruct (frontend_type self); [|reflexivity].
      replace (Z.to_nat max_iters) with 0%nat by lia. reflexivity.
    + rewrite Hfe. reflexivity.
  - intros Hfe Hit codes gains rest Hsn mv Hidle.
    unfold snapshot_W. rewrite Hfe.
    destruct (Z.to_nat max_iters) as [|k] eqn:Ek; [lia|].
    cbn [autogain_loop]. unfold bind at 1. unfold bind at 1.
    assert (Hsnap : snapshot_mV self n_frames None p
                    = (Ok (mv, gains),
                       mkPort (rx_lines p) (rx_blocks p) rest (Sent (SNAP n_frames) :: sent p))).
    { unfold snapshot_mV, bind. rewrite (snapshot_adc_next _ _ Hsn).
      unfold _apply_linear_zero_ch. rewrite Hfe. cbn [frontend_eqb negb].
      unfold ret. subst mv. destruct codes, (linear_zero_adc self). reflexivity. }
    rewrite Hsnap. unfold bind at 1.
    unfold autogain_pass, bind.
    rewrite !autogain_channel_idle by (apply Hidle; lia).
    cbn [orb negb]. unfold ret. reflexivity.
Qed.
End AutogainSettled.

Lemma autogain_with_nothing_to_adjust_witness :
  snapshot_W exponent_of log10_digits linear_session 1 None true
             (PyNum.qc 100 1) (PyNum.qc 4700 1) 10 false None port_settled
  = snapshot_W exponent_of log10_digits linear_session 1 None false
               (PyNum.qc 100 1) (PyNum.qc 4700 1) 10 false None
               (mkPort [] [] [Ok (V4 10000 10000 10000 10000, V4 3 3 3 3)]%Z
                       [Sent (SNAP 1)]).
Proof.
  destruct (@autogain_with_nothing_to_adjust exponent_of log10_digits linear_session 1 None
              (PyNum.qc 100 1) (PyNum.qc 4700 1) 10 false None port_settled) as [_ H].
  apply (H eq_refl ltac:(lia) (V4 10000 10000 10000 10000)%Z (V4 3 3 3 3)%Z
           [Ok (V4 10000 10000 10000 10000, V4 3 3 3 3)%Z] eq_refl).
  intros ch Hch.
  do 4 (destruct ch as [|ch]; [vm_compute; reflexivity|]). lia.
Defined.

Section Deadband0.
Local Open Scope Qc_scope.
Variable pow10 : Qc -> Qc.

End Deadband0.

Section InitInvariants.
Local Open Scope Qc_scope.
Variable parse_factory_zeros : string -> result (vec4 Z).
Variable cal_exchange : io (vec4 (list Qc) * vec4 (list Qc)).
Variable logcal_exchange : io (list (Z * Z)).

End InitInvariants.


(* ------------------------------------------------------------------ *)
(** ** Python text builtins: printing and reading integers *)

Module PyStrFacts.
Import PyStr.

Lemma all_chars_app P s t : all_chars P (s ++ t) = all_chars P s && all_chars P t.
Proof. induction s as [|c s IH]; cbn; [reflexivity|]. rewrite IH, andb_assoc. reflexivity. Qed.

Lemma all_chars_weaken (P Q : ascii -> bool) s :
  (forall c, P c = true -> Q c = true) -> all_chars P s = true -> all_chars Q s = true.
Proof.
  intros H. induction s as [|c s IH]; cbn; [reflexivity|].
  rewrite !andb_true_iff. intros [Hc Hs]. split; [apply H; exact Hc | apply IH; exact Hs].
Qed.

Lemma rstrip_solid blank s :
  all_chars (fun c => negb (blank c)) s = true -> rstrip_with blank s = s.
Proof.
  induction s as [|c s IH]; cbn; [reflexivity|].
  rewrite andb_true_iff, negb_true_iff. intros [Hc Hs]. rewrite (IH Hs), Hc.
  destruct s; reflexivity.
Qed.

Lemma lstrip_solid blank s :
  all_chars (fun c => negb (blank c)) s = true -> lstrip_with blank s = s.
Proof.
  destruct s as [|c s]; cbn; [reflexivity|].
  rewrite andb_true_iff, negb_true_iff. intros [-> _]. reflexivity.
Qed.

Lemma strip_solid blank s :
  all_chars (fun c => negb (blank c)) s = true -> strip_with blank s = s.
Proof. intros H. unfold strip_with. rewrite (lstrip_solid _ _ H). apply rstrip_solid, H. Qed.

Lemma is_numeric_solid c : is_numeric c = true -> negb (isspace c) = true.
Proof.
  unfold is_numeric, is_digit, isspace. rewrite orb_true_iff, andb_true_iff, !Nat.leb_le.
  intros [[H1 H2]|H].
  - apply negb_true_iff, orb_false_iff. split; apply andb_false_iff.
    + right. apply Nat.leb_gt. lia.
    + right. apply Nat.leb_gt. lia.
  - apply Ascii.eqb_eq in H. subst c. reflexivity.
Qed.

Lemma is_numeric_c_solid c : is_numeric c = true -> negb (c_isspace c) = true.
Proof.
  unfold is_numeric, is_digit, c_isspace. rewrite orb_true_iff, andb_true_iff, !Nat.leb_le.
  intros [[H1 H2]|H].
  - apply negb_true_iff, orb_false_iff. split.
    + apply andb_false_iff. right. apply Nat.leb_gt. lia.
    + apply Nat.eqb_neq. lia.
  - apply Ascii.eqb_eq in H. subst c. reflexivity.
Qed.

(** *** Printing and reading integers *)

Lemma uint_digits (d : Decimal.uint) :
  all_chars is_digit (NilEmpty.string_of_uint d) = true.
Proof. induction d; cbn; auto. Qed.

Lemma str_of_int_numeric (z : Z) : all_chars is_numeric (str_of_int z) = true.
Proof.
  assert (H : forall d, all_chars is_numeric (NilZero.string_of_uint d) = true).
  { intros d. apply all_chars_weaken with is_digit.
    - intros c Hc. unfold is_numeric. rewrite Hc. reflexivity.
    - destruct d; try apply (uint_digits (_ d)); reflexivity. }
  unfold str_of_int. destruct (Z.to_int z) as [d|d]; cbn; [apply H|]. apply H.
Qed.

Lemma to_uint_head (p : positive) (d : Decimal.uint) : Pos.to_uint p <> Decimal.D0 d.
Proof.
  intro E.
  pose proof (DecimalPos.Unsigned.to_of (Pos.to_uint p)) as H.
  rewrite DecimalPos.Unsigned.of_to in H. cbn [N.to_uint] in H.
  rewrite E in H. unfold Decimal.unorm in H.
  destruct (Decimal.nzhead (Decimal.D0 d)) eqn:N; try discriminate H.
  - inversion H; subst d. exact (DecimalPos.Unsigned.to_uint_nonzero p E).
  - exact (DecimalFacts.nzhead_nonzero _ _ N).
Qed.

(** One digit of a decimal literal. *)
Ltac digit_step :=
  cbn [digits];
  match goal with
  | |- context [Ascii.eqb ?c "_"] => change (Ascii.eqb c "_") with false
  end;
  match goal with
  | |- context [digit_value ?c] =>
      let v := eval vm_compute in (digit_value c) in change (digit_value c) with v
  end;
  cbv beta iota;
  match goal with
  | |- context [(?k <? 10)%Z] => change (k <? 10)%Z with true
  end;
  cbv beta iota.

Lemma digits_uint_acc (d : Decimal.uint) :
  forall acc : positive,
    digits 10 (NilEmpty.string_of_uint d) (Z.pos acc) false
    = Some (Z.pos (Pos.of_uint_acc d acc)).
Proof.
  induction d; intros acc; cbn [NilEmpty.string_of_uint Pos.of_uint_acc];
    [reflexivity | ..];
    digit_step; rewrite <- IHd; f_equal; lia.
Qed.

Lemma digits_uint (d : Decimal.uint) :
  digits 10 (NilEmpty.string_of_uint d) 0 false = Some (Z.of_N (Pos.of_uint d)).
Proof.
  induction d; cbn [NilEmpty.string_of_uint Pos.of_uint];
    [reflexivity | ..];
    digit_step; first [exact IHd | apply digits_uint_acc].
Qed.

Lemma uint_of_pos_string (p : positive) :
  NilZero.string_of_uint (Pos.to_uint p) = NilEmpty.string_of_uint (Pos.to_uint p).
Proof.
  pose proof (DecimalPos.Unsigned.to_uint_nonnil p) as H.
  destruct (Pos.to_uint p); [congruence | reflexivity ..].
Qed.

(** A decimal literal without sign and without a leading zero. *)
Lemma int_of_pos_string (p : positive) (base : Z) :
  base = 10%Z \/ base = 0%Z ->
  (let s := NilEmpty.string_of_uint (Pos.to_uint p) in
   match s with
   | String c _ => negb (Ascii.eqb c "+") && negb (Ascii.eqb c "-") && negb (Ascii.eqb c "_")
                   && negb (Ascii.eqb c "0")
   | EmptyString => false
   end = true)
  /\ digits 10 (NilEmpty.string_of_uint (Pos.to_uint p)) 0 false = Some (Z.pos p).
Proof.
  intros _. split.
  - pose proof (DecimalPos.Unsigned.to_uint_nonnil p) as H.
    pose proof (@to_uint_head p) as H0.
    destruct (Pos.to_uint p) as [|d|d|d|d|d|d|d|d|d|d]; cbn; try reflexivity; [congruence|].
    exfalso. exact (H0 d eq_refl).
  - rewrite digits_uint, DecimalPos.Unsigned.of_to. reflexivity.
Qed.

Lemma magnitude_decimal (base : Z) (c : ascii) (t : string) :
  base = 10%Z \/ base = 0%Z ->
  negb (Ascii.eqb c "+") && negb (Ascii.eqb c "-") && negb (Ascii.eqb c "_")
  && negb (Ascii.eqb c "0") = true ->
  magnitude base (String c t) = digits 10 (String c t) 0 false.
Proof.
  intros Hb Hc.
  rewrite !andb_true_iff, !negb_true_iff in Hc. destruct Hc as [[[Hp Hm] Hu] Hz].
  unfold magnitude.
  assert (E3 : starts_with_zero (String c t) = false).
  { apply Ascii.eqb_neq in Hz. unfold starts_with_zero.
    destruct c as [[] [] [] [] [] [] [] []]; try reflexivity. exfalso; apply Hz; reflexivity. }
  assert (E4 : marker (String c t) = None).
  { apply Ascii.eqb_neq in Hz. unfold marker.
    destruct c as [[] [] [] [] [] [] [] []]; try reflexivity. exfalso; apply Hz; reflexivity. }
  rewrite E3, E4. cbn [negb marks].
  assert (E5 : match String c t with
               | EmptyString => None
               | String "_" _ => None
               | _ => match digits 10 (String c t) 0 false with
                      | Some n => if false && negb (n =? 0)%Z then None else Some n
                      | None => None
                      end
               end = digits 10 (String c t) 0 false).
  { apply Ascii.eqb_neq in Hu.
    destruct c as [[] [] [] [] [] [] [] []];
      try (cbn [andb]; destruct (digits 10 _ 0 false); reflexivity).
    exfalso; apply Hu; reflexivity. }
  destruct Hb as [-> | ->]; cbn [Z.eqb andb orb]; exact E5.
Qed.

(** Reading back a printed integer, in base 10 and with base 0. *)
Lemma int_str_of_int (base : Z) (z : Z) :
  base = 10%Z \/ base = 0%Z -> int base (str_of_int z) = Some z.
Proof.
  intros Hb. unfold int.
  rewrite (strip_solid c_isspace (str_of_int z))
    by (apply all_chars_weaken with is_numeric;
        [apply is_numeric_c_solid | apply str_of_int_numeric]).
  destruct z as [|p|p].
  - destruct Hb as [-> | ->]; vm_compute; reflexivity.
  - unfold str_of_int. cbn [Z.to_int NilZero.string_of_int]. rewrite uint_of_pos_string.
    destruct (int_of_pos_string p Hb) as [Hc Hd]. cbv zeta in Hc.
    destruct (NilEmpty.string_of_uint (Pos.to_uint p)) as [|c t]; [discriminate|].
    rewrite <- Hd, <- (@magnitude_decimal base c t Hb Hc).
    rewrite !andb_true_iff, !negb_true_iff in Hc. destruct Hc as [[[Hp Hm] Hu] Hz].
    apply Ascii.eqb_neq in Hm, Hp.
    destruct c as [[] [] [] [] [] [] [] []]; try reflexivity;
      exfalso; first [apply Hm; reflexivity | apply Hp; reflexivity].
  - unfold str_of_int. cbn [Z.to_int NilZero.string_of_int]. rewrite uint_of_pos_string.
    destruct (int_of_pos_string p Hb) as [Hc Hd]. cbv zeta in Hc.
    destruct (NilEmpty.string_of_uint (Pos.to_uint p)) as [|c t]; [discriminate|].
    rewrite (@magnitude_decimal base c t Hb Hc), Hd. reflexivity.
Qed.
End PyStrFacts.

(* ------------------------------------------------------------------ *)
(** ** Reply payloads *)

Module ReplyFacts.
Import PyStr PyStrFacts.

(** What the parsers need of a printed integer. *)
Lemma str_of_int_facts (z : Z) :
  all_chars is_numeric (str_of_int z) = true
  /\ str_of_int z <> EmptyString
  /\ int 10 (str_of_int z) = Some z
  /\ int 0 (str_of_int z) = Some z.
Proof.
  pose proof (@int_str_of_int 10 z (or_introl eq_refl)) as H10.
  split; [apply str_of_int_numeric|]. split; [|split; [exact H10|]].
  - intro E. rewrite E in H10. discriminate H10.
  - apply int_str_of_int. right. reflexivity.
Qed.

Lemma numeric_solid s : all_chars is_numeric s = true -> solid s = true.
Proof. apply all_chars_weaken. apply is_numeric_solid. Qed.

Lemma append_nil_r (s : string) : (s ++ EmptyString)%string = s.
Proof. induction s as [|c s IH]; cbn; [reflexivity | rewrite IH; reflexivity]. Qed.

Lemma append_assoc (a b c : string) : ((a ++ b) ++ c)%string = (a ++ (b ++ c))%string.
Proof. induction a as [|x a IH]; cbn; [reflexivity | rewrite IH; reflexivity]. Qed.

Lemma append_nonempty_r (a : string) (c : ascii) (b : string) :
  (a ++ String c b)%string <> EmptyString.
Proof. destruct a; discriminate. Qed.

Lemma split_from_word (w t word : string) :
  solid w = true -> split_from (w ++ t) word = split_from t (word ++ w).
Proof.
  revert word. induction w as [|c w IH]; intros word Hw; cbn [append].
  - rewrite append_nil_r. reflexivity.
  - unfold solid in Hw. cbn [all_chars] in Hw. apply andb_true_iff in Hw.
    destruct Hw as [Hc Hw]. apply negb_true_iff in Hc.
    cbn [split_from]. rewrite Hc. rewrite (IH _ Hw), append_assoc. reflexivity.
Qed.

Lemma split_join (tokens : list string) :
  Forall (fun w => w <> EmptyString /\ solid w = true) tokens ->
  split (join_blank tokens) = tokens.
Proof.
  unfold split. induction tokens as [|s rest IH]; intros H; [reflexivity|].
  inversion H as [|? ? [Hne Hs] Hrest]; subst.
  destruct rest as [|s' rest'].
  - cbn [join_blank]. rewrite <- (append_nil_r s) at 1.
    rewrite (@split_from_word s EmptyString EmptyString Hs). cbn [append split_from].
    destruct s; [congruence | reflexivity].
  - change (join_blank (s :: s' :: rest')) with (s ++ String " " (join_blank (s' :: rest')))%string.
    rewrite (@split_from_word s _ EmptyString Hs). cbn [append split_from].
    change (isspace " ") with true. cbv iota.
    rewrite (IH Hrest). destruct s; [congruence | reflexivity].
Qed.

Lemma ints_printed (base : Z) (zs : list Z) :
  base = 10%Z \/ base = 0%Z -> ints base (map str_of_int zs) = Some zs.
Proof.
  intros Hb. induction zs as [|z zs IH]; [reflexivity|].
  cbn [map ints]. rewrite (int_str_of_int z Hb), IH. reflexivity.
Qed.

Lemma prefix_other_head (a c : ascii) (u t : string) :
  a <> c -> String.prefix (String a u) (String c t) = false.
Proof. intros H. cbn. destruct (ascii_dec a c); [contradiction | reflexivity]. Qed.

(** A string without the first character of [sub] does not contain it. *)
Lemma contains_none (P : ascii -> bool) (a : ascii) (u s : string) :
  P a = false -> all_chars P s = true -> contains (String a u) s = false.
Proof.
  intros Ha. induction s as [|c s IH]; intros Hs; [reflexivity|].
  cbn [all_chars] in Hs. apply andb_true_iff in Hs. destruct Hs as [Hc Hs].
  cbn [contains]. rewrite prefix_other_head by (intro E; subst; congruence).
  rewrite (IH Hs). reflexivity.
Qed.

Lemma prefix_nil (t : string) : String.prefix EmptyString t = true.
Proof. destruct t; reflexivity. Qed.

Lemma prefix_app (s t : string) : String.prefix s (s ++ t) = true.
Proof.
  induction s as [|c s IH]; cbn [append]; [apply prefix_nil|].
  cbn. destruct (ascii_dec c c); [exact IH | congruence].
Qed.

Lemma contains_prefix (sub s : string) :
  String.prefix sub s = true -> contains sub s = true.
Proof. intros H. destruct s; cbn [contains]; rewrite H; reflexivity. Qed.

Lemma split_on_from_whole (sep : ascii) (s piece : string) :
  all_chars (fun c => negb (Ascii.eqb c sep)) s = true ->
  split_on_from sep s piece = [(piece ++ s)%string].
Proof.
  revert piece. induction s as [|c s IH]; intros piece Hs; cbn [split_on_from].
  - rewrite append_nil_r. reflexivity.
  - cbn [all_chars] in Hs. apply andb_true_iff in Hs. destruct Hs as [Hc Hs].
    apply negb_true_iff in Hc. rewrite Hc, (IH _ Hs), append_assoc. reflexivity.
Qed.

Lemma numeric_no (a : ascii) (s : string) :
  is_numeric a = false -> all_chars is_numeric s = true ->
  all_chars (fun c => negb (Ascii.eqb c a)) s = true.
Proof.
  intros Ha. apply all_chars_weaken. intros c Hc. apply negb_true_iff, Ascii.eqb_neq.
  intro E; subst. congruence.
Qed.

Lemma solid_app (a b : string) : solid (a ++ b) = solid a && solid b.
Proof. apply all_chars_app. Qed.

(** [replace] scanning text that cannot begin an occurrence, and passing
    over an occurrence. *)
Lemma replace_pass (a : ascii) (old' new s t : string) :
  all_chars (fun c => negb (Ascii.eqb c a)) s = true ->
  replace_from (String a old') new (s ++ t) 0 = (s ++ replace_from (String a old') new t 0)%string.
Proof.
  induction s as [|c s IH]; intros Hs; cbn [append]; [reflexivity|].
  cbn [all_chars] in Hs. apply andb_true_iff in Hs. destruct Hs as [Hc Hs].
  apply negb_true_iff, Ascii.eqb_neq in Hc.
  cbn [replace_from]. rewrite prefix_other_head by congruence.
  rewrite (IH Hs). reflexivity.
Qed.

Lemma replace_pass_char (a c : ascii) (old' new t : string) :
  c <> a ->
  replace_from (String a old') new (String c t) 0
  = String c (replace_from (String a old') new t 0).
Proof. intros H. cbn [replace_from]. rewrite prefix_other_head by congruence. reflexivity. Qed.

Lemma replace_skip (old new u t : string) :
  replace_from old new (u ++ t) (String.length u) = replace_from old new t 0.
Proof.
  induction u as [|c u IH]; cbn [append String.length].
  - destruct t; reflexivity.
  - cbn [replace_from]. exact IH.
Qed.

Lemma replace_hit (a : ascii) (old' new t : string) :
  replace_from (String a old') new (String a old' ++ t) 0
  = (new ++ replace_from (String a old') new t 0)%string.
Proof.
  cbn [append]. cbn [replace_from].
  change (String a (old' ++ t)) with (String a old' ++ t)%string.
  rewrite prefix_app. cbn [String.length].
  replace (S (String.length old') - 1)%nat with (String.length old') by lia.
  rewrite replace_skip. reflexivity.
Qed.

Lemma append_char (c : ascii) (t : string) : (String c EmptyString ++ t)%string = String c t.
Proof. reflexivity. Qed.

Lemma append_nil_l (t : string) : (EmptyString ++ t)%string = t.
Proof. reflexivity. Qed.

Lemma replace_hit_char (a : ascii) (new t : string) :
  replace_from (String a EmptyString) new (String a t) 0
  = (new ++ replace_from (String a EmptyString) new t 0)%string.
Proof. apply (replace_hit a EmptyString new t). Qed.

Lemma replace_clean (a : ascii) (old' new s : string) :
  all_chars (fun c => negb (Ascii.eqb c a)) s = true ->
  replace_from (String a old') new s 0 = s.
Proof.
  intros H. rewrite <- (append_nil_r s) at 1. rewrite (@replace_pass a old' new s EmptyString H).
  cbn [replace_from]. apply append_nil_r.
Qed.

Lemma split_once_key (sep : ascii) (k v piece : string) :
  all_chars (fun c => negb (Ascii.eqb c sep)) k = true ->
  split_once_from sep (k ++ String sep v) piece = ((piece ++ k)%string, Some v).
Proof.
  revert piece. induction k as [|c k IH]; intros piece Hk; cbn [append split_once_from].
  - rewrite Ascii.eqb_refl, append_nil_r. reflexivity.
  - cbn [all_chars] in Hk. apply andb_true_iff in Hk. destruct Hk as [Hc Hk].
    apply negb_true_iff in Hc. rewrite Hc, (IH _ Hk), append_assoc. reflexivity.
Qed.

Lemma split_once_none (sep : ascii) (s piece : string) :
  all_chars (fun c => negb (Ascii.eqb c sep)) s = true ->
  split_once_from sep s piece = ((piece ++ s)%string, None).
Proof.
  revert piece. induction s as [|c s IH]; intros piece Hs; cbn [split_once_from].
  - rewrite append_nil_r. reflexivity.
  - cbn [all_chars] in Hs. apply andb_true_iff in Hs. destruct Hs as [Hc Hs].
    apply negb_true_iff in Hc. rewrite Hc, (IH _ Hs), append_assoc. reflexivity.
Qed.

Lemma contains_app (sub a b : string) :
  contains sub b = true -> contains sub (a ++ b) = true.
Proof.
  intros H. induction a as [|c a IH]; cbn [append]; [exact H|].
  cbn [contains]. rewrite IH. apply orb_true_r.
Qed.

(** A keyed token [k=<int>] as the factory zeros parser sees it. *)
Lemma zeros_token_facts (k : string) (z : Z) :
  all_chars (fun c => negb (Ascii.eqb c "=")) k = true -> solid k = true ->
  zeros_token k z <> EmptyString
  /\ solid (zeros_token k z) = true
  /\ contains "=" (zeros_token k z) = true
  /\ split_once "=" (zeros_token k z) = (k, Some (strip (str_of_int z))).
Proof.
  intros Hk Hs. destruct (str_of_int_facts z) as (Nz & _ & _ & _).
  unfold zeros_token. repeat split.
  - destruct k; discriminate.
  - rewrite !solid_app, Hs, (numeric_solid _ Nz). reflexivity.
  - apply contains_app. apply contains_prefix. apply (prefix_app "=" (str_of_int z)).
  - unfold split_once. change ("=" ++ str_of_int z)%string with (String "=" (str_of_int z)).
    rewrite (@split_once_key "=" k (str_of_int z) EmptyString Hk).
    unfold strip. rewrite (strip_solid isspace _ (numeric_solid _ Nz)). reflexivity.
Qed.
End ReplyFacts.

Section SnapshotReply.
Import PyStr PyStrFacts ReplyFacts.

(** X19.  The reply [snapshot_adc] reads.  The payload the firmware
    prints, four decimal codes and then the gains after [G=], is returned as
    these codes and gains, signs included; a payload of four codes without a
    [G=] part gives the gains (0, 0, 0, 0); a payload of fewer than four
    parts is refused as too short, before any number is read. *)
Theorem snap_payload_round_trip (codes gains : vec4 Z) :
  snap_of_payload (snap_reply codes gains) = inr (codes, gains)
  /\ snap_of_payload (zeros_reply_plain codes) = inr (codes, zero4)
  /\ (forall payload, (List.length (split payload) < 4)%nat ->
                      snap_of_payload payload = inl SnapTooShort).
Proof.
  destruct codes as [c1 c2 c3 c4], gains as [g1 g2 g3 g4].
  unfold snap_reply, zeros_reply_plain. cbn [ch1 ch2 ch3 ch4].
  destruct (str_of_int_facts c1) as (Nc1 & Ec1 & Ic1 & _).
  destruct (str_of_int_facts c2) as (Nc2 & Ec2 & Ic2 & _).
  destruct (str_of_int_facts c3) as (Nc3 & Ec3 & Ic3 & _).
  destruct (str_of_int_facts c4) as (Nc4 & Ec4 & Ic4 & _).
  destruct (str_of_int_facts g1) as (Ng1 & Eg1 & Ig1 & _).
  destruct (str_of_int_facts g2) as (Ng2 & Eg2 & Ig2 & _).
  destruct (str_of_int_facts g3) as (Ng3 & Eg3 & Ig3 & _).
  destruct (str_of_int_facts g4) as (Ng4 & Eg4 & Ig4 & _).
  set (s1 := str_of_int c1) in *. set (s2 := str_of_int c2) in *.
  set (s3 := str_of_int c3) in *. set (s4 := str_of_int c4) in *.
  set (t1 := str_of_int g1) in *. set (t2 := str_of_int g2) in *.
  set (t3 := str_of_int g3) in *. set (t4 := str_of_int g4) in *.
  clearbody s1 s2 s3 s4 t1 t2 t3 t4.
  assert (HG : forall s, all_chars is_numeric s = true -> contains "G=" s = false)
    by (intros s; apply contains_none; reflexivity).
  split; [|split].
  - unfold snap_of_payload. rewrite split_join.
    + cbn [List.length Nat.ltb Nat.leb firstn ints]. rewrite Ic1, Ic2, Ic3, Ic4.
      cbn [option_map from_gain_part]. rewrite !HG by assumption.
      rewrite (@contains_prefix "G=" ("G=" ++ t1) (prefix_app "G=" t1)).
      unfold split_on. cbn [append split_on_from].
      change (Ascii.eqb "G" "=") with false. change (Ascii.eqb "=" "=") with true.
      cbv iota. rewrite split_on_from_whole by (apply numeric_no; [reflexivity | exact Ng1]).
      cbn [nth_error append firstn ints]. rewrite Ig1, Ig2, Ig3, Ig4. reflexivity.
    + repeat constructor; try assumption; try (apply numeric_solid; assumption).
      * discriminate.
      * change (solid ("G=" ++ t1)) with (solid t1). apply numeric_solid. exact Ng1.
  - unfold snap_of_payload. rewrite split_join.
    + cbn [List.length Nat.ltb Nat.leb firstn ints]. rewrite Ic1, Ic2, Ic3, Ic4.
      cbn [option_map from_gain_part]. rewrite !HG by assumption. reflexivity.
    + repeat constructor; try assumption; apply numeric_solid; assumption.
  - intros payload H. unfold snap_of_payload. apply Nat.ltb_lt in H. rewrite H. reflexivity.
Qed.
End SnapshotReply.

Section GainsReply.
Import PyStr PyStrFacts ReplyFacts.

(** X20.  The reply [get_gains] reads.  From a payload of four entries
    [HEAD<n>=<gain>] the gains are returned in the order of the entries,
    whatever the head numbers [n]: the labels are not read. *)
Theorem gains_payload_round_trip (heads gains : vec4 Z) :
  gains_of_payload (gains_reply heads gains) = Some gains.
Proof.
  destruct heads as [h1 h2 h3 h4], gains as [g1 g2 g3 g4].
  unfold gains_reply. cbn [ch1 ch2 ch3 ch4].
  destruct (str_of_int_facts h1) as (Nh1 & Eh1 & _).
  destruct (str_of_int_facts h2) as (Nh2 & Eh2 & _).
  destruct (str_of_int_facts h3) as (Nh3 & Eh3 & _).
  destruct (str_of_int_facts h4) as (Nh4 & Eh4 & _).
  destruct (str_of_int_facts g1) as (Ng1 & Eg1 & Ig1 & _).
  destruct (str_of_int_facts g2) as (Ng2 & Eg2 & Ig2 & _).
  destruct (str_of_int_facts g3) as (Ng3 & Eg3 & Ig3 & _).
  destruct (str_of_int_facts g4) as (Ng4 & Eg4 & Ig4 & _).
  set (s1 := str_of_int h1) in *. set (s2 := str_of_int h2) in *.
  set (s3 := str_of_int h3) in *. set (s4 := str_of_int h4) in *.
  set (t1 := str_of_int g1) in *. set (t2 := str_of_int g2) in *.
  set (t3 := str_of_int g3) in *. set (t4 := str_of_int g4) in *.
  clearbody s1 s2 s3 s4 t1 t2 t3 t4.
  assert (NH : forall s, all_chars is_numeric s = true ->
                     all_chars (fun c => negb (Ascii.eqb c "H")) s = true)
    by (intro s; apply numeric_no; reflexivity).
  assert (NE : forall s, all_chars is_numeric s = true ->
                     all_chars (fun c => negb (Ascii.eqb c "=")) s = true)
    by (intro s; apply numeric_no; reflexivity).
  unfold gains_of_payload, replace. cbn [join_blank].
  rewrite !append_assoc.
  repeat first
    [ rewrite replace_hit
    | rewrite append_char
    | rewrite append_nil_l
    | rewrite replace_pass_char by discriminate
    | match goal with
      | H : all_chars is_numeric ?s = true
        |- context [replace_from (String ?a ?o) ?n (?s ++ ?t) 0] =>
          rewrite (@replace_pass a o n s t (NH s H))
      end ].
  rewrite (@replace_clean "H" "EAD" EmptyString _ (NH _ Ng4)).
  repeat first
    [ rewrite replace_hit_char
    | rewrite append_char
    | rewrite append_nil_l
    | rewrite replace_pass_char by discriminate
    | match goal with
      | H : all_chars is_numeric ?s = true
        |- context [replace_from (String ?a ?o) ?n (?s ++ ?t) 0] =>
          rewrite (@replace_pass a o n s t (NE s H))
      end ].
  rewrite (@replace_clean "=" EmptyString " " _ (NE _ Ng4)).
  assert (HS : split (join_blank [s1; t1; s2; t2; s3; t3; s4; t4])
               = [s1; t1; s2; t2; s3; t3; s4; t4])
    by (apply split_join; repeat constructor; auto using numeric_solid).
  cbn [join_blank] in HS. rewrite HS.
  cbn [odd_entries ints]. rewrite Ig1, Ig2, Ig3, Ig4. reflexivity.
Qed.
End GainsReply.

Section FactoryZerosReply.
Import PyStr PyStrFacts ReplyFacts.

(** X21.  The payload of [FACTORY_ZEROS?].  Both forms the docstring
    gives, four plain integers and [h1=.. h2=.. h3=.. h4=..], are read back
    as the four integers printed.  A payload of fewer than four parts is
    too short.  One [=] anywhere switches the whole payload to the keyed
    form: three plain integers followed by [h4=..] are refused for the
    missing [h1]. *)
Theorem factory_zeros_payload_forms (z : vec4 Z) :
  factory_zeros_of_payload (zeros_reply_plain z) = inr z
  /\ factory_zeros_of_payload (zeros_reply_keyed z) = inr z
  /\ factory_zeros_of_payload (zeros_reply_mixed z) = inl (ZerosMissing "h1")
  /\ (forall payload, (List.length (split payload) < 4)%nat ->
                      factory_zeros_of_payload payload = inl ZerosTooShort).
Proof.
  destruct z as [z1 z2 z3 z4].
  destruct (str_of_int_facts z1) as (N1 & E1 & _ & I1).
  destruct (str_of_int_facts z2) as (N2 & E2 & _ & I2).
  destruct (str_of_int_facts z3) as (N3 & E3 & _ & I3).
  destruct (str_of_int_facts z4) as (N4 & E4 & _ & I4).
  assert (NC : forall s, all_chars is_numeric s = true -> contains "=" s = false)
    by (intros s Hs; apply (@contains_none is_numeric "=" EmptyString s eq_refl Hs)).
  assert (NS : forall s, all_chars is_numeric s = true ->
                         split_once "=" s = (s, None))
    by (intros s Hs; apply (@split_once_none "=" s EmptyString (numeric_no "=" s eq_refl Hs))).
  repeat split.
  - unfold factory_zeros_of_payload, zeros_reply_plain. cbn [ch1 ch2 ch3 ch4].
    rewrite split_join by (repeat constructor; auto using numeric_solid).
    cbn [List.length Nat.ltb Nat.leb existsb firstn].
    rewrite !NC by assumption. cbn [orb ints]. rewrite I1, I2, I3, I4. reflexivity.
  - unfold factory_zeros_of_payload, zeros_reply_keyed. cbn [ch1 ch2 ch3 ch4].
    destruct (@zeros_token_facts "h1" z1 eq_refl eq_refl) as (A1 & B1 & C1 & D1).
    destruct (@zeros_token_facts "h2" z2 eq_refl eq_refl) as (A2 & B2 & C2 & D2).
    destruct (@zeros_token_facts "h3" z3 eq_refl eq_refl) as (A3 & B3 & C3 & D3).
    destruct (@zeros_token_facts "h4" z4 eq_refl eq_refl) as (A4 & B4 & C4 & D4).
    rewrite split_join by (repeat constructor; auto).
    cbn [List.length Nat.ltb Nat.leb existsb]. rewrite C1. cbn [orb].
    unfold kv_of_parts. cbn [fold_left]. rewrite D1, D2, D3, D4.
    unfold zeros_get. unfold strip.
    rewrite !(strip_solid isspace _ (numeric_solid _ N1)), !(strip_solid isspace _ (numeric_solid _ N2)),
      !(strip_solid isspace _ (numeric_solid _ N3)), !(strip_solid isspace _ (numeric_solid _ N4)).
    change (lower (strip_with isspace "h1")) with "h1"%string.
    change (lower (strip_with isspace "h2")) with "h2"%string.
    change (lower (strip_with isspace "h3")) with "h3"%string.
    change (lower (strip_with isspace "h4")) with "h4"%string.
    cbn [kv_get String.eqb Ascii.eqb Bool.eqb].
    rewrite I1, I2, I3, I4. reflexivity.
  - unfold factory_zeros_of_payload, zeros_reply_mixed. cbn [ch1 ch2 ch3 ch4].
    destruct (@zeros_token_facts "h4" z4 eq_refl eq_refl) as (A4 & B4 & C4 & D4).
    rewrite split_join by (repeat constructor; auto using numeric_solid).
    cbn [List.length Nat.ltb Nat.leb existsb].
    rewrite !NC by assumption. rewrite C4. cbn [orb].
    unfold kv_of_parts. cbn [fold_left]. rewrite (NS _ N1), (NS _ N2), (NS _ N3). rewrite D4.
    unfold zeros_get.
    change (lower (strip "h4")) with "h4"%string.
    cbn [kv_get String.eqb Ascii.eqb Bool.eqb]. reflexivity.
  - intros payload H. unfold factory_zeros_of_payload.
    apply Nat.ltb_lt in H. rewrite H. reflexivity.
Qed.
End FactoryZerosReply.

(* ------------------------------------------------------------------ *)
(** ** The exchanges on the wire *)

Module WireFacts.
Import PyStr PyStrFacts ReplyFacts Wire.

Lemma printable_app (a b : string) : printable (a ++ b) = printable a && printable b.
Proof. apply all_chars_app. Qed.

Lemma numeric_printable (s : string) : all_chars is_numeric s = true -> printable s = true.
Proof.
  apply all_chars_weaken. intros c. unfold is_numeric, is_digit.
  rewrite orb_true_iff, !andb_true_iff, !Nat.leb_le, Nat.ltb_lt.
  intros [[H1 H2]|H]; [lia|]. apply Ascii.eqb_eq in H. subst c. cbn. lia.
Qed.

Lemma ascii_ignore_printable (s : string) : printable s = true -> ascii_ignore s = s.
Proof.
  induction s as [|c s IH]; cbn [printable all_chars ascii_ignore]; [reflexivity|].
  rewrite andb_true_iff. intros [Hc Hs]. fold (printable s) in Hs.
  rewrite (IH Hs). unfold is_ascii.
  apply andb_true_iff in Hc. destruct Hc as [_ Hc]. apply Nat.ltb_lt in Hc.
  replace (nat_of_ascii c <? 128)%nat with true by (symmetry; apply Nat.ltb_lt; lia).
  reflexivity.
Qed.

Lemma ascii_ignore_app (a b : string) :
  ascii_ignore (a ++ b) = (ascii_ignore a ++ ascii_ignore b)%string.
Proof.
  induction a as [|c a IH]; cbn [append ascii_ignore]; [reflexivity|].
  rewrite IH. destruct (is_ascii c); reflexivity.
Qed.

Lemma endswith_newline_printable (s : string) :
  printable s = true -> endswith newline s = false.
Proof.
  induction s as [|c s IH]; [reflexivity|].
  cbn [printable all_chars]. rewrite andb_true_iff. intros [Hc Hs]. fold (printable s) in Hs.
  cbn [endswith]. rewrite (IH Hs), orb_false_r.
  unfold newline. cbn [String.eqb].
  destruct (Ascii.eqb_spec "010"%char c) as [E|E]; [|reflexivity].
  subst c. cbn in Hc. discriminate Hc.
Qed.

(** A printable command goes out as one line. *)
Lemma writeln_printable (cmd : string) (w : wire) :
  printable cmd = true ->
  _writeln cmd w = (Done tt, mkWire (rx w) ((cmd ++ newline)%string :: tx w)
                                    (clock_reads w) (slept w)).
Proof.
  intros H. unfold _writeln, ser_write.
  rewrite (endswith_newline_printable _ H). cbn [negb].
  rewrite ascii_ignore_app, (ascii_ignore_printable _ H). reflexivity.
Qed.

Lemma rstrip_newline (s : string) :
  rstrip_with isspace (s ++ newline) = rstrip_with isspace s.
Proof.
  induction s as [|c s IH]; [reflexivity|].
  cbn [append rstrip_with]. rewrite IH. reflexivity.
Qed.

Lemma rstrip_app (a b : string) :
  b <> EmptyString -> rstrip_with isspace b = b ->
  rstrip_with isspace (a ++ b) = (a ++ b)%string.
Proof.
  intros Hne Hb. induction a as [|c a IH]; [exact Hb|].
  cbn [append rstrip_with]. rewrite IH.
  destruct (a ++ b)%string eqn:E; [|reflexivity].
  destruct a; cbn in E; [congruence | discriminate].
Qed.

Lemma length_rstrip (s : string) :
  (String.length (rstrip_with isspace s) <= String.length s)%nat.
Proof.
  induction s as [|c s IH]; [apply Nat.le_refl|].
  cbn [rstrip_with]. destruct (rstrip_with isspace s) as [|d u] eqn:E.
  - destruct (isspace c); cbn [String.length]; lia.
  - cbn [String.length] in *. lia.
Qed.

Lemma length_lstrip (s : string) :
  (String.length (lstrip_with isspace s) <= String.length s)%nat.
Proof.
  induction s as [|c s IH]; [apply Nat.le_refl|].
  cbn [lstrip_with]. destruct (isspace c); cbn [String.length] in *; lia.
Qed.

(** Text that [strip] leaves as it is begins and ends with something else
    than a blank. *)
Lemma stripped_ends (c : ascii) (t : string) :
  strip (String c t) = String c t ->
  isspace c = false /\ rstrip_with isspace (String c t) = String c t.
Proof.
  unfold strip, strip_with. cbn [lstrip_with]. destruct (isspace c) eqn:Hc; intros H.
  - exfalso. pose proof (length_rstrip (lstrip_with isspace t)) as H1.
    pose proof (length_lstrip t) as H2. rewrite H in H1. cbn [String.length] in H1. lia.
  - split; [reflexivity | exact H].
Qed.

(** What [_readline] makes of a reply line. *)
Lemma read_reply_line (c : ascii) (t : string) :
  printable (String c t) = true -> isspace c = false ->
  rstrip_with isspace (String c t) = String c t ->
  strip (ascii_ignore (reply_line (String c t))) = String c t.
Proof.
  intros Hp Hc Hr. unfold reply_line.
  rewrite ascii_ignore_app, (ascii_ignore_printable _ Hp).
  change (ascii_ignore newline) with newline.
  unfold strip, strip_with. cbn [append lstrip_with]. rewrite Hc.
  change (String c (t ++ newline)) with (String c t ++ newline)%string.
  rewrite rstrip_newline. exact Hr.
Qed.

Lemma reply_line_nonempty (s : string) : reply_line s <> EmptyString.
Proof. unfold reply_line, newline. apply append_nonempty_r. Qed.

(** The line of an [OK] reply and the payload [_ask] takes from it. *)
Lemma ok_line_payload (p : string) :
  printable p = true -> strip p = p ->
  let line := strip (ascii_ignore (reply_line ("OK " ++ p))) in
  String.prefix "OK" line = true /\ strip (drop 2 line) = p.
Proof.
  intros Hp Hs. destruct p as [|c t].
  - split; reflexivity.
  - destruct (stripped_ends Hs) as [Hc Hr].
    cbv zeta.
    change ("OK " ++ String c t)%string with (String "O" ("K " ++ String c t)).
    rewrite (@read_reply_line "O" ("K " ++ String c t)).
    + split; [reflexivity|]. cbn [append drop]. unfold strip, strip_with.
      cbn [lstrip_with]. change (isspace " ") with true. cbv iota.
      cbn [lstrip_with]. rewrite Hc. exact Hr.
    + change (String "O" ("K " ++ String c t)) with ("OK " ++ String c t)%string.
      rewrite printable_app, Hp. reflexivity.
    + reflexivity.
    + change (String "O" ("K " ++ String c t)) with ("OK " ++ String c t)%string.
      apply rstrip_app; [discriminate | exact Hr].
Qed.

(** One exchange: the command goes out, the next line is taken. *)
Lemma ask_line (cmd raw : string) (rest : list string) (w : wire) :
  printable cmd = true -> rx w = raw :: rest -> raw <> EmptyString ->
  _ask cmd w =
  (let line := strip (ascii_ignore raw) in
   Done (if String.prefix "OK" line then (ST_OK, strip (drop 2 line))
         else if String.prefix "ERR" line then (ST_ERR, strip (drop 3 line))
         else if String.prefix "BUSY" line then (ST_BUSY, EmptyString)
         else (ST_ERR, line)),
   mkWire rest ((cmd ++ newline)%string :: tx w) (clock_reads w) (slept w)).
Proof.
  intros Hc Hrx Hraw. unfold _ask, bind. rewrite (@writeln_printable cmd w Hc).
  unfold _readline. cbn [rx tx clock_reads slept]. rewrite Hrx.
  destruct raw as [|a r]; [congruence|]. cbv zeta.
  destruct (String.prefix "OK" _); [reflexivity|].
  destruct (String.prefix "ERR" _); [reflexivity|].
  destruct (String.prefix "BUSY" _); reflexivity.
Qed.

Lemma ask_ok (cmd p : string) (rest : list string) (w : wire) :
  printable cmd = true -> printable p = true -> strip p = p ->
  rx w = reply_line ("OK " ++ p) :: rest ->
  _ask cmd w = (Done (ST_OK, p),
                mkWire rest ((cmd ++ newline)%string :: tx w) (clock_reads w) (slept w)).
Proof.
  intros Hc Hp Hs Hrx.
  rewrite (@ask_line cmd _ rest w Hc Hrx (reply_line_nonempty _)).
  destruct (ok_line_payload Hp Hs) as [H1 H2]. cbv zeta in *. rewrite H1, H2. reflexivity.
Qed.

Lemma ask_ok_bare (cmd : string) (rest : list string) (w : wire) :
  printable cmd = true -> rx w = reply_line "OK" :: rest ->
  _ask cmd w = (Done (ST_OK, EmptyString),
                mkWire rest ((cmd ++ newline)%string :: tx w) (clock_reads w) (slept w)).
Proof.
  intros Hc Hrx. rewrite (@ask_line cmd _ rest w Hc Hrx (reply_line_nonempty _)). reflexivity.
Qed.

Lemma err_line_payload (p : string) :
  printable p = true -> strip p = p ->
  let line := strip (ascii_ignore (reply_line ("ERR " ++ p))) in
  String.prefix "OK" line = false /\ String.prefix "ERR" line = true
  /\ strip (drop 3 line) = p.
Proof.
  intros Hp Hs. destruct p as [|c t].
  - repeat split; reflexivity.
  - destruct (stripped_ends Hs) as [Hc Hr].
    cbv zeta.
    change ("ERR " ++ String c t)%string with (String "E" ("RR " ++ String c t)).
    rewrite (@read_reply_line "E" ("RR " ++ String c t)).
    + repeat split; try reflexivity. cbn [append drop]. unfold strip, strip_with.
      cbn [lstrip_with]. change (isspace " ") with true. cbv iota.
      cbn [lstrip_with]. rewrite Hc. exact Hr.
    + change (String "E" ("RR " ++ String c t)) with ("ERR " ++ String c t)%string.
      rewrite printable_app, Hp. reflexivity.
    + reflexivity.
    + change (String "E" ("RR " ++ String c t)) with ("ERR " ++ String c t)%string.
      apply rstrip_app; [discriminate | exact Hr].
Qed.

Lemma ask_err (cmd p : string) (rest : list string) (w : wire) :
  printable cmd = true -> printable p = true -> strip p = p ->
  rx w = reply_line ("ERR " ++ p) :: rest ->
  _ask cmd w = (Done (ST_ERR, p),
                mkWire rest ((cmd ++ newline)%string :: tx w) (clock_reads w) (slept w)).
Proof.
  intros Hc Hp Hs Hrx.
  rewrite (@ask_line cmd _ rest w Hc Hrx (reply_line_nonempty _)).
  destruct (err_line_payload Hp Hs) as (H1 & H2 & H3). cbv zeta in *.
  rewrite H1, H2, H3. reflexivity.
Qed.


Lemma ask_busy (cmd : string) (rest : list string) (w : wire) :
  printable cmd = true -> rx w = reply_line "BUSY" :: rest ->
  _ask cmd w = (Done (ST_BUSY, EmptyString),
                mkWire rest ((cmd ++ newline)%string :: tx w) (clock_reads w) (slept w)).
Proof.
  intros Hc Hrx. rewrite (@ask_line cmd _ rest w Hc Hrx (reply_line_nonempty _)). reflexivity.
Qed.


End WireFacts.

Section SnapshotExchange.
Import PyStr PyStrFacts ReplyFacts Wire WireFacts.
Local Open Scope Qc_scope.

Variable time_at : nat -> Qc.

Lemma inverse_nonneg (x : Qc) : 0 < x -> PyNum.ltb (1 / x) 0 = false.
Proof.
  intros H. apply PyNumFacts.ltb_ge. unfold Qcle, Qclt in *.
  unfold Qcdiv, Qcmult, Qcinv. cbn [this Q2Qc]. rewrite !Qred_correct. rewrite Qmult_1_l.
  apply Qinv_le_0_compat. apply Qlt_le_weak. exact H.
Qed.

(** The polls of [snapshot_adc] while the device is busy, up to the reply
    with the payload. *)
Lemma snap_loop_polls (timeout_s sleep_s t0 : Qc) (p : string) (rest : list string) :
  printable p = true -> strip p = p -> PyNum.ltb sleep_s 0 = false ->
  forall (k fuel : nat) (w : wire),
    (k < fuel)%nat ->
    (forall i, (i < k)%nat -> time_at (clock_reads w + i) - t0 <= timeout_s) ->
    rx w = (repeat (reply_line "BUSY") k ++ reply_line ("OK " ++ p) :: rest)%list ->
    snap_loop time_at fuel timeout_s sleep_s t0 w
    = (snap_result p,
       mkWire rest (repeat ("SNAP?" ++ newline)%string (S k) ++ tx w)%list
              (clock_reads w + k) (repeat sleep_s k ++ slept w)%list).
Proof.
  intros Hp Hs Hsl. induction k as [|k IH]; intros fuel w Hf Hclock Hrx.
  - destruct fuel as [|fuel]; [lia|]. cbn [repeat app] in Hrx.
    cbn [snap_loop]. unfold bind.
    rewrite (@ask_ok "SNAP?" p rest w eq_refl Hp Hs Hrx). cbn [status_eqb negb].
    rewrite Nat.add_0_r. reflexivity.
  - destruct fuel as [|fuel]; [lia|]. cbn [repeat app] in Hrx.
    cbn [snap_loop]. unfold bind at 1.
    rewrite (@ask_busy "SNAP?" _ w eq_refl Hrx). cbn [status_eqb].
    unfold bind at 1. unfold time_time at 1. cbn [clock_reads rx tx slept].
    assert (H0 : PyNum.ltb timeout_s (time_at (clock_reads w) - t0) = false).
    { apply PyNumFacts.ltb_ge. specialize (Hclock 0%nat ltac:(lia)).
      rewrite Nat.add_0_r in Hclock. exact Hclock. }
    rewrite H0. unfold bind at 1. unfold time_sleep at 1. rewrite Hsl.
    cbn [clock_reads rx tx slept].
    rewrite IH.
    + cbn [clock_reads rx tx slept]. f_equal. f_equal.
      * change (("SNAP?" ++ newline)%string :: tx w)
          with ([("SNAP?" ++ newline)%string] ++ tx w)%list.
        rewrite app_assoc. f_equal.
        change [("SNAP?" ++ newline)%string] with (repeat ("SNAP?" ++ newline)%string 1).
        rewrite <- repeat_app. replace (S k + 1)%nat with (S (S k)) by lia. reflexivity.
      * lia.
      * change (sleep_s :: slept w) with ([sleep_s] ++ slept w)%list.
        rewrite app_assoc. f_equal.
        change [sleep_s] with (repeat sleep_s 1). rewrite <- repeat_app.
        replace (k + 1)%nat with (S k) by lia. reflexivity.
    + lia.
    + intros i Hi. cbn [clock_reads]. specialize (Hclock (S i) ltac:(lia)).
      replace (S (clock_reads w) + i)%nat with (clock_reads w + S i)%nat by lia. exact Hclock.
    + reflexivity.
Qed.


(** X22.  [snapshot_adc] on a device that acknowledges the arming, answers
    [BUSY] to [k] polls and then sends a payload: when the polling rate is
    positive and the clock stays within [timeout_s] of the start at each of
    the [k] readings, the call returns what the payload parser makes of
    the payload.  It has written the arming command and [k + 1] polls, has
    read the clock [k + 1] times, has slept [1 / poll_hz] after each
    [BUSY], and leaves the lines after the payload unread.  With [k = 0]
    the clock is not consulted: a payload is accepted however late. *)
Theorem snapshot_adc_polls_until_ready
  (n_frames : Z) (timeout_s poll_hz : Qc) (k : nat) (p : string) (rest : list string) (w : wire) :
  0 < poll_hz ->
  printable p = true -> strip p = p ->
  (forall i, (i < k)%nat ->
             time_at (clock_reads w + 1 + i) - time_at (clock_reads w) <= timeout_s) ->
  rx w = (reply_line "OK" :: repeat (reply_line "BUSY") k
            ++ reply_line ("OK " ++ p) :: rest)%list ->
  snapshot_adc time_at n_frames timeout_s poll_hz w
  = (snap_result p,
     mkWire rest
            (repeat ("SNAP?" ++ newline)%string (S k)
               ++ ("SNAP " ++ str_of_int n_frames ++ newline)%string :: tx w)%list
            (clock_reads w + 1 + k)
            (repeat (1 / poll_hz) k ++ slept w)%list).
Proof.
  intros Hhz Hp Hs Hclock Hrx.
  destruct (str_of_int_facts n_frames) as (Nn & _).
  assert (Hcmd : printable ("SNAP " ++ str_of_int n_frames) = true)
    by (rewrite printable_app, (numeric_printable _ Nn); reflexivity).
  unfold snapshot_adc. unfold bind at 1.
  rewrite (@ask_ok_bare _ _ w Hcmd Hrx). cbn [status_eqb negb].
  unfold bind at 1. unfold time_time at 1. cbn [clock_reads rx tx slept].
  assert (Hne : PyNum.eqb poll_hz 0 = false).
  { apply PyNumFacts.eqb_neq. intro E. rewrite E in Hhz. exact (Qclt_not_le _ _ Hhz (Qcle_refl _)). }
  rewrite Hne. unfold bind at 1. unfold ret at 1. cbn [rx].
  rewrite (@snap_loop_polls timeout_s (1 / poll_hz) (time_at (clock_reads w)) p rest Hp Hs
             (inverse_nonneg Hhz) k).
  - cbn [clock_reads rx tx slept]. rewrite append_assoc.
    replace (S (clock_reads w) + k)%nat with (clock_reads w + 1 + k)%nat by lia. reflexivity.
  - cbn [rx]. rewrite length_app, repeat_length. cbn [List.length]. lia.
  - intros i Hi. cbn [clock_reads].
    replace (S (clock_reads w) + i)%nat with (clock_reads w + 1 + i)%nat by lia.
    apply Hclock. exact Hi.
  - reflexivity.
Qed.


End SnapshotExchange.

Lemma snapshot_adc_polls_until_ready_witness :
  Wire.snapshot_adc ticking_clock 1 (PyNum.qc 1 1) (PyNum.qc 200 1) wire_two_busy
  = (Wire.snap_result "1000 3000 3000 3000 G=0 1 2 3",
     Wire.mkWire [] ["SNAP?" ++ Wire.newline; "SNAP?" ++ Wire.newline; "SNAP?" ++ Wire.newline;
                     "SNAP 1" ++ Wire.newline]%string
                 3 [(1 / PyNum.qc 200 1)%Qc; (1 / PyNum.qc 200 1)%Qc]).
Proof.
  apply (@snapshot_adc_polls_until_ready ticking_clock 1 (PyNum.qc 1 1) (PyNum.qc 200 1) 2
           "1000 3000 3000 3000 G=0 1 2 3" [] wire_two_busy).
  - reflexivity.
  - reflexivity.
  - reflexivity.
  - intros i Hi. do 2 (destruct i as [|i]; [vm_compute; discriminate|]). lia.
  - reflexivity.
Defined.

Section AcquisitionControl.
Import PyStr PyStrFacts ReplyFacts Wire WireFacts.
Local Open Scope Qc_scope.

Variable time_at : nat -> Qc.

Lemma printed_int_payload (z : Z) :
  printable (str_of_int z) = true /\ strip (str_of_int z) = str_of_int z.
Proof.
  destruct (str_of_int_facts z) as (N & _). split.
  - apply numeric_printable, N.
  - apply strip_solid. apply (numeric_solid _ N).
Qed.

Lemma state_enum_reply (s : Z) (rest : list string) (w : wire) :
  rx w = reply_line ("OK " ++ str_of_int s) :: rest ->
  state_enum w = (Done s, mkWire rest (("STATE?" ++ newline)%string :: tx w)
                                 (clock_reads w) (slept w)).
Proof.
  intros Hrx. destruct (printed_int_payload s) as [Hp Hs].
  unfold state_enum. unfold bind at 1.
  rewrite (@ask_ok "STATE?" _ rest w eq_refl Hp Hs Hrx). cbn [status_eqb negb].
  unfold _parse_int. rewrite (@int_str_of_int 0 s (or_intror eq_refl)). reflexivity.
Qed.

(** X24.  [arm_acquisition].  A frame count of 0 or less is refused before
    anything is written.  Otherwise [ACQ ARM <frames>] goes out first; when
    it is refused the error carries the device's text and no [TRIGARM]
    follows.  With [use_trigger], [TRIGARM <frames> R] (or [F]) follows the
    acknowledged arming; when that is refused the error is raised with the
    device left armed: no further command is written. *)
Theorem arm_acquisition_sequence (frames : Z) (use_trigger trigger_rising : bool) (w : wire) :
  let arm := ("ACQ ARM " ++ str_of_int frames ++ newline)%string in
  let trig := ("TRIGARM " ++ str_of_int frames ++ " "
                 ++ (if trigger_rising then "R" else "F") ++ newline)%string in
  ((frames <= 0)%Z ->
   arm_acquisition frames use_trigger trigger_rising w
   = (Fail (ValueError "frames must be > 0"), w))
  /\ ((0 < frames)%Z -> forall e rest,
      printable e = true -> strip e = e -> rx w = reply_line ("ERR " ++ e) :: rest ->
      arm_acquisition frames use_trigger trigger_rising w
      = (Fail (CoreDAQError ("ACQ ARM failed: " ++ e)),
         mkWire rest (arm :: tx w) (clock_reads w) (slept w)))
  /\ ((0 < frames)%Z -> use_trigger = false -> forall rest,
      rx w = reply_line "OK" :: rest ->
      arm_acquisition frames use_trigger trigger_rising w
      = (Done tt, mkWire rest (arm :: tx w) (clock_reads w) (slept w)))
  /\ ((0 < frames)%Z -> use_trigger = true -> forall rest,
      rx w = reply_line "OK" :: reply_line "OK" :: rest ->
      arm_acquisition frames use_trigger trigger_rising w
      = (Done tt, mkWire rest (trig :: arm :: tx w) (clock_reads w) (slept w)))
  /\ ((0 < frames)%Z -> use_trigger = true -> forall e rest,
      printable e = true -> strip e = e ->
      rx w = reply_line "OK" :: reply_line ("ERR " ++ e) :: rest ->
      arm_acquisition frames use_trigger trigger_rising w
      = (Fail (CoreDAQError ("TRIGARM failed: " ++ e)),
         mkWire rest (trig :: arm :: tx w) (clock_reads w) (slept w))).
Proof.
  cbv zeta. destruct (printed_int_payload frames) as [Hp _].
  assert (Harm : printable ("ACQ ARM " ++ str_of_int frames) = true)
    by (rewrite printable_app, Hp; reflexivity).
  assert (Htrig : printable ("TRIGARM " ++ str_of_int frames ++ " "
                               ++ (if trigger_rising then "R" else "F")) = true)
    by (rewrite !printable_app, Hp; destruct trigger_rising; reflexivity).
  assert (Hpos : (0 < frames)%Z -> (frames <=? 0)%Z = false) by (intro; apply Z.leb_gt; lia).
  split; [|split; [|split; [|split]]].
  - intros H. unfold arm_acquisition. apply Z.leb_le in H. rewrite H. reflexivity.
  - intros H e rest He Hs Hrx. unfold arm_acquisition. rewrite (Hpos H).
    unfold bind at 1. rewrite (@ask_err _ e rest w Harm He Hs Hrx). cbn [status_eqb negb].
    rewrite append_assoc. reflexivity.
  - intros H Hu rest Hrx. unfold arm_acquisition. rewrite (Hpos H), Hu.
    unfold bind at 1. rewrite (@ask_ok_bare _ rest w Harm Hrx). cbn [status_eqb negb].
    rewrite append_assoc. reflexivity.
  - intros H Hu rest Hrx. unfold arm_acquisition. rewrite (Hpos H), Hu.
    unfold bind at 1. rewrite (@ask_ok_bare _ _ w Harm Hrx). cbn [status_eqb negb].
    cbv zeta. unfold bind at 1.
    rewrite (@ask_ok_bare _ rest (mkWire _ _ _ _) Htrig eq_refl). cbn [status_eqb negb].
    cbn [clock_reads rx tx slept]. rewrite !append_assoc. reflexivity.
  - intros H Hu e rest He Hs Hrx. unfold arm_acquisition. rewrite (Hpos H), Hu.
    unfold bind at 1. rewrite (@ask_ok_bare _ _ w Harm Hrx). cbn [status_eqb negb].
    cbv zeta. unfold bind at 1.
    rewrite (@ask_err _ e rest (mkWire _ _ _ _) Htrig He Hs eq_refl). cbn [status_eqb negb].
    cbn [clock_reads rx tx slept]. rewrite !append_assoc. reflexivity.
Qed.

(** The turns of [wait_for_completion] while the device reports states
    other than 4, up to the report of state 4. *)
Lemma wait_loop_polls (poll_s : Qc) (timeout_s : option Qc) (t0 : Qc) (rest : list string) :
  PyNum.ltb poll_s 0 = false ->
  forall (states : list Z) (fuel : nat) (w : wire),
    (List.length states < fuel)%nat ->
    Forall (fun s => s <> 4%Z) states ->
    (forall t, timeout_s = Some t -> forall i, (i < List.length states)%nat ->
               time_at (clock_reads w + i) - t0 <= t) ->
    rx w = (map (fun s => reply_line ("OK " ++ str_of_int s)) states
              ++ reply_line "OK 4" :: rest)%list ->
    wait_loop time_at fuel poll_s timeout_s t0 w
    = (Done tt,
       mkWire rest (repeat ("STATE?" ++ newline)%string (S (List.length states)) ++ tx w)%list
              (clock_reads w + match timeout_s with
                               | Some _ => List.length states
                               | None => 0
                               end)
              (repeat poll_s (List.length states) ++ slept w)%list).
Proof.
  intros Hsl. induction states as [|s states IH]; intros fuel w Hf Hall Hclock Hrx.
  - destruct fuel as [|fuel]; [cbn in Hf; lia|]. cbn [map app] in Hrx.
    cbn [wait_loop]. unfold bind at 1.
    change "OK 4"%string with ("OK " ++ str_of_int 4)%string in Hrx.
    rewrite (@state_enum_reply _ _ _ Hrx). cbn [Z.eqb Pos.eqb].
    cbn [List.length repeat app]. destruct timeout_s; rewrite Nat.add_0_r; reflexivity.
  - destruct fuel as [|fuel]; [cbn in Hf; lia|]. cbn [map app] in Hrx.
    inversion Hall as [|? ? Hs Hall']; subst.
    cbn [wait_loop]. unfold bind at 1. rewrite (@state_enum_reply _ _ _ Hrx).
    apply Z.eqb_neq in Hs. rewrite Hs.
    assert (Hstep : forall w1 : wire,
               rx w1 = (map (fun s => reply_line ("OK " ++ str_of_int s)) states
                          ++ reply_line "OK 4" :: rest)%list ->
               tx w1 = (("STATE?" ++ newline)%string :: tx w) ->
               slept w1 = slept w ->
               clock_reads w1 = (clock_reads w + match timeout_s with
                                                 | Some _ => 1 | None => 0 end)%nat ->
               (_ <- time_sleep poll_s ;; wait_loop time_at fuel poll_s timeout_s t0)%wire w1
               = (Done tt,
                  mkWire rest
                    (repeat ("STATE?" ++ newline)%string (S (List.length (s :: states)))
                       ++ tx w)%list
                    (clock_reads w + match timeout_s with
                                     | Some _ => List.length (s :: states)
                                     | None => 0
                                     end)
                    (repeat poll_s (List.length (s :: states)) ++ slept w)%list)).
    { intros w1 R T Sl C. unfold bind at 1. unfold time_sleep at 1. rewrite Hsl.
      rewrite IH.
      - cbn [clock_reads rx tx slept List.length]. rewrite T, Sl, C. f_equal. f_equal.
        + change (("STATE?" ++ newline)%string :: tx w)
            with ([("STATE?" ++ newline)%string] ++ tx w)%list.
          rewrite app_assoc. f_equal.
          change [("STATE?" ++ newline)%string] with (repeat ("STATE?" ++ newline)%string 1).
          rewrite <- repeat_app.
          replace (S (List.length states) + 1)%nat with (S (S (List.length states))) by lia.
          reflexivity.
        + destruct timeout_s; lia.
        + change (poll_s :: slept w) with ([poll_s] ++ slept w)%list.
          rewrite app_assoc. f_equal.
          change [poll_s] with (repeat poll_s 1). rewrite <- repeat_app.
          replace (List.length states + 1)%nat with (S (List.length states)) by lia.
          reflexivity.
      - cbn [List.length] in Hf. lia.
      - exact Hall'.
      - intros t Ht i Hi. cbn [clock_reads]. rewrite C, Ht.
        specialize (Hclock t Ht (S i) ltac:(cbn [List.length]; lia)).
        replace (clock_reads w + 1 + i)%nat with (clock_reads w + S i)%nat by lia.
        exact Hclock.
      - cbn [rx]. exact R. }
    destruct timeout_s as [t|].
    + unfold bind at 1. unfold bind at 1. unfold time_time at 1.
      cbn [clock_reads rx tx slept]. unfold ret at 1.
      assert (H0 : PyNum.ltb t (time_at (clock_reads w) - t0) = false).
      { apply PyNumFacts.ltb_ge.
        specialize (Hclock t eq_refl 0%nat ltac:(cbn [List.length]; lia)).
        rewrite Nat.add_0_r in Hclock. exact Hclock. }
      rewrite H0. apply Hstep; try reflexivity. cbn [clock_reads]. lia.
    + unfold bind at 1. unfold ret at 1. apply Hstep; try reflexivity.
      cbn [clock_reads]. lia.
Qed.



(** X25.  [wait_for_completion] on a device that reports states other
    than 4 and then state 4: when [poll_s] is not negative and, with a
    [timeout_s], the clock stays within it at each reading, the call
    returns after one [STATE?] per report, having slept [poll_s] after each
    report but the last.  Without a [timeout_s] the clock is read once, at
    the start; with one it is read once more per report other than 4.  A
    first report of state 4 returns whatever the clock and the timeout. *)
Theorem wait_for_completion_polls
  (poll_s : Qc) (timeout_s : option Qc) (states : list Z) (rest : list string) (w : wire) :
  0 <= poll_s ->
  Forall (fun s => s <> 4%Z) states ->
  (forall t, timeout_s = Some t -> forall i, (i < List.length states)%nat ->
             time_at (clock_reads w + 1 + i) - time_at (clock_reads w) <= t) ->
  rx w = (map (fun s => reply_line ("OK " ++ str_of_int s)) states
            ++ reply_line "OK 4" :: rest)%list ->
  wait_for_completion time_at poll_s timeout_s w
  = (Done tt,
     mkWire rest (repeat ("STATE?" ++ newline)%string (S (List.length states)) ++ tx w)%list
            (clock_reads w + 1 + match timeout_s with
                                 | Some _ => List.length states
                                 | None => 0
                                 end)
            (repeat poll_s (List.length states) ++ slept w)%list).
Proof.
  intros Hpoll Hall Hclock Hrx.
  unfold wait_for_completion. unfold bind at 1. unfold time_time at 1.
  cbn [clock_reads rx tx slept].
  rewrite (@wait_loop_polls poll_s timeout_s (time_at (clock_reads w)) rest
             (proj2 (PyNumFacts.ltb_ge _ _) Hpoll) states).
  - cbn [clock_reads rx tx slept]. f_equal. f_equal. lia.
  - rewrite Hrx, length_app, length_map. cbn [List.length]. lia.
  - exact Hall.
  - intros t Ht i Hi. cbn [clock_reads].
    replace (S (clock_reads w) + i)%nat with (clock_reads w + 1 + i)%nat by lia.
    apply (Hclock t Ht i Hi).
  - cbn [rx]. exact Hrx.
Qed.


End AcquisitionControl.

Lemma wait_for_completion_polls_witness :
  Wire.wait_for_completion ticking_clock (PyNum.qc 1 4) (Some (PyNum.qc 1 1)) wire_running
  = (Wire.Done tt,
     Wire.mkWire [] ["STATE?" ++ Wire.newline; "STATE?" ++ Wire.newline;
                     "STATE?" ++ Wire.newline]%string
                 3 [PyNum.qc 1 4; PyNum.qc 1 4]).
Proof.
  apply (@wait_for_completion_polls ticking_clock (PyNum.qc 1 4) (Some (PyNum.qc 1 1))
           [2; 3]%Z [] wire_running).
  - vm_compute. discriminate.
  - repeat constructor; discriminate.
  - intros t Ht i Hi. injection Ht as <-.
    do 2 (destruct i as [|i]; [vm_compute; discriminate|]). cbn in Hi. lia.
  - reflexivity.
Defined.

Section SensorReplies.
Import PyStr PyStrFacts ReplyFacts Wire WireFacts.

Variable float : string -> option Qc.

(** What [_readline] makes of [OK], one more character and a reading. *)
Lemma sensor_line (c : ascii) (v : string) :
  printable (String c v) = true -> v <> EmptyString -> strip v = v ->
  let line := strip (ascii_ignore (reply_line ("OK" ++ String c v))) in
  String.prefix "OK" line = true /\ strip (drop 3 line) = v.
Proof.
  intros Hp Hne Hs. destruct v as [|d t]; [congruence|].
  destruct (stripped_ends Hs) as [Hd Hr]. cbv zeta.
  change ("OK" ++ String c (String d t))%string with (String "O" ("K" ++ String c (String d t))).
  rewrite (@read_reply_line "O" ("K" ++ String c (String d t))).
  - split; [reflexivity|]. cbn [append drop]. exact Hs.
  - change (String "O" ("K" ++ String c (String d t)))
      with ("OK" ++ String c (String d t))%string.
    rewrite printable_app, Hp. reflexivity.
  - reflexivity.
  - change (String "O" ("K" ++ String c (String d t)))
      with (("OK" ++ String c EmptyString) ++ String d t)%string.
    apply rstrip_app; [discriminate | exact Hr].
Qed.

(** X27.  The sensor queries take the reading from the fourth character of
    the reply on: the character after [OK] is passed over unread, whatever
    it is.  So [OK 21.5], [OK=21.5] and [OK-21.5] all give [float("21.5")]:
    a sign that follows [OK] directly is lost. *)
Theorem sensor_reading_skips_a_character (c : ascii) (v : string) (rest : list string) (w : wire) :
  printable (String c v) = true -> v <> EmptyString -> strip v = v ->
  rx w = reply_line ("OK" ++ String c v) :: rest ->
  let reading (label cmd : string) :=
    (match float v with
     | Some x => Done x
     | None => Fail (CoreDAQError ("Bad " ++ label ++ " format: '" ++ v ++ "'")%string)
     end,
     mkWire rest ((cmd ++ newline)%string :: tx w) (clock_reads w) (slept w)) in
  get_head_temperature_C float w = reading "TEMP"%string "TEMP?"%string
  /\ get_head_humidity float w = reading "HUM"%string "HUM?"%string
  /\ get_die_temperature_C float w = reading "DIE_TEMP"%string "DIE_TEMP?"%string.
Proof.
  intros Hp Hne Hs Hrx. cbv zeta.
  destruct (sensor_line c Hp Hne Hs) as [H1 H2]. cbv zeta in H1, H2.
  repeat split.
  - unfold get_head_temperature_C. unfold bind at 1.
    rewrite (@writeln_printable "TEMP?" w eq_refl). unfold bind at 1.
    unfold _readline. cbn [rx tx clock_reads slept]. rewrite Hrx.
    destruct (reply_line ("OK" ++ String c v)) eqn:E;
      [exfalso; exact (@reply_line_nonempty _ E)|].
    rewrite H1, H2. cbn [negb]. destruct (float v); reflexivity.
  - unfold get_head_humidity. unfold bind at 1.
    rewrite (@writeln_printable "HUM?" w eq_refl). unfold bind at 1.
    unfold _readline. cbn [rx tx clock_reads slept]. rewrite Hrx.
    destruct (reply_line ("OK" ++ String c v)) eqn:E;
      [exfalso; exact (@reply_line_nonempty _ E)|].
    rewrite H1, H2. cbn [negb]. destruct (float v); reflexivity.
  - unfold get_die_temperature_C. unfold bind at 1.
    rewrite (@writeln_printable "DIE_TEMP?" w eq_refl). unfold bind at 1.
    unfold _readline. cbn [rx tx clock_reads slept]. rewrite Hrx.
    destruct (reply_line ("OK" ++ String c v)) eqn:E;
      [exfalso; exact (@reply_line_nonempty _ E)|].
    rewrite H1, H2. cbn [negb]. destruct (float v); reflexivity.
Qed.

End SensorReplies.

Lemma sensor_reading_skips_a_character_witness :
  Wire.get_head_temperature_C float_5_25 wire_signed_reading
  = (Wire.Done (PyNum.qc 21 4),
     Wire.mkWire [] [("TEMP?" ++ Wire.newline)%string] 0 []).
Proof.
  destruct (@sensor_reading_skips_a_character float_5_25 "-" "5.25" [] wire_signed_reading
              eq_refl ltac:(discriminate) eq_refl eq_refl) as [H _].
  exact H.
Defined.

Section PortDiscovery.
Import Discovery.

Variable answers : nat -> string -> option string.

Lemma probe_pass_sound (select : port_info -> bool) (ports : list port_info) :
  forall n d, In d (fst (probe_pass answers select ports n)) ->
              exists p m, In p ports /\ select p = true /\ device p = d
                          /\ _probe_idn (answers m d) = true.
Proof.
  induction ports as [|p rest IH]; intros n d H; [contradiction H|].
  cbn [probe_pass] in H. destruct (select p) eqn:Hsel.
  - destruct (probe_pass answers select rest (S n)) as [found n'] eqn:E.
    assert (Hrest : In d found ->
                    exists q m, In q (p :: rest) /\ select q = true /\ device q = d
                                /\ _probe_idn (answers m d) = true).
    { intros Hd. destruct (IH (S n) d) as (q & m & Hq & Hs & Hdev & Hok).
      - rewrite E. exact Hd.
      - exists q, m. repeat split; try assumption. right. exact Hq. }
    destruct (_probe_idn (answers n (device p))) eqn:Hok; cbn [fst] in H.
    + destruct H as [H|H]; [|exact (Hrest H)].
      exists p, n. subst d. repeat split; try assumption. left. reflexivity.
    + exact (Hrest H).
  - destruct (IH n d H) as (q & m & Hq & Hs & Hdev & Hok).
    exists q, m. repeat split; try assumption. right. exact Hq.
Qed.

Lemma probe_pass_finds (select : port_info -> bool) (p0 : port_info) (ports : list port_info) :
  In p0 ports -> select p0 = true ->
  (forall n, _probe_idn (answers n (device p0)) = true) ->
  forall n, In (device p0) (fst (probe_pass answers select ports n)).
Proof.
  intros Hin Hsel Hok. induction ports as [|p rest IH]; intros n; [contradiction Hin|].
  cbn [probe_pass]. destruct Hin as [->|Hin].
  - rewrite Hsel, Hok. destruct (probe_pass answers select rest (S n)). left. reflexivity.
  - destruct (select p).
    + specialize (IH Hin (S n)). destruct (probe_pass answers select rest (S n)) as [found n'].
      cbn [fst] in *. destruct (_probe_idn _); [right|]; exact IH.
    + apply IH, Hin.
Qed.

(** X28.  [find] returns only devices of listed ports that answered a
    probe of this call with an [OK] line naming [coredaq].  When a port
    with matching descriptors answers its probes, every device returned has
    matching descriptors: a coreDAQ behind a port without them is left
    out. *)
Theorem find_returns_probed_ports (ports : list port_info) :
  (forall d, In d (find answers ports) ->
             exists p n, In p ports /\ device p = d /\ _probe_idn (answers n d) = true)
  /\ (forall p0, In p0 ports -> _descriptor_match p0 = true ->
                 (forall n, _probe_idn (answers n (device p0)) = true) ->
                 In (device p0) (find answers ports)
                 /\ forall d, In d (find answers ports) ->
                              exists p, In p ports /\ device p = d
                                        /\ _descriptor_match p = true).
Proof.
  split.
  - intros d H. unfold find in H.
    destruct (probe_pass answers _descriptor_match ports 0) as [found n] eqn:E.
    destruct found as [|d0 found'].
    + destruct (@probe_pass_sound (fun _ => true) ports n d H) as (p & m & Hp & _ & Hd & Hok).
      exists p, m. repeat split; assumption.
    + destruct (@probe_pass_sound _descriptor_match ports 0 d) as (p & m & Hp & _ & Hd & Hok).
      * rewrite E. exact H.
      * exists p, m. repeat split; assumption.
  - intros p0 Hin Hmatch Hok.
    pose proof (@probe_pass_finds _descriptor_match p0 ports Hin Hmatch Hok 0) as Hfound.
    unfold find.
    destruct (probe_pass answers _descriptor_match ports 0) as [found n] eqn:E.
    cbn [fst] in Hfound. destruct found as [|d0 found']; [contradiction Hfound|].
    split; [exact Hfound|].
    intros d Hd.
    destruct (@probe_pass_sound _descriptor_match ports 0 d) as (p & m & Hp & Hs & Hdev & _).
    + rewrite E. exact Hd.
    + exists p. repeat split; assumption.
Qed.

End PortDiscovery.

Section SteadyDiscovery.
Import Discovery.

Variable steady : string -> option string.

Lemma probe_pass_steady (answers : nat -> string -> option string)
  (select : port_info -> bool) (ports : list port_info) :
  (forall n d, answers n d = steady d) ->
  forall n, fst (probe_pass answers select ports n)
            = map device (filter (fun p => select p && _probe_idn (steady (device p))) ports).
Proof.
  intros Hst. induction ports as [|p rest IH]; intros n; [reflexivity|].
  cbn [probe_pass filter]. destruct (select p); cbn [andb].
  - specialize (IH (S n)). destruct (probe_pass answers select rest (S n)) as [found n'].
    cbn [fst] in *. rewrite Hst. destruct (_probe_idn (steady (device p)));
      cbn [map]; rewrite IH; reflexivity.
  - apply IH.
Qed.

(** X29.  When each port answers every probe alike, [find] is two
    filters: the ports with matching descriptors that answer, in the order
    listed, or, when there is none, all the ports that answer. *)
Theorem find_is_two_filters (answers : nat -> string -> option string)
  (ports : list port_info) :
  (forall n d, answers n d = steady d) ->
  let answering p := _probe_idn (steady (device p)) in
  find answers ports
  = match filter (fun p => _descriptor_match p && answering p) ports with
    | [] => map device (filter answering ports)
    | known => map device known
    end.
Proof.
  intros Hst. cbv zeta. unfold find.
  pose proof (@probe_pass_steady answers _descriptor_match ports Hst 0) as H1.
  destruct (probe_pass answers _descriptor_match ports 0) as [found n].
  cbn [fst] in H1. subst found.
  destruct (filter (fun p => _descriptor_match p && _probe_idn (steady (device p))) ports)
    as [|p0 known].
  - cbn [map]. rewrite (@probe_pass_steady answers (fun _ => true) ports Hst n).
    reflexivity.
  - reflexivity.
Qed.

End SteadyDiscovery.

Lemma find_is_two_filters_witness :
  Discovery.find (fun _ => both_answer) two_ports = ["/dev/ttyACM0"%string].
Proof.
  rewrite (@find_is_two_filters both_answer (fun _ => both_answer) two_ports
             (fun n d => eq_refl)).
  reflexivity.
Defined.
